(** * Greenify service: response validation and error classification

    A shallow embedding of [service/gemini_client.py] (class [GeminiClient])
    and of the [/answer] handler of [service/app.py], with the properties
    of the response-validation and error-classification pipeline.

    Python values coming out of [json.loads] are the inductive [pyval];
    dictionaries are finite maps ([gmap string pyval]); floats are IEEE-754
    binary64 values in the representation of [SpecFloat]; exceptions are
    explicit ([pyresult]); the one external call ([generate_content]) is
    recorded in a trace.  Library functions that are not part of the
    repository ([json.loads], [float] on strings, [base64.b64decode],
    PIL's [Image.open]/[verify], the generative model) are variables of
    the section [Service]. *)

From Stdlib Require Import ZArith NArith String Ascii DecimalString List Bool Lia.
From Stdlib Require Import Floats.SpecFloat.
From stdpp Require Import gmap strings list fin_maps.

#[local] Set Warnings "-register-all".
#[local] Open Scope Z_scope.

(* ===================================================================== *)
(** ** Python strings *)
(* ===================================================================== *)

(** A Python string is written here by the bytes of its UTF-8 encoding,
    one 8-bit character for each byte; a surrogate code point (U+D800 to
    U+DFFF), which a Python string can hold and UTF-8 proper cannot, by the
    three bytes 0xED, 0xA0-0xBF, 0x80-0xBF of the generalised encoding.
    [in], [str.startswith] and [str.split] on an ASCII separator are exact
    on these bytes; [len], slicing and iteration go by code point ([len],
    [take], [chars]).  [str.lower] and [str.strip] are Python's on ASCII
    text: letters [A-Z] are lowered, and the white space characters are
    9-13, 28-31 and 32.  Beyond ASCII Python consults the Unicode tables:
    a theorem that needs [lower] to be Python's on a text it does not
    control asks for that text to be ASCII ([is_ascii]); the white space
    of [str.strip] beyond ASCII is a table of nineteen code points, and
    [blank] is [s.strip() == ""] with all of them: a theorem that needs a
    text not to be blank asks for [blank] to be [false]. *)
Module PyStr.

Definition lower_char (c : ascii) : ascii :=
  let n := N_of_ascii c in
  if (65 <=? n)%N && (n <=? 90)%N then ascii_of_N (n + 32) else c.

Fixpoint lower (s : string) : string :=
  match s with
  | EmptyString => EmptyString
  | String c s' => String (lower_char c) (lower s')
  end.

Definition is_space (c : ascii) : bool :=
  let n := N_of_ascii c in
  ((9 <=? n)%N && (n <=? 13)%N) || ((28 <=? n)%N && (n <=? 32)%N).

Fixpoint lstrip (s : string) : string :=
  match s with
  | EmptyString => EmptyString
  | String c s' => if is_space c then lstrip s' else s
  end.

Fixpoint rstrip (s : string) : string :=
  match s with
  | EmptyString => EmptyString
  | String c s' =>
      match rstrip s' with
      | EmptyString => if is_space c then EmptyString else String c EmptyString
      | r => String c r
      end
  end.

(** [s.strip()] *)
Definition strip (s : string) : string := rstrip (lstrip s).

(** [s == ""], i.e. [not s] for a string. *)
Definition is_empty (s : string) : bool :=
  match s with EmptyString => true | String _ _ => false end.

(** [needle in hay] *)
Fixpoint contains (needle hay : string) : bool :=
  String.prefix needle hay
  || match hay with
     | EmptyString => false
     | String _ hay' => contains needle hay'
     end.

(** [hay.startswith(p)] *)
Definition startswith (p hay : string) : bool := String.prefix p hay.

(** [s.split(sep)] for a one-character separator. *)
Fixpoint split (sep : ascii) (s : string) : list string :=
  match s with
  | EmptyString => [EmptyString]
  | String c s' =>
      if Ascii.eqb c sep then EmptyString :: split sep s'
      else match split sep s' with
           | x :: xs => String c x :: xs
           | [] => [String c EmptyString]
           end
  end.

(** [any(term in s for term in terms)] *)
Definition any_in (terms : list string) (s : string) : bool :=
  existsb (fun term => contains term s) terms.

(** The white space of [str.strip] beyond ASCII: U+0085 and U+00A0 (two
    bytes), U+1680, U+2000 to U+200A, U+2028, U+2029, U+202F, U+205F and
    U+3000 (three bytes). *)
Definition is_space_2 (c1 c2 : ascii) : bool :=
  let n2 := N_of_ascii c2 in
  (N_of_ascii c1 =? 194)%N && ((n2 =? 133)%N || (n2 =? 160)%N).

Definition is_space_3 (c1 c2 c3 : ascii) : bool :=
  let n1 := N_of_ascii c1 in
  let n2 := N_of_ascii c2 in
  let n3 := N_of_ascii c3 in
  ((n1 =? 225)%N && (n2 =? 154)%N && (n3 =? 128)%N)
  || ((n1 =? 226)%N && (n2 =? 128)%N
      && (((128 <=? n3)%N && (n3 <=? 138)%N)
          || (n3 =? 168)%N || (n3 =? 169)%N || (n3 =? 175)%N))
  || ((n1 =? 226)%N && (n2 =? 129)%N && (n3 =? 159)%N)
  || ((n1 =? 227)%N && (n2 =? 128)%N && (n3 =? 128)%N).

(** [s.strip() == ""]: every code point of [s] is white space. *)
Fixpoint blank (s : string) : bool :=
  match s with
  | EmptyString => true
  | String c1 s1 =>
      if is_space c1 then blank s1
      else
        match s1 with
        | EmptyString => false
        | String c2 s2 =>
            if is_space_2 c1 c2 then blank s2
            else
              match s2 with
              | EmptyString => false
              | String c3 s3 => if is_space_3 c1 c2 c3 then blank s3 else false
              end
        end
  end.

(** ASCII text: every byte is below 128. *)
Definition is_ascii_char (c : ascii) : bool := (N_of_ascii c <? 128)%N.

Fixpoint is_ascii (s : string) : bool :=
  match s with
  | EmptyString => true
  | String c s' => is_ascii_char c && is_ascii s'
  end.

(** A visible ASCII character (33 to 126) somewhere in the string, as any
    JSON text has: such a string is not blank, for Python as for
    [strip]. *)
Fixpoint has_ascii_text (s : string) : bool :=
  match s with
  | EmptyString => false
  | String c s' =>
      ((33 <=? N_of_ascii c)%N && (N_of_ascii c <=? 126)%N) || has_ascii_text s'
  end.

(** The bytes 0x80-0xBF continue a code point that a byte before them
    started. *)
Definition is_continuation (c : ascii) : bool :=
  (128 <=? N_of_ascii c)%N && (N_of_ascii c <? 192)%N.

(** [len(s)]: the number of code points. *)
Fixpoint len (s : string) : nat :=
  match s with
  | EmptyString => 0%nat
  | String c s' => if is_continuation c then len s' else S (len s')
  end.

(** [s[:n]]: the first [n] code points. *)
Fixpoint take (n : nat) (s : string) : string :=
  match s with
  | EmptyString => EmptyString
  | String c s' =>
      if is_continuation c then String c (take n s')
      else match n with
           | O => EmptyString
           | S n' => String c (take n' s')
           end
  end.

(** [list(s)]: the characters of [s], each a string of one code point. *)
Fixpoint chars (s : string) : list string :=
  match s with
  | EmptyString => []
  | String c s' =>
      match s' with
      | String c' _ =>
          if is_continuation c' then
            match chars s' with
            | x :: xs => String c x :: xs
            | [] => [String c EmptyString]
            end
          else String c EmptyString :: chars s'
      | EmptyString => [String c EmptyString]
      end
  end.

(** A surrogate code point in the string: the byte 0xED followed by one
    of 0xA0-0xBF. *)
Fixpoint has_surrogate (s : string) : bool :=
  match s with
  | EmptyString => false
  | String c s' =>
      match s' with
      | String c' _ =>
          (N_of_ascii c =? 237)%N && (160 <=? N_of_ascii c')%N && (N_of_ascii c' <=? 191)%N
      | EmptyString => false
      end
      || has_surrogate s'
  end.

End PyStr.

(* ===================================================================== *)
(** ** Python floats *)
(* ===================================================================== *)

(** A Python [float] is an IEEE-754 binary64 number: precision 53,
    [emax] 1024. *)
Module PyFloat.

Definition prec : Z := 53.
Definition emax : Z := 1024.

(** The float nearest to an integer (round to nearest, ties to even);
    an infinity when the integer is out of range. *)
Definition of_Z (z : Z) : spec_float := binary_normalize prec emax z 0 false.

Definition div (x y : spec_float) : spec_float := SFdiv prec emax x y.

(** The literals of the source. *)
Definition f0_0 : spec_float := S754_zero false.
Definition f1_0 : spec_float := S754_finite false 4503599627370496 (-52).
Definition f0_5 : spec_float := S754_finite false 4503599627370496 (-53).
Definition f0_6 : spec_float := S754_finite false 5404319552844595 (-53).
Definition f0_7 : spec_float := S754_finite false 6305039478318694 (-53).
Definition f0_8 : spec_float := S754_finite false 7205759403792794 (-53).

Definition is_nan (f : spec_float) : bool :=
  match f with S754_nan => true | _ => false end.

Definition is_infinity (f : spec_float) : bool :=
  match f with S754_infinity _ => true | _ => false end.

(** [x != 0.0], the truth value of a float. *)
Definition nonzero (f : spec_float) : bool :=
  match f with S754_zero _ => false | _ => true end.

Definition ltb (x y : spec_float) : bool := SFltb x y.
Definition leb (x y : spec_float) : bool := SFleb x y.

(** [0.0 <= f <= 1.0] *)
Definition in_unit_interval (f : spec_float) : bool := leb f0_0 f && leb f f1_0.

End PyFloat.

(* ===================================================================== *)
(** ** Python values, exceptions *)
(* ===================================================================== *)

(** The values [json.loads] builds. *)
Inductive pyval : Type :=
| PNone
| PBool (b : bool)
| PInt (z : Z)
| PFloat (f : spec_float)
| PStr (s : string)
| PList (l : list pyval)
| PDict (d : gmap string pyval).

Abbreviation dict := (gmap string pyval).

(** [bool(v)] *)
Definition truthy (v : pyval) : bool :=
  match v with
  | PNone => false
  | PBool b => b
  | PInt z => negb (z =? 0)
  | PFloat f => PyFloat.nonzero f
  | PStr s => negb (PyStr.is_empty s)
  | PList l => match l with [] => false | _ :: _ => true end
  | PDict d => match map_to_list d with [] => false | _ :: _ => true end
  end.

(** [isinstance(v, str)], [isinstance(v, list)], [isinstance(v, dict)] *)
Definition is_str (v : pyval) : bool :=
  match v with PStr _ => true | _ => false end.
Definition is_list (v : pyval) : bool :=
  match v with PList _ => true | _ => false end.
Definition is_dict (v : pyval) : bool :=
  match v with PDict _ => true | _ => false end.

(** Exceptions: the module's own [GeminiAPIError] (message, [error_type];
    its [original_error] field is stored but never read and is left out),
    and the built-in ones, by class name and message. *)
Inductive exn : Type :=
| GeminiAPIError (message : string) (error_type : string)
| PyError (cls : string) (message : string).

(** [GeminiAPIError(message)]: [error_type] defaults to ["general"]. *)
Definition GeminiAPIError_default (message : string) : exn :=
  GeminiAPIError message "general".

(** [str(e)] *)
Definition str_exn (e : exn) : string :=
  match e with
  | GeminiAPIError m _ => m
  | PyError _ m => m
  end.

Definition is_GeminiAPIError (e : exn) : bool :=
  match e with GeminiAPIError _ _ => true | PyError _ _ => false end.

(** The [error_type] attribute; only [GeminiAPIError] has one. *)
Definition error_type_of (e : exn) : option string :=
  match e with
  | GeminiAPIError _ t => Some t
  | PyError _ _ => None
  end.

(** The outcome of running a piece of Python: a value or a raised
    exception. *)
Inductive pyresult (A : Type) : Type :=
| Ok (a : A)
| Raise (e : exn).
Arguments Ok {A} a.
Arguments Raise {A} e.

Definition bind {A B} (m : pyresult A) (k : A -> pyresult B) : pyresult B :=
  match m with
  | Ok a => k a
  | Raise e => Raise e
  end.

Notation "'let*' x ':=' m 'in' k" := (bind m (fun x => k))
  (at level 10, x name, m at level 100, k at level 200).

(** [try: body  except Exception as e: handler e] *)
Definition try_except {A} (body : pyresult A) (handler : exn -> pyresult A)
  : pyresult A :=
  match body with
  | Ok a => Ok a
  | Raise e => handler e
  end.

(** [try: body  except GeminiAPIError: raise  except Exception as e: handler e] *)
Definition try_reraise_gemini {A} (body : pyresult A)
    (handler : exn -> pyresult A) : pyresult A :=
  match body with
  | Ok a => Ok a
  | Raise e => if is_GeminiAPIError e then Raise e else handler e
  end.

(** What a call into an imported library does: it returns, or raises one
    of the library's (or Python's built-in) exceptions.  A library never
    raises this module's [GeminiAPIError]. *)
Inductive libresult (A : Type) : Type :=
| Returns (a : A)
| Raises (cls : string) (message : string).
Arguments Returns {A} a.
Arguments Raises {A} cls message.

Definition run {A} (r : libresult A) : pyresult A :=
  match r with
  | Returns a => Ok a
  | Raises cls message => Raise (PyError cls message)
  end.

(** The argument of [handle_api_errors]: any exception object.  Calling
    [str] on it gives its text, or raises when the object's own [__str__]
    is broken; what it raises is an exception object again, whose
    [__str__] may be broken in turn. *)
Inductive error_obj : Type :=
| Exc (e : exn)
| ExcBrokenStr (raised : error_obj).

(** What comes of code that handles such objects: a value, or one of
    them raised. *)
Inductive handled (A : Type) : Type :=
| Returned (a : A)
| Escaped (raised : error_obj).
Arguments Returned {A} a.
Arguments Escaped {A} raised.

Definition py_str (error : error_obj) : handled string :=
  match error with
  | Exc e => Returned (str_exn e)
  | ExcBrokenStr raised => Escaped raised
  end.

(** The exception at the end of such a chain. *)
Fixpoint cause (error : error_obj) : exn :=
  match error with
  | Exc e => e
  | ExcBrokenStr raised => cause raised
  end.

(* ===================================================================== *)
(** ** The objects of the generative-model library *)
(* ===================================================================== *)

(** The [text] attribute of a content part: a string, [None], or absent
    (reading it raises [AttributeError]). *)
Inductive part_text : Type :=
| TextStr (s : string)
| TextNone
| TextMissing.

Record part : Type := { text : part_text }.

Record content : Type := { parts : list part }.

(** [candidate.content] may be [None]. *)
Record candidate : Type := { cand_content : option content }.

(** The raw response: [None], an object without a [candidates] attribute,
    or an object with its list of candidates. *)
Inductive response : Type :=
| RespNone
| RespNoCandidates
| Resp (candidates : list candidate).

(** A response whose first candidate's first part carries [s]. *)
Definition response_of_text (s : string) : response :=
  Resp [ {| cand_content := Some {| parts := [ {| text := TextStr s |} ] |} |} ].

(** [GeminiClient]: the key, the model name, and the authenticated model
    handle ([None] until [_authenticate] has run). *)
Record GeminiClient : Type := {
  api_key : string;
  model_name : string;
  model : option string
}.

(** One call of [model.generate_content([prompt, image])], with the bytes
    the image was opened from. *)
Record api_call : Type := { call_prompt : string; call_image : list Byte.byte }.

(* ===================================================================== *)
(** ** [gemini_client.py]: class [GeminiClient] *)
(* ===================================================================== *)

(** A dictionary display [{k1: v1, ...}]. *)
Definition mk_dict (items : list (string * pyval)) : dict := list_to_map items.

(** [d.setdefault(k, v)] *)
Definition setdefault (k : string) (v : pyval) (d : dict) : dict :=
  match d !! k with
  | Some _ => d
  | None => <[k := v]> d
  end.

(** [try: body  except (ValueError, TypeError): handler] *)
Definition try_except_value_type {A} (body : pyresult A) (handler : pyresult A)
  : pyresult A :=
  match body with
  | Raise (PyError cls _) =>
      if String.eqb cls "ValueError" || String.eqb cls "TypeError"
      then handler else body
  | _ => body
  end.

Section Service.

(** *** What the module imports *)

(** [json.loads]: the parsed value, or [JSONDecodeError] (or any other
    exception). *)
Variable json_loads : string -> libresult pyval.
(** [float(s)] on a string: the parsed float, or [None] for
    [ValueError]. *)
Variable float_of_str : string -> option spec_float.
(** [base64.b64decode] *)
Variable b64decode : string -> libresult (list Byte.byte).
(** PIL: [Image.open(BytesIO(b))] and [img.verify()]. *)
Variable Image : Type.
Variable Image_open : list Byte.byte -> libresult Image.
Variable Image_verify : Image -> libresult unit.
(** [model.generate_content([prompt, image])], the external service. *)
Variable generate_content : string -> Image -> libresult response.
(** [_build_comprehensive_analysis_prompt]: an f-string over the three
    coordinates; pure text construction. *)
Variable _build_comprehensive_analysis_prompt : pyval -> pyval -> pyval -> string.
(** [os.getenv('GEMINI_API_KEY')] *)
Variable getenv_GEMINI_API_KEY : option string.
(** [genai.configure(api_key=...)] followed by
    [genai.GenerativeModel(model_name)]. *)
Variable genai_configure_model : string -> string -> libresult unit.

(** *** [_get_fallback_plants] *)

Definition _get_fallback_plants : list pyval :=
  [ PDict (mk_dict
      [ ("name", PStr "Spider Plant");
        ("image", PStr "");
        ("superimposed_image", PStr "");
        ("description", PStr "Hardy indoor plant that adapts well to various lighting conditions and is easy to care for.");
        ("care_instructions", PStr "Water when soil feels dry, prefers bright indirect light, well-draining soil.");
        ("care_tips", PStr "Remove brown tips, propagate plantlets for new plants, rotate occasionally for even growth.");
        ("AR_model", PStr "");
        ("placement_confidence", PFloat PyFloat.f0_7) ]);
    PDict (mk_dict
      [ ("name", PStr "Pothos");
        ("image", PStr "");
        ("superimposed_image", PStr "");
        ("description", PStr "Versatile trailing plant that thrives in low to medium light and is very forgiving.");
        ("care_instructions", PStr "Water when top inch of soil is dry, tolerates low light, standard potting mix.");
        ("care_tips", PStr "Trim to encourage bushier growth, can grow in water or soil, wipe leaves occasionally.");
        ("AR_model", PStr "");
        ("placement_confidence", PFloat PyFloat.f0_8) ]);
    PDict (mk_dict
      [ ("name", PStr "Snake Plant");
        ("image", PStr "");
        ("superimposed_image", PStr "");
        ("description", PStr "Low-maintenance succulent that tolerates neglect and various lighting conditions.");
        ("care_instructions", PStr "Water sparingly, allow soil to dry completely between waterings, tolerates low light.");
        ("care_tips", PStr "Avoid overwatering, clean leaves with damp cloth, divide to propagate new plants.");
        ("AR_model", PStr "");
        ("placement_confidence", PFloat PyFloat.f0_6) ]) ].

(** *** [handle_api_errors] *)

(** The body of the [try]. *)
Definition handle_api_errors_try (error : error_obj) : handled dict :=
  match py_str error with
  | Escaped raised => Escaped raised
  | Returned error_message =>
  let error_lower := PyStr.lower error_message in
  if PyStr.any_in ["auth"; "credential"; "api key"; "permission"] error_lower then
    Returned (mk_dict
      [ ("description", PStr "Unable to authenticate with plant analysis service. Please try again later.");
        ("plants", PList []);
        ("error", PStr "Authentication failed. Please contact support if this persists.") ])
  else if PyStr.any_in ["quota"; "rate limit"; "too many requests"; "limit exceeded"] error_lower then
    Returned (mk_dict
      [ ("description", PStr "Plant analysis service is currently experiencing high demand. Please try again in a few minutes.");
        ("plants", PList _get_fallback_plants);
        ("error", PStr "Service temporarily unavailable due to high demand. Please try again shortly.") ])
  else if PyStr.any_in ["network"; "connection"; "timeout"; "unreachable"; "dns"] error_lower then
    Returned (mk_dict
      [ ("description", PStr "Unable to connect to plant analysis service. Please check your internet connection and try again.");
        ("plants", PList _get_fallback_plants);
        ("error", PStr "Network connection issue. Please check your internet connection and try again.") ])
  else if PyStr.any_in ["json"; "parse"; "format"; "decode"; "malformed"] error_lower then
    Returned (mk_dict
      [ ("description", PStr "Plant analysis completed, but response formatting failed. Basic recommendations provided.");
        ("plants", PList _get_fallback_plants);
        ("error", PStr "Response processing issue. Basic plant suggestions provided.") ])
  else if PyStr.any_in ["image"; "invalid format"; "decode"; "corrupt"] error_lower then
    Returned (mk_dict
      [ ("description", PStr "Unable to process the uploaded image. Please try with a different image.");
        ("plants", PList []);
        ("error", PStr "Image processing failed. Please try uploading a different image.") ])
  else if PyStr.any_in ["unavailable"; "not found"; "404"; "503"; "service"] error_lower then
    Returned (mk_dict
      [ ("description", PStr "Plant analysis service is temporarily unavailable. Basic recommendations provided.");
        ("plants", PList _get_fallback_plants);
        ("error", PStr "Analysis service temporarily unavailable. Please try again later.") ])
  else
    Returned (mk_dict
      [ ("description", PStr "Plant analysis encountered an issue, but basic recommendations are available.");
        ("plants", PList _get_fallback_plants);
        ("error", PStr "Analysis service encountered an issue. Basic plant suggestions provided.") ])
  end.

(** The [except] branch takes [str(fallback_error)] for the log before it
    returns. *)
Definition handle_api_errors (error : error_obj) : handled dict :=
  match handle_api_errors_try error with
  | Returned response => Returned response
  | Escaped fallback_error =>
      match py_str fallback_error with
      | Escaped raised => Escaped raised
      | Returned _ =>
          Returned (mk_dict
            [ ("description", PStr "Unable to analyze location at this time. Please try again.");
              ("plants", PList []);
              ("error", PStr "Service temporarily unavailable. Please try again later.") ])
      end
  end.

(** *** [_prepare_image_for_api] *)

(** [10 * 1024 * 1024] *)
Definition max_image_bytes : Z := 10 * 1024 * 1024.

(** [len(b)] *)
Definition len_bytes (b : list Byte.byte) : Z := Z.of_nat (length b).

(** The lines under [# Remove data URL prefix if present]. *)
Definition data_url_payload (image_data : string) : pyresult string :=
  if PyStr.startswith "data:image" image_data then
    match nth_error (PyStr.split "," image_data) 1 with
    | Some after_comma => Ok after_comma
    | None => Raise (GeminiAPIError "Malformed data URL format" "image")
    end
  else Ok image_data.

Definition _prepare_image_for_api (image_data : pyval) : pyresult (list Byte.byte) :=
  try_reraise_gemini
    (if negb (truthy image_data) || negb (is_str image_data) then
       Raise (GeminiAPIError "Invalid image data provided" "image")
     else
       match image_data with
       | PStr s =>
           let* image_data := data_url_payload s in
           let* image_bytes :=
             try_except (run (b64decode image_data))
               (fun decode_error =>
                  Raise (GeminiAPIError
                           ("Invalid base64 encoding: " +:+ str_exn decode_error) "image")) in
           let* _ :=
             try_except
               (let* img := run (Image_open image_bytes) in
                let* _ := run (Image_verify img) in
                if max_image_bytes <? len_bytes image_bytes then
                  Raise (GeminiAPIError "Image file too large (max 10MB)" "image")
                else Ok tt)
               (fun img_error =>
                  if PyStr.contains "too large" (str_exn img_error) then Raise img_error
                  else Raise (GeminiAPIError
                                ("Invalid or corrupted image format: " +:+ str_exn img_error)
                                "image")) in
           Ok image_bytes
       | _ => Raise (PyError "AttributeError" "object has no attribute 'startswith'")
       end)
    (fun e => Raise (GeminiAPIError ("Failed to prepare image: " +:+ str_exn e) "image")).

(** *** [_validate_comprehensive_plant_data] *)

(** [required_fields], in the order of the dictionary display. *)
Definition required_fields : list (string * string) :=
  [ ("name", "Unknown Plant");
    ("description", "Plant information not available.");
    ("care_instructions", "Follow general plant care guidelines.");
    ("care_tips", "Monitor plant health and adjust care as needed.") ].

(** One turn of the first loop over [required_fields.items()]. *)
Definition fix_required_field (plant : dict) (item : string * string) : dict :=
  let '(field, default_value) := item in
  match plant !! field with
  | None => <[field := PStr default_value]> plant
  | Some v =>
      if negb (truthy v) || negb (is_str v)
      then <[field := PStr default_value]> plant
      else plant
  end.

Definition fix_superimposed_image (plant : dict) : dict :=
  match plant !! "superimposed_image" with
  | None => <["superimposed_image" := PStr ""]> plant
  | Some v =>
      if negb (is_str v) then <["superimposed_image" := PStr ""]> plant else plant
  end.

(** [float(v)] *)
Definition py_float (v : pyval) : pyresult spec_float :=
  match v with
  | PBool b => Ok (if b then PyFloat.f1_0 else PyFloat.f0_0)
  | PInt z =>
      let f := PyFloat.of_Z z in
      if PyFloat.is_infinity f
      then Raise (PyError "OverflowError" "int too large to convert to float")
      else Ok f
  | PFloat f => Ok f
  | PStr s =>
      match float_of_str s with
      | Some f => Ok f
      | None => Raise (PyError "ValueError" "could not convert string to float")
      end
  | PNone | PList _ | PDict _ =>
      Raise (PyError "TypeError" "float() argument must be a string or a real number")
  end.

Definition fix_placement_confidence (plant : dict) : pyresult dict :=
  match plant !! "placement_confidence" with
  | None => Ok (<["placement_confidence" := PFloat PyFloat.f0_5]> plant)
  | Some confidence =>
      try_except_value_type
        (let* confidence := py_float confidence in
         if PyFloat.ltb confidence PyFloat.f0_0 || PyFloat.ltb PyFloat.f1_0 confidence
         then Raise (PyError "ValueError" "Confidence out of range")
         else Ok (<["placement_confidence" := PFloat confidence]> plant))
        (Ok (<["placement_confidence" := PFloat PyFloat.f0_5]> plant))
  end.

(** One turn of the last loop: [if not plant[field].strip(): ...]. *)
Definition fix_blank_field (acc : pyresult dict) (item : string * string)
  : pyresult dict :=
  let* plant := acc in
  let '(field, default_value) := item in
  match plant !! field with
  | Some (PStr s) =>
      if PyStr.is_empty (PyStr.strip s)
      then Ok (<[field := PStr default_value]> plant)
      else Ok plant
  | Some _ => Raise (PyError "AttributeError" "object has no attribute 'strip'")
  | None => Raise (PyError "KeyError" field)
  end.

(** The function mutates [plant] in place and returns nothing; the
    embedding returns the dictionary as it is left. *)
Definition _validate_comprehensive_plant_data (plant : pyval) : pyresult dict :=
  match plant with
  | PDict plant =>
      let plant := fold_left fix_required_field required_fields plant in
      let plant := setdefault "image" (PStr "") plant in
      let plant := setdefault "AR_model" (PStr "") plant in
      let plant := fix_superimposed_image plant in
      let* plant := fix_placement_confidence plant in
      fold_left fix_blank_field required_fields (Ok plant)
  | _ => Raise (GeminiAPIError_default "Plant data must be a dictionary")
  end.

(** *** [_create_comprehensive_fallback_response] *)

Definition generic_description : string :=
  "Location analysis completed, but detailed parsing failed. The area appears suitable for plant growth based on available information.".

Definition partial_description : string :=
  "Location analysis completed with some details available. Basic plant recommendations provided.".

Definition _create_comprehensive_fallback_response (response_text : string) : dict :=
  let description := generic_description in
  let description :=
    if negb (PyStr.is_empty response_text)
       && (0 <? Z.of_nat (String.length (PyStr.strip response_text)))
    then
      let response_lower := PyStr.lower response_text in
      if PyStr.any_in ["plant"; "grow"; "suitable"; "recommend"] response_lower
      then partial_description
      else description
    else description in
  mk_dict [ ("description", PStr description);
            ("plants", PList _get_fallback_plants) ].

(** *** [_process_comprehensive_response] *)

(** The loop over [enumerate(plants)]: a plant whose validation raises is
    skipped, the others are appended as validation left them. *)
Fixpoint validate_plants (plants : list pyval) : list pyval :=
  match plants with
  | [] => []
  | plant :: rest =>
      match _validate_comprehensive_plant_data plant with
      | Ok plant' => PDict plant' :: validate_plants rest
      | Raise plant_error => validate_plants rest
      end
  end.

(** From [if not isinstance(parsed_response, dict)] to
    [return parsed_response]. *)
Definition process_parsed (parsed_response : pyval) : dict :=
  match parsed_response with
  | PDict parsed_response =>
      let parsed_response :=
        match parsed_response !! "description" with
        | None =>
            <["description" :=
                PStr "Location analysis completed with limited details available."]>
              parsed_response
        | Some _ => parsed_response
        end in
      let parsed_response :=
        match parsed_response !! "plants" with
        | None => <["plants" := PList _get_fallback_plants]> parsed_response
        | Some _ => parsed_response
        end in
      let plants := default (PList []) (parsed_response !! "plants") in
      match plants with
      | PList plants =>
          let validated_plants := validate_plants plants in
          match validated_plants with
          | [] => <["plants" := PList _get_fallback_plants]> parsed_response
          | _ :: _ => <["plants" := PList validated_plants]> parsed_response
          end
      | _ => <["plants" := PList _get_fallback_plants]> parsed_response
      end
  | _ => _create_comprehensive_fallback_response "Invalid response format"
  end.

(** The body of the outer [try]. *)
Definition _process_comprehensive_response_try (response : response)
  : pyresult dict :=
  match response with
  | RespNone => Ok (_create_comprehensive_fallback_response "No response received")
  | RespNoCandidates | Resp [] =>
      Ok (_create_comprehensive_fallback_response "Invalid response structure")
  | Resp (candidate0 :: _) =>
      match cand_content candidate0 with
      | None => Ok (_create_comprehensive_fallback_response "Empty response content")
      | Some content0 =>
          match parts content0 with
          | [] => Ok (_create_comprehensive_fallback_response "Empty response content")
          | part0 :: _ =>
              match text part0 with
              | TextMissing =>
                  Ok (_create_comprehensive_fallback_response "Failed to extract response")
              | TextNone =>
                  Ok (_create_comprehensive_fallback_response "Empty response text")
              | TextStr response_text =>
                  if PyStr.is_empty response_text
                     || PyStr.is_empty (PyStr.strip response_text)
                  then Ok (_create_comprehensive_fallback_response "Empty response text")
                  else
                    match run (json_loads response_text) with
                    | Raise json_error =>
                        Ok (_create_comprehensive_fallback_response response_text)
                    | Ok parsed_response => Ok (process_parsed parsed_response)
                    end
              end
          end
      end
  end.

Definition _process_comprehensive_response (response : response) : pyresult dict :=
  try_except (_process_comprehensive_response_try response)
    (fun e =>
       Ok (_create_comprehensive_fallback_response ("Processing error: " +:+ str_exn e))).

(** *** [analyze_image_and_recommend_plants] *)

(** [len(location) < 2] for a list. *)
Definition shorter_than_2 (l : list pyval) : bool :=
  match l with
  | _ :: _ :: _ => false
  | _ => true
  end.

(** The handler of the [except] around [generate_content]. *)
Definition categorize_api_error (api_error : exn) : exn :=
  let error_msg := PyStr.lower (str_exn api_error) in
  if PyStr.contains "quota" error_msg || PyStr.contains "rate limit" error_msg then
    GeminiAPIError ("API quota exceeded: " +:+ str_exn api_error) "quota"
  else if PyStr.contains "network" error_msg || PyStr.contains "connection" error_msg then
    GeminiAPIError ("Network error: " +:+ str_exn api_error) "network"
  else if PyStr.contains "auth" error_msg || PyStr.contains "permission" error_msg then
    GeminiAPIError ("Authentication error: " +:+ str_exn api_error) "auth"
  else
    GeminiAPIError ("API call failed: " +:+ str_exn api_error) "api".

(** The result, and the external calls made on the way. *)
Definition analyze_image_and_recommend_plants_try
    (self : GeminiClient) (image_data location : pyval)
  : pyresult dict * list api_call :=
  match model self with
  | None => (Raise (GeminiAPIError "Model not authenticated" "auth"), [])
  | Some _ =>
      if negb (truthy image_data) || negb (truthy location) then
        (Raise (GeminiAPIError "Missing required image or location data" "validation"), [])
      else
        match location with
        | PList (latitude :: longitude :: rest) =>
            match
              try_except (_prepare_image_for_api image_data)
                (fun img_error =>
                   Raise (GeminiAPIError
                            ("Image processing failed: " +:+ str_exn img_error) "image"))
            with
            | Raise e => (Raise e, [])
            | Ok processed_image =>
                let altitude := match rest with a :: _ => a | [] => PInt 0 end in
                let prompt :=
                  _build_comprehensive_analysis_prompt latitude longitude altitude in
                match
                  try_except (run (Image_open processed_image))
                    (fun pil_error =>
                       Raise (GeminiAPIError
                                ("Invalid image format: " +:+ str_exn pil_error) "image"))
                with
                | Raise e => (Raise e, [])
                | Ok image =>
                    let calls :=
                      [ {| call_prompt := prompt; call_image := processed_image |} ] in
                    match run (generate_content prompt image) with
                    | Raise api_error => (Raise (categorize_api_error api_error), calls)
                    | Ok response =>
                        (try_except (_process_comprehensive_response response)
                           (fun process_error =>
                              Raise (GeminiAPIError
                                       ("Response processing failed: "
                                          +:+ str_exn process_error) "malformed")),
                         calls)
                    end
                end
            end
        | _ => (Raise (GeminiAPIError "Invalid location format" "validation"), [])
        end
  end.

Definition analyze_image_and_recommend_plants
    (self : GeminiClient) (image_data location : pyval)
  : pyresult dict * list api_call :=
  let '(r, calls) := analyze_image_and_recommend_plants_try self image_data location in
  (try_reraise_gemini r
     (fun e => Raise (GeminiAPIError ("Unexpected analysis error: " +:+ str_exn e) "general")),
   calls).

(** *** [GeminiClient.__init__], [_authenticate], [create_gemini_client] *)

Definition create_gemini_client : pyresult GeminiClient :=
  let name := "gemini-2.5-flash-image-preview" in
  match getenv_GEMINI_API_KEY with
  | None =>
      Raise (GeminiAPIError_default "GEMINI_API_KEY environment variable is required")
  | Some key =>
      if PyStr.is_empty key then
        Raise (GeminiAPIError_default "GEMINI_API_KEY environment variable is required")
      else
        try_except
          (let* _ := run (genai_configure_model key name) in
           Ok {| api_key := key; model_name := name; model := Some name |})
          (fun e =>
             Raise (GeminiAPIError_default ("Authentication failed: " +:+ str_exn e)))
  end.

(* ===================================================================== *)
(** ** [app.py]: the [/answer] handler *)
(* ===================================================================== *)

(** [type(v).__name__] *)
Definition type_name (v : pyval) : string :=
  match v with
  | PNone => "NoneType"
  | PBool _ => "bool"
  | PInt _ => "int"
  | PFloat _ => "float"
  | PStr _ => "str"
  | PList _ => "list"
  | PDict _ => "dict"
  end.

(** [key in data] *)
Definition py_in (key : string) (data : pyval) : pyresult bool :=
  match data with
  | PDict d => Ok (bool_decide (is_Some (d !! key)))
  | PList l =>
      Ok (existsb (fun v => match v with PStr s => String.eqb key s | _ => false end) l)
  | PStr s => Ok (PyStr.contains key s)
  | _ =>
      Raise (PyError "TypeError"
               ("argument of type '" +:+ type_name data +:+ "' is not iterable"))
  end.

(** [data[key]] for a string key. *)
Definition py_getitem (data : pyval) (key : string) : pyresult pyval :=
  match data with
  | PDict d =>
      match d !! key with
      | Some v => Ok v
      | None => Raise (PyError "KeyError" ("'" +:+ key +:+ "'"))
      end
  | PStr _ => Raise (PyError "TypeError" "string indices must be integers, not 'str'")
  | PList _ => Raise (PyError "TypeError" "list indices must be integers or slices, not str")
  | _ =>
      Raise (PyError "TypeError" ("'" +:+ type_name data +:+ "' object is not subscriptable"))
  end.

(** [print]: standard output is taken to be a UTF-8 stream, as Python sets
    it up on a UTF-8 locale; a text with a surrogate in it cannot be
    encoded, and [print] raises.  The texts printed are f-strings, ASCII
    but for the values they interpolate; [str(v)] has a surrogate in it
    only when [v] is a string that has one: numbers, [None] and booleans
    have none, and lists and dictionaries are written with [repr], which
    escapes them.  The text of the [UnicodeEncodeError] also names the
    character and its position in the line; it is cut short here, being
    ASCII in any case and read by nobody: the handler that catches the
    error prints it and answers with a fixed body. *)
Definition str_has_surrogate (v : pyval) : bool :=
  match v with
  | PStr s => PyStr.has_surrogate s
  | _ => false
  end.

(** [print(f"... {v1} ... {vn}")] *)
Definition print_values (values : list pyval) : pyresult unit :=
  if existsb str_has_surrogate values then
    Raise (PyError "UnicodeEncodeError"
             "'utf-8' codec can't encode character: surrogates not allowed")
  else Ok tt.

(** [print(f"... {e}")] for an exception [e] *)
Definition print_exn (e : exn) : pyresult unit := print_values [PStr (str_exn e)].

(** The error bodies the handler builds itself: an empty plant list and
    an [error] text. *)
Definition error_body (description error : string) : pyval :=
  PDict (mk_dict [ ("description", PStr description);
                   ("plants", PList []);
                   ("error", PStr error) ]).

(** The status code chosen in [except GeminiAPIError as gemini_error]. *)
Definition status_code_of (gemini_error : exn) : Z :=
  match error_type_of gemini_error with
  | Some error_type =>
      if String.eqb error_type "auth" then 401
      else if String.eqb error_type "quota" then 429
      else if String.eqb error_type "network" || String.eqb error_type "api" then 503
      else if String.eqb error_type "validation" || String.eqb error_type "image" then 400
      else 500
  | None => 500
  end.

(** The body of the outer [try], from the parsed request body on: the
    JSON body and status code returned (or an exception), and the external
    calls made. *)
Definition answer_try (data : pyval) : pyresult (pyval * Z) * list api_call :=
  if negb (truthy data) then
    (Ok (error_body "Invalid request data." "No data provided in request.", 400), [])
  else
    match
      (let* _ := print_values [data] in
       let* has_image := py_in "image" data in
       if negb has_image then Ok true
       else let* has_location := py_in "location" data in Ok (negb has_location))
    with
    | Raise e => (Raise e, [])
    | Ok true =>
        (Ok (error_body "Missing required fields."
               "Image and location data are required.", 400), [])
    | Ok false =>
        match (let* image := py_getitem data "image" in
               let* location := py_getitem data "location" in
               Ok (image, location))
        with
        | Raise e => (Raise e, [])
        | Ok (image, location) =>
            match location with
            | PList (lat :: lng :: rest) =>
                let alt := match rest with a :: _ => a | [] => PInt 0 end in
                match print_values [lat; lng; alt] with
                | Raise e => (Raise e, [])
                | Ok _ =>
                    match create_gemini_client with
                    | Raise client_error =>
                        if is_GeminiAPIError client_error then
                          (let* _ := print_exn client_error in
                           Ok (error_body
                                 "Plant analysis service is currently unavailable. Please try again later."
                                 "Service initialization failed. Please try again later.",
                               503), [])
                        else (Raise client_error, [])
                    | Ok gemini_client =>
                        match analyze_image_and_recommend_plants gemini_client image
                                (PList [lat; lng; alt])
                        with
                        | (Ok comprehensive_response, calls) =>
                            (Ok (PDict comprehensive_response, 200), calls)
                        | (Raise gemini_error, calls) =>
                            if is_GeminiAPIError gemini_error then
                              (let* _ := print_exn gemini_error in
                               match handle_api_errors (Exc gemini_error) with
                               | Returned error_response =>
                                   Ok (PDict error_response, status_code_of gemini_error)
                               | Escaped raised => Raise (cause raised)
                               end,
                               calls)
                            else (Raise gemini_error, calls)
                        end
                    end
                end
            | _ =>
                (Ok (error_body "Invalid location format."
                       "Location must be a list with at least latitude and longitude.",
                     400), [])
            end
        end
    end.

(** [answer]: [request_json] is the outcome of [request.get_json()].  The
    handler of the outer [try] prints the exception it caught; the ones
    that get there are the framework's, Python's [TypeError] and the
    [UnicodeEncodeError] of a [print], whose texts are ASCII. *)
Definition answer (request_json : pyresult pyval) : (pyval * Z) * list api_call :=
  let unexpected :=
    (error_body "Unable to analyze location at this time. Please try again."
       "An unexpected error occurred. Please try again.", 500) in
  match request_json with
  | Raise e => (unexpected, [])
  | Ok data =>
      match answer_try data with
      | (Ok r, calls) => (r, calls)
      | (Raise e, calls) => (unexpected, calls)
      end
  end.

End Service.

(** The head of the three parsers of the two-call interface:
    [if not response.candidates or not response.candidates[0].content.parts:
       raise GeminiAPIError("Empty response from Gemini API")]
    and then [response.candidates[0].content.parts[0].text], a string or
    [None]. *)
Definition first_part_text (response : response) : pyresult (option string) :=
  match response with
  | RespNone =>
      Raise (PyError "AttributeError" "'NoneType' object has no attribute 'candidates'")
  | RespNoCandidates =>
      Raise (PyError "AttributeError" "object has no attribute 'candidates'")
  | Resp [] => Raise (GeminiAPIError_default "Empty response from Gemini API")
  | Resp (candidate0 :: _) =>
      match cand_content candidate0 with
      | None =>
          Raise (PyError "AttributeError" "'NoneType' object has no attribute 'parts'")
      | Some content0 =>
          match parts content0 with
          | [] => Raise (GeminiAPIError_default "Empty response from Gemini API")
          | part0 :: _ =>
              match text part0 with
              | TextStr response_text => Ok (Some response_text)
              | TextNone => Ok None
              | TextMissing =>
                  Raise (PyError "AttributeError" "object has no attribute 'text'")
              end
          end
      end
  end.

(* ===================================================================== *)
(** ** Vocabulary of the specification *)
(* ===================================================================== *)

(** [plant[key]] of a plant record, when it is a dictionary holding it. *)
Definition plant_field (key : string) (plant : pyval) : option pyval :=
  match plant with
  | PDict d => d !! key
  | _ => None
  end.

(** [result[key]] of what a function returned, when it returned a
    dictionary holding it. *)
Definition result_field (key : string) (r : pyresult dict) : option pyval :=
  match r with
  | Ok d => d !! key
  | Raise _ => None
  end.

(** [result['plants']] when it is a list, and a field of each plant. *)
Definition result_plants (d : dict) : list pyval :=
  match d !! "plants" with
  | Some (PList plants) => plants
  | _ => []
  end.

Definition plant_fields (key : string) (plants : list pyval) : list (option pyval) :=
  map (plant_field key) plants.

(** The fallback result the specification gives for a raw text that is
    not JSON: the "partial details" description when the text holds one of
    the keywords (case-insensitive), the generic one otherwise, and the
    fallback plants. *)
Definition spec_fallback_result (raw_text : string) : dict :=
  mk_dict
    [ ("description",
       PStr (if PyStr.any_in ["plant"; "grow"; "suitable"; "recommend"]
                  (PyStr.lower raw_text)
             then partial_description else generic_description));
      ("plants", PList _get_fallback_plants) ].

(** "A list of at least 2 components". *)
Definition location_ok (location : pyval) : bool :=
  match location with
  | PList (_ :: _ :: _) => true
  | _ => false
  end.

(** The closed set of failure categories of the specification. *)
Inductive ErrorKind : Type :=
| Auth
| Quota
| Network
| Malformed
| ImageInvalid
| ServiceUnavailable
| Validation
| General.

(** The specification's classifier: an ordered table of term lists (the
    lists are those of [handle_api_errors]), matched against the
    lower-cased failure text; the first list with a term in the text gives
    the kind, [General] when there is none. *)
Definition priority_table : list (list string * ErrorKind) :=
  [ (["auth"; "credential"; "api key"; "permission"], Auth);
    (["quota"; "rate limit"; "too many requests"; "limit exceeded"], Quota);
    (["network"; "connection"; "timeout"; "unreachable"; "dns"], Network);
    (["json"; "parse"; "format"; "decode"; "malformed"], Malformed);
    (["image"; "invalid format"; "decode"; "corrupt"], ImageInvalid);
    (["unavailable"; "not found"; "404"; "503"; "service"], ServiceUnavailable) ].

Fixpoint first_match (table : list (list string * ErrorKind)) (text : string)
  : ErrorKind :=
  match table with
  | [] => General
  | (terms, kind) :: rest =>
      if PyStr.any_in terms text then kind else first_match rest text
  end.

Definition classify (failure_text : string) : ErrorKind :=
  first_match priority_table (PyStr.lower failure_text).

(** The plant list the specification attaches to a kind: empty for [Auth]
    and [ImageInvalid], the fallback list for every other kind. *)
Definition spec_plants (kind : ErrorKind) : list pyval :=
  match kind with
  | Auth | ImageInvalid => []
  | _ => _get_fallback_plants
  end.


(** The texts [handle_api_errors] returns for each kind it can assign
    ([Validation] is never assigned; its entries repeat [General]'s). *)
Definition kind_description (kind : ErrorKind) : string :=
  match kind with
  | Auth => "Unable to authenticate with plant analysis service. Please try again later."
  | Quota => "Plant analysis service is currently experiencing high demand. Please try again in a few minutes."
  | Network => "Unable to connect to plant analysis service. Please check your internet connection and try again."
  | Malformed => "Plant analysis completed, but response formatting failed. Basic recommendations provided."
  | ImageInvalid => "Unable to process the uploaded image. Please try with a different image."
  | ServiceUnavailable => "Plant analysis service is temporarily unavailable. Basic recommendations provided."
  | Validation | General => "Plant analysis encountered an issue, but basic recommendations are available."
  end.

Definition kind_error (kind : ErrorKind) : string :=
  match kind with
  | Auth => "Authentication failed. Please contact support if this persists."
  | Quota => "Service temporarily unavailable due to high demand. Please try again shortly."
  | Network => "Network connection issue. Please check your internet connection and try again."
  | Malformed => "Response processing issue. Basic plant suggestions provided."
  | ImageInvalid => "Image processing failed. Please try uploading a different image."
  | ServiceUnavailable => "Analysis service temporarily unavailable. Please try again later."
  | Validation | General => "Analysis service encountered an issue. Basic plant suggestions provided."
  end.

Definition kind_response (kind : ErrorKind) : dict :=
  mk_dict [ ("description", PStr (kind_description kind));
            ("plants", PList (spec_plants kind));
            ("error", PStr (kind_error kind)) ].

(** A plant record of the result schema that validation has nothing to
    repair: the four required texts are strings that are not blank, the
    three optional ones are strings, and the confidence is a float in
    [[0,1]]. *)
Definition nonblank_str (v : option pyval) : Prop :=
  exists s, v = Some (PStr s) /\ PyStr.is_empty (PyStr.strip s) = false.

Definition some_str (v : option pyval) : Prop :=
  exists s, v = Some (PStr s).

Definition unit_float (v : option pyval) : Prop :=
  exists c, v = Some (PFloat c) /\ PyFloat.in_unit_interval c = true.

Definition clean_plant (plant : pyval) : Prop :=
  exists d, plant = PDict d
    /\ nonblank_str (d !! "name")
    /\ nonblank_str (d !! "description")
    /\ nonblank_str (d !! "care_instructions")
    /\ nonblank_str (d !! "care_tips")
    /\ some_str (d !! "image")
    /\ some_str (d !! "AR_model")
    /\ some_str (d !! "superimposed_image")
    /\ unit_float (d !! "placement_confidence").

(** A text that is not blank for [str.strip], and a plant record in
    order with its four required texts such. *)
Definition nonblank_text (v : option pyval) : Prop :=
  exists s, v = Some (PStr s) /\ PyStr.blank s = false.

Definition well_formed_plant (plant : pyval) : Prop :=
  exists d, plant = PDict d
    /\ nonblank_text (d !! "name")
    /\ nonblank_text (d !! "description")
    /\ nonblank_text (d !! "care_instructions")
    /\ nonblank_text (d !! "care_tips")
    /\ some_str (d !! "image")
    /\ some_str (d !! "AR_model")
    /\ some_str (d !! "superimposed_image")
    /\ unit_float (d !! "placement_confidence").

(* ===================================================================== *)
(** ** Test doubles and sample inputs *)
(* ===================================================================== *)

(** Stand-ins for the imported libraries, in the manner of the mocks of
    the repository's tests. *)
Module Mock.

(** [json.loads] on a text that is not JSON. *)
Definition json_loads_not_json (text : string) : libresult pyval :=
  Raises "JSONDecodeError" "Expecting value: line 1 column 1 (char 0)".

(** [float] on strings: ["0.7"] parses, nothing else is asked. *)
Definition float_of_str (s : string) : option spec_float :=
  if String.eqb s "0.7" then Some PyFloat.f0_7 else None.

(** Three zero bytes, the decoding of ["AAAA"]. *)
Definition small_payload : list Byte.byte := [Byte.x00; Byte.x00; Byte.x00].

(** A payload of [10 * 1024 * 1024 + 1] zero bytes. *)
Definition big_payload : list Byte.byte := repeat Byte.x00 (N.to_nat 10485761).

Definition b64decode_small (s : string) : libresult (list Byte.byte) :=
  Returns small_payload.

Definition b64decode_big (s : string) : libresult (list Byte.byte) :=
  Returns big_payload.

(** An image library that accepts every payload (an image is its bytes),
    and one that identifies none. *)
Definition Image : Type := list Byte.byte.

Definition Image_open_any (b : list Byte.byte) : libresult Image := Returns b.

Definition Image_open_none (b : list Byte.byte) : libresult Image :=
  Raises "UnidentifiedImageError" "cannot identify image file".

Definition Image_verify_any (img : Image) : libresult unit := Returns tt.


Definition prose : string := "Ferns would grow well in this shaded corner.".

Definition generate_content_prose (prompt : string) (img : Image)
  : libresult response :=
  Returns (response_of_text prose).

Definition build_prompt (latitude longitude altitude : pyval) : string :=
  "You are a plant growth expert.".

Definition getenv : option string := Some "test_key_for_testing".

Definition genai_configure_model (key name : string) : libresult unit := Returns tt.

(** An authenticated client. *)
Definition client : GeminiClient :=
  {| api_key := "test_key_for_testing";
     model_name := "gemini-2.5-flash-image-preview";
     model := Some "gemini-2.5-flash-image-preview" |}.

(** The request of the specification's scenario, with a location of
    three components, and the same request with a location of one. *)
Definition request : pyval :=
  PDict (mk_dict [ ("image", PStr "AAAA");
                   ("location", PList [PInt 40; PInt (-74); PInt 10]) ]).

Definition request_short_location : dict :=
  mk_dict [ ("image", PStr "AAAA"); ("location", PList [PInt 40]) ].

(** A plant record with every field in order, and variations of it. *)
Definition fern (name : pyval) (confidence : pyval) : pyval :=
  PDict (mk_dict
    [ ("name", name);
      ("image", PStr "https://example.com/fern.jpg");
      ("superimposed_image", PStr "");
      ("description", PStr "Shade-loving fern.");
      ("care_instructions", PStr "Keep the soil moist.");
      ("care_tips", PStr "Mist the fronds.");
      ("AR_model", PStr "https://example.com/fern.glb");
      ("placement_confidence", confidence) ]).

Definition good_fern : pyval := fern (PStr "Fern") (PFloat PyFloat.f0_8).

Definition document (plants : list pyval) : dict :=
  mk_dict [ ("description", PStr "A shaded corner."); ("plants", PList plants) ].

(** An upstream answer with six plants, and [json.loads] on its text. *)
Definition six_plants : list pyval :=
  [ good_fern; good_fern; good_fern; good_fern; good_fern; good_fern ].

Definition six_plants_text : string := "(the JSON text of a document with six plants)".

Definition json_loads_six_plants (text : string) : libresult pyval :=
  Returns (PDict (document six_plants)).

End Mock.

(* ===================================================================== *)
(** ** Strings and floats: basic facts *)
(* ===================================================================== *)


Lemma lower_char_not_upper (c : ascii) :
  let n := N_of_ascii (PyStr.lower_char c) in ((65 <=? n)%N && (n <=? 90)%N) = false.
Proof.
  destruct c as [[] [] [] [] [] [] [] []]; vm_compute; reflexivity.
Qed.

Lemma is_space_lower_char (c : ascii) :
  PyStr.is_space c = true -> PyStr.lower_char c = c.
Proof.
  destruct c as [[] [] [] [] [] [] [] []]; vm_compute; congruence.
Qed.

(** A string that strips to nothing consists of white space only. *)
Fixpoint all_space (s : string) : bool :=
  match s with
  | EmptyString => true
  | String c s' => PyStr.is_space c && all_space s'
  end.

Lemma rstrip_empty (s : string) :
  PyStr.rstrip s = EmptyString -> all_space s = true.
Proof.
  induction s as [|c s IH]; simpl; [reflexivity|].
  destruct (PyStr.rstrip s) eqn:Hr.
  - destruct (PyStr.is_space c); [intros _; simpl; auto | discriminate].
  - discriminate.
Qed.

Lemma rstrip_all_space (s : string) :
  all_space s = true -> PyStr.rstrip s = EmptyString.
Proof.
  induction s as [|c s IH]; simpl; [reflexivity|].
  intros [Hc Hs]%andb_prop. rewrite (IH Hs), Hc. reflexivity.
Qed.

Lemma strip_empty_iff (s : string) :
  PyStr.is_empty (PyStr.strip s) = true <-> all_space s = true.
Proof.
  unfold PyStr.strip.
  induction s as [|c s IH]; simpl; [tauto|].
  destruct (PyStr.is_space c) eqn:Hc; simpl.
  - exact IH.
  - split; [|discriminate].
    destruct (PyStr.rstrip s); rewrite ?Hc; simpl; discriminate.
Qed.

(** White space holds none of the words that start with a letter or a
    digit: a term whose first character is not white space is not found
    in a blank string. *)
(** What the ASCII white space makes blank is blank, and a text that is
    not blank does not strip to nothing. *)
Lemma all_space_blank (s : string) :
  all_space s = true -> PyStr.blank s = true.
Proof.
  induction s as [|c s IH]; [reflexivity|].
  cbn [all_space PyStr.blank]. intros [Hc Hs]%andb_prop.
  rewrite Hc. exact (IH Hs).
Qed.

Lemma not_blank_strip (s : string) :
  PyStr.blank s = false -> PyStr.is_empty (PyStr.strip s) = false.
Proof.
  intros H. destruct (PyStr.is_empty (PyStr.strip s)) eqn:E; [|reflexivity].
  apply strip_empty_iff, all_space_blank in E. congruence.
Qed.

Lemma not_blank_not_empty (s : string) :
  PyStr.blank s = false -> PyStr.is_empty s = false.
Proof. destruct s; [discriminate | reflexivity]. Qed.

Lemma well_formed_plant_clean (plant : pyval) :
  well_formed_plant plant -> clean_plant plant.
Proof.
  intros (d & -> & (n & Hn & Hnb) & (de & Hde & Hdeb) & (ci & Hci & Hcib)
          & (ct & Hct & Hctb) & Him & Har & Hsu & Hc).
  exists d. split; [reflexivity|].
  repeat split; try assumption; eexists; (split; [eassumption|]);
    apply not_blank_strip; assumption.
Qed.

Lemma contains_all_space (term s : string) :
  match term with
  | EmptyString => False
  | String c _ => PyStr.is_space c = false
  end ->
  all_space s = true -> PyStr.contains term (PyStr.lower s) = false.
Proof.
  destruct term as [|c term]; [tauto|]. intros Hc.
  induction s as [|a s IH]; simpl; [reflexivity|].
  intros [Ha Hs]%andb_prop.
  rewrite (is_space_lower_char a Ha).
  destruct (Ascii.ascii_dec c a) as [->|Hne]; [congruence|].
  simpl. rewrite (IH Hs).
  destruct (Ascii.ascii_dec c a); [contradiction|reflexivity].
Qed.

Lemma SFcompare_antisym (x y : spec_float) (c : comparison) :
  SFcompare x y = Some c -> SFcompare y x = Some (CompOpp c).
Proof.
  destruct x as [sx|sx| |sx mx ex], y as [sy|sy| |sy my ey]; simpl;
    try discriminate;
    try (destruct sx; intros [= <-]; reflexivity);
    try (destruct sy; intros [= <-]; reflexivity);
    try (destruct sx, sy; intros [= <-]; reflexivity).
  intros [= <-]. f_equal.
  pose proof (Pos.compare_cont_antisym mx my Eq) as Hm. simpl in Hm.
  rewrite (Z.compare_antisym ex ey), <- Hm.
  destruct sx, sy; simpl; try reflexivity;
    destruct (ex ?= ey); simpl; try reflexivity;
    destruct (Pos.compare_cont Eq mx my); reflexivity.
Qed.

Lemma SFcompare_defined (x y : spec_float) :
  PyFloat.is_nan x = false -> PyFloat.is_nan y = false ->
  exists c, SFcompare x y = Some c.
Proof.
  destruct x, y; simpl; intros Hx Hy; try discriminate; eauto.
Qed.

(** Inside the interval, neither comparison of the range check holds. *)
Lemma in_unit_interval_checks (c : spec_float) :
  PyFloat.in_unit_interval c = true ->
  PyFloat.ltb c PyFloat.f0_0 = false /\ PyFloat.ltb PyFloat.f1_0 c = false.
Proof.
  unfold PyFloat.in_unit_interval, PyFloat.leb, PyFloat.ltb, SFleb, SFltb.
  intros [H0 H1]%andb_prop.
  destruct (SFcompare PyFloat.f0_0 c) as [c0|] eqn:E0; [|discriminate].
  destruct (SFcompare c PyFloat.f1_0) as [c1|] eqn:E1; [|discriminate].
  rewrite (SFcompare_antisym _ _ _ E0), (SFcompare_antisym _ _ _ E1).
  destruct c0, c1; try discriminate; split; reflexivity.
Qed.

(** Outside of it, a float that is a number fails one of them. *)
Lemma range_checks_in_unit_interval (c : spec_float) :
  PyFloat.is_nan c = false ->
  PyFloat.ltb c PyFloat.f0_0 = false -> PyFloat.ltb PyFloat.f1_0 c = false ->
  PyFloat.in_unit_interval c = true.
Proof.
  unfold PyFloat.in_unit_interval, PyFloat.leb, PyFloat.ltb, SFleb, SFltb.
  intros Hnan H0 H1.
  destruct (SFcompare_defined c PyFloat.f0_0 Hnan eq_refl) as [c0 E0].
  destruct (SFcompare_defined PyFloat.f1_0 c eq_refl Hnan) as [c1 E1].
  rewrite E0 in H0. rewrite E1 in H1.
  rewrite (SFcompare_antisym _ _ _ E0), (SFcompare_antisym _ _ _ E1).
  destruct c0, c1; try discriminate; reflexivity.
Qed.

(* ===================================================================== *)
(** ** The error classifier *)
(* ===================================================================== *)

(** [handle_api_errors] answers with the response of the kind the
    priority table gives to the text of the error. *)
Lemma handle_api_errors_try_kind (e : exn) :
  handle_api_errors_try (Exc e) = Returned (kind_response (classify (str_exn e))).
Proof.
  cbv [handle_api_errors_try classify priority_table first_match py_str].
  repeat match goal with
         | |- context [PyStr.any_in ?terms ?s] => destruct (PyStr.any_in terms s)
         end; reflexivity.
Qed.

Lemma handle_api_errors_kind (e : exn) :
  handle_api_errors (Exc e) = Returned (kind_response (classify (str_exn e))).
Proof.
  unfold handle_api_errors. rewrite handle_api_errors_try_kind. reflexivity.
Qed.


Lemma kind_response_lookups (kind : ErrorKind) :
  kind_response kind !! "description" = Some (PStr (kind_description kind))
  /\ kind_response kind !! "plants" = Some (PList (spec_plants kind))
  /\ kind_response kind !! "error" = Some (PStr (kind_error kind)).
Proof.
  unfold kind_response, mk_dict. simpl list_to_map.
  repeat split; simplify_map_eq; reflexivity.
Qed.


Lemma Ok_inj {A} (a b : A) : Ok a = Ok b -> a = b.
Proof. congruence. Qed.






(* ===================================================================== *)
(** ** Input validation comes before the external call *)
(* ===================================================================== *)

Section InputValidation.

Variable json_loads : string -> libresult pyval.
Variable float_of_str : string -> option spec_float.
Variable b64decode : string -> libresult (list Byte.byte).
Variable Image : Type.
Variable Image_open : list Byte.byte -> libresult Image.
Variable Image_verify : Image -> libresult unit.
Variable generate_content : string -> Image -> libresult response.
Variable build_prompt : pyval -> pyval -> pyval -> string.
Variable getenv : option string.
Variable genai_configure_model : string -> string -> libresult unit.

Lemma answer_rejects_bad_location (d : dict) :
  (forall location, d !! "location" = Some location -> location_ok location = false) ->
  exists description error : string,
    answer json_loads float_of_str b64decode Image Image_open Image_verify
      generate_content build_prompt getenv genai_configure_model (Ok (PDict d))
    = ((error_body description error, 400), []).
Proof.
  intros Hloc.
  cbv [answer answer_try py_in py_getitem bind].
  destruct (truthy (PDict d)); cbv [negb]; [|eauto].
  destruct (d !! "image") as [image|] eqn:Himage; cbn [bool_decide is_Some];
    [|rewrite bool_decide_eq_false_2 by (intros [? ?]; discriminate); cbv [negb]; eauto].
  rewrite bool_decide_eq_true_2 by eauto. cbv [negb].
  destruct (d !! "location") as [location|] eqn:Hlocation;
    [|rewrite bool_decide_eq_false_2 by (intros [? ?]; discriminate); cbv [negb]; eauto].
  rewrite bool_decide_eq_true_2 by eauto. cbv [negb].
  specialize (Hloc location eq_refl).
  destruct location as [| | | | |[|lat [|lng rest]]|]; try discriminate; eauto.
Qed.

Lemma analyze_rejects_bad_location (self : GeminiClient) (image_data location : pyval) :
  is_Some (model self) -> location_ok location = false ->
  exists message,
    analyze_image_and_recommend_plants json_loads float_of_str b64decode Image
      Image_open Image_verify generate_content build_prompt self image_data location
    = (Raise (GeminiAPIError message "validation"), []).
Proof.
  intros [handle Hmodel] Hloc.
  cbv [analyze_image_and_recommend_plants analyze_image_and_recommend_plants_try].
  rewrite Hmodel.
  destruct (negb (truthy image_data) || negb (truthy location)); [eauto|].
  destruct location as [| | | | |[|lat [|lng rest]]|]; try discriminate; eauto.
Qed.

End InputValidation.

(** C9: a request whose location is missing or is not a list of at least
    two components (a list of one, say) is answered with an
    input-validation error, status 400, and no call of the external
    service is made on the way.  The client's own entry point does the
    same under an authenticated client: it raises a ["validation"] error,
    which [/answer] maps to 400, before any call. *)
Theorem short_location_rejected_before_any_call
    (json_loads : string -> libresult pyval)
    (float_of_str : string -> option spec_float)
    (b64decode : string -> libresult (list Byte.byte))
    (Image : Type)
    (Image_open : list Byte.byte -> libresult Image)
    (Image_verify : Image -> libresult unit)
    (generate_content : string -> Image -> libresult response)
    (build_prompt : pyval -> pyval -> pyval -> string)
    (getenv : option string)
    (genai_configure_model : string -> string -> libresult unit)
    (d : dict)
    (Hlocation : forall location,
        d !! "location" = Some location -> location_ok location = false) :
  (exists description error : string,
      answer json_loads float_of_str b64decode Image Image_open Image_verify
        generate_content build_prompt getenv genai_configure_model (Ok (PDict d))
      = ((error_body description error, 400), []))
  /\ (forall (self : GeminiClient) (image_data location : pyval),
         is_Some (model self) -> location_ok location = false ->
         exists message,
           analyze_image_and_recommend_plants json_loads float_of_str b64decode Image
             Image_open Image_verify generate_content build_prompt
             self image_data location
           = (Raise (GeminiAPIError message "validation"), [])
           /\ status_code_of (GeminiAPIError message "validation") = 400).
Proof.
  split.
  - apply answer_rejects_bad_location, Hlocation.
  - intros self image_data location Hmodel Hbad.
    destruct (analyze_rejects_bad_location json_loads float_of_str b64decode Image
                Image_open Image_verify generate_content build_prompt
                self image_data location Hmodel Hbad) as [message Hm].
    exists message. split; [exact Hm | reflexivity].
Qed.

(** The request with a location of one component, against a service that
    would answer. *)
Lemma short_location_rejected_before_any_call_witness :
  (exists description error : string,
      answer Mock.json_loads_not_json Mock.float_of_str Mock.b64decode_small
        Mock.Image Mock.Image_open_any Mock.Image_verify_any
        Mock.generate_content_prose Mock.build_prompt
        Mock.getenv Mock.genai_configure_model
        (Ok (PDict Mock.request_short_location))
      = ((error_body description error, 400), []))
  /\ exists message,
       analyze_image_and_recommend_plants
         Mock.json_loads_not_json Mock.float_of_str Mock.b64decode_small
         Mock.Image Mock.Image_open_any Mock.Image_verify_any
         Mock.generate_content_prose Mock.build_prompt
         Mock.client (PStr "AAAA") (PList [PInt 40])
       = (Raise (GeminiAPIError message "validation"), [])
       /\ status_code_of (GeminiAPIError message "validation") = 400.
Proof.
  assert (Hshort : forall location,
             Mock.request_short_location !! "location" = Some location ->
             location_ok location = false).
  { intros location H. vm_compute in H. injection H as <-. reflexivity. }
  destruct (short_location_rejected_before_any_call
              Mock.json_loads_not_json Mock.float_of_str Mock.b64decode_small
              Mock.Image Mock.Image_open_any Mock.Image_verify_any
              Mock.generate_content_prose Mock.build_prompt
              Mock.getenv Mock.genai_configure_model
              Mock.request_short_location Hshort) as [Hanswer Hanalyze].
  split; [exact Hanswer|].
  apply Hanalyze; [eexists; reflexivity | reflexivity].
Defined.

(* ===================================================================== *)
(** ** The plant validator *)
(* ===================================================================== *)

Section Validator.

Variable float_of_str : string -> option spec_float.

Lemma strip_nonblank_nonempty (s : string) :
  PyStr.is_empty (PyStr.strip s) = false -> PyStr.is_empty s = false.
Proof. destruct s; [discriminate | reflexivity]. Qed.

(** *** Steps that leave a field alone *)

Lemma fix_required_field_lookup_ne (d : dict) (field default_value k : string) :
  field <> k -> fix_required_field d (field, default_value) !! k = d !! k.
Proof.
  intros Hne. unfold fix_required_field.
  destruct (d !! field) as [v|];
    [destruct (negb (truthy v) || negb (is_str v))|];
    rewrite ?lookup_insert_ne by exact Hne; reflexivity.
Qed.

Lemma setdefault_lookup_ne (d : dict) (key k : string) (v : pyval) :
  key <> k -> setdefault key v d !! k = d !! k.
Proof.
  intros Hne. unfold setdefault.
  destruct (d !! key); rewrite ?lookup_insert_ne by exact Hne; reflexivity.
Qed.

Lemma fix_superimposed_image_lookup_ne (d : dict) (k : string) :
  "superimposed_image" <> k -> fix_superimposed_image d !! k = d !! k.
Proof.
  intros Hne. unfold fix_superimposed_image.
  destruct (d !! "superimposed_image") as [v|]; [destruct (negb (is_str v))|];
    rewrite ?lookup_insert_ne by exact Hne; reflexivity.
Qed.

Lemma fix_blank_field_lookup_ne (d d' : dict) (field default_value k : string) :
  field <> k ->
  fix_blank_field (Ok d) (field, default_value) = Ok d' -> d' !! k = d !! k.
Proof.
  intros Hne. unfold fix_blank_field, bind.
  destruct (d !! field) as [[| | | |s| |]|]; try discriminate.
  destruct (PyStr.is_empty (PyStr.strip s)); intros [= <-];
    rewrite ?lookup_insert_ne by exact Hne; reflexivity.
Qed.

Lemma fix_blank_field_raise (e : exn) (item : string * string) :
  fix_blank_field (Raise e) item = Raise e.
Proof. reflexivity. Qed.

(** The last loop, when it ends well, leaves every field but the four
    required ones alone. *)
Lemma fix_blank_fields_lookup_ne (d d' : dict) (k : string) :
  "name" <> k -> "description" <> k -> "care_instructions" <> k -> "care_tips" <> k ->
  fold_left fix_blank_field required_fields (Ok d) = Ok d' -> d' !! k = d !! k.
Proof.
  intros H1 H2 H3 H4. unfold required_fields. cbn [fold_left].
  destruct (fix_blank_field (Ok d) ("name", "Unknown Plant")) as [d1|] eqn:E1;
    [|discriminate].
  destruct (fix_blank_field (Ok d1) ("description", "Plant information not available."))
    as [d2|] eqn:E2; [|discriminate].
  destruct (fix_blank_field (Ok d2)
              ("care_instructions", "Follow general plant care guidelines."))
    as [d3|] eqn:E3; [|discriminate].
  intros E4.
  rewrite (fix_blank_field_lookup_ne _ _ _ _ k H4 E4),
    (fix_blank_field_lookup_ne _ _ _ _ k H3 E3),
    (fix_blank_field_lookup_ne _ _ _ _ k H2 E2),
    (fix_blank_field_lookup_ne _ _ _ _ k H1 E1).
  reflexivity.
Qed.

(** The steps before the confidence leave it alone. *)
Lemma before_confidence_lookup (d : dict) :
  fix_superimposed_image
    (setdefault "AR_model" (PStr "")
       (setdefault "image" (PStr "")
          (fold_left fix_required_field required_fields d)))
    !! "placement_confidence"
  = d !! "placement_confidence".
Proof.
  rewrite fix_superimposed_image_lookup_ne, !setdefault_lookup_ne by done.
  unfold required_fields. cbn [fold_left].
  rewrite !fix_required_field_lookup_ne by done. reflexivity.
Qed.

(** *** The confidence after validation *)

(** What the range check leaves under ['placement_confidence']. *)
Definition repaired_confidence (confidence : option pyval) : pyresult spec_float :=
  match confidence with
  | None => Ok PyFloat.f0_5
  | Some v =>
      match py_float float_of_str v with
      | Ok c =>
          if PyFloat.ltb c PyFloat.f0_0 || PyFloat.ltb PyFloat.f1_0 c
          then Ok PyFloat.f0_5 else Ok c
      | Raise (PyError cls m) =>
          if String.eqb cls "ValueError" || String.eqb cls "TypeError"
          then Ok PyFloat.f0_5 else Raise (PyError cls m)
      | Raise e => Raise e
      end
  end.

Lemma fix_placement_confidence_spec (d : dict) :
  fix_placement_confidence float_of_str d
  = let* c := repaired_confidence (d !! "placement_confidence") in
    Ok (<["placement_confidence" := PFloat c]> d).
Proof.
  unfold fix_placement_confidence, repaired_confidence.
  destruct (d !! "placement_confidence") as [v|]; [|reflexivity].
  destruct (py_float float_of_str v) as [c|[m t|cls m]]; cbn [bind try_except_value_type].
  - destruct (PyFloat.ltb c PyFloat.f0_0 || PyFloat.ltb PyFloat.f1_0 c); reflexivity.
  - reflexivity.
  - destruct (String.eqb cls "ValueError" || String.eqb cls "TypeError"); reflexivity.
Qed.

(** A record that passes validation carries the repaired confidence. *)
Lemma validated_confidence (d d' : dict) :
  _validate_comprehensive_plant_data float_of_str (PDict d) = Ok d' ->
  exists c, repaired_confidence (d !! "placement_confidence") = Ok c
            /\ d' !! "placement_confidence" = Some (PFloat c).
Proof.
  unfold _validate_comprehensive_plant_data.
  rewrite fix_placement_confidence_spec, before_confidence_lookup.
  destruct (repaired_confidence (d !! "placement_confidence")) as [c|e];
    cbn [bind]; [|unfold required_fields; cbn [fold_left]; discriminate].
  intros H. exists c. split; [reflexivity|].
  rewrite (fix_blank_fields_lookup_ne _ _ "placement_confidence"
             ltac:(done) ltac:(done) ltac:(done) ltac:(done) H).
  apply lookup_insert_eq.
Qed.

(** The repaired confidence is 0.5 or lies in [[0,1]], unless the value
    converts to a NaN. *)
Lemma repaired_confidence_range (confidence : option pyval) (c : spec_float) :
  repaired_confidence confidence = Ok c ->
  c = PyFloat.f0_5 \/ PyFloat.in_unit_interval c = true \/ PyFloat.is_nan c = true.
Proof.
  unfold repaired_confidence.
  destruct confidence as [v|]; [|intros [= <-]; auto].
  destruct (py_float float_of_str v) as [c'|[m t|cls m]]; [| discriminate |].
  - destruct (PyFloat.ltb c' PyFloat.f0_0) eqn:E0; [intros [= <-]; auto|].
    destruct (PyFloat.ltb PyFloat.f1_0 c') eqn:E1; [intros [= <-]; auto|].
    intros [= <-]. destruct (PyFloat.is_nan c') eqn:En; [auto|].
    right; left. apply range_checks_in_unit_interval; assumption.
  - destruct (String.eqb cls "ValueError" || String.eqb cls "TypeError");
      [intros [= <-]; auto | discriminate].
Qed.

End Validator.

(** C4 (the code at the failing input): a record whose confidence is the
    float NaN, which [json.loads] builds from the literal [NaN], passes
    validation with the NaN still in place: neither comparison of the
    range check holds for a NaN, so the value is neither replaced by 0.5
    nor inside [[0,1]]. *)
Theorem nan_confidence_passes_validation (float_of_str : string -> option spec_float) :
  result_field "placement_confidence"
    (_validate_comprehensive_plant_data float_of_str
       (Mock.fern (PStr "Fern") (PFloat S754_nan)))
  = Some (PFloat S754_nan)
  /\ PyFloat.in_unit_interval S754_nan = false
  /\ PyFloat.ltb S754_nan PyFloat.f0_0 || PyFloat.ltb PyFloat.f1_0 S754_nan = false.
Proof. repeat split; vm_compute; reflexivity. Qed.

(** Apart from NaN the repair is as specified: a record that passes
    validation has a confidence that is 0.5 (when it was missing, did not
    convert to a number, or was out of range) or lies in [[0,1]]. *)
Lemma validated_confidence_range
    (float_of_str : string -> option spec_float) (d d' : dict) :
  _validate_comprehensive_plant_data float_of_str (PDict d) = Ok d' ->
  exists c, d' !! "placement_confidence" = Some (PFloat c)
            /\ (c = PyFloat.f0_5 \/ PyFloat.in_unit_interval c = true
                \/ PyFloat.is_nan c = true).
Proof.
  intros H. destruct (validated_confidence float_of_str d d' H) as (c & Hc & Hl).
  exists c. split; [exact Hl|].
  exact (repaired_confidence_range float_of_str _ _ Hc).
Qed.

(** An integer too large for a float is not repaired: [float] raises
    [OverflowError], which the validator does not catch, and the record is
    dropped. *)
Lemma huge_confidence_drops_the_plant (float_of_str : string -> option spec_float) :
  _validate_comprehensive_plant_data float_of_str
    (Mock.fern (PStr "Fern") (PInt (2 ^ 1024)))
  = Raise (PyError "OverflowError" "int too large to convert to float").
Proof. vm_compute. reflexivity. Qed.

(* ===================================================================== *)
(** ** Round trip of a document that needs no repair *)
(* ===================================================================== *)

Section RoundTrip.

Variable float_of_str : string -> option spec_float.

Lemma fix_required_field_id (d : dict) (field default_value : string) :
  nonblank_str (d !! field) -> fix_required_field d (field, default_value) = d.
Proof.
  intros (s & Hs & Hblank). unfold fix_required_field. rewrite Hs.
  cbn [truthy is_str]. rewrite (strip_nonblank_nonempty s Hblank). reflexivity.
Qed.

Lemma setdefault_id (d : dict) (key : string) (v : pyval) :
  some_str (d !! key) -> setdefault key v d = d.
Proof. intros (s & Hs). unfold setdefault. rewrite Hs. reflexivity. Qed.

Lemma fix_superimposed_image_id (d : dict) :
  some_str (d !! "superimposed_image") -> fix_superimposed_image d = d.
Proof. intros (s & Hs). unfold fix_superimposed_image. rewrite Hs. reflexivity. Qed.

Lemma fix_placement_confidence_id (d : dict) :
  unit_float (d !! "placement_confidence") ->
  fix_placement_confidence float_of_str d = Ok d.
Proof.
  intros (c & Hc & Hrange). unfold fix_placement_confidence. rewrite Hc.
  destruct (in_unit_interval_checks c Hrange) as [H0 H1].
  cbn [py_float bind]. rewrite H0, H1. cbn [orb try_except_value_type].
  rewrite insert_id by exact Hc. reflexivity.
Qed.

Lemma fix_blank_field_id (d : dict) (field default_value : string) :
  nonblank_str (d !! field) -> fix_blank_field (Ok d) (field, default_value) = Ok d.
Proof.
  intros (s & Hs & Hblank). unfold fix_blank_field, bind. rewrite Hs, Hblank.
  reflexivity.
Qed.

(** Validation changes nothing in a clean record. *)
Lemma validate_clean_plant (plant : pyval) :
  clean_plant plant ->
  exists d, plant = PDict d
            /\ _validate_comprehensive_plant_data float_of_str plant = Ok d.
Proof.
  intros (d & -> & Hname & Hdesc & Hinstr & Htips & Himage & Har & Hsuper & Hconf).
  exists d. split; [reflexivity|].
  unfold _validate_comprehensive_plant_data, required_fields. cbn [fold_left].
  rewrite (fix_required_field_id d "name") by assumption.
  rewrite (fix_required_field_id d "description") by assumption.
  rewrite (fix_required_field_id d "care_instructions") by assumption.
  rewrite (fix_required_field_id d "care_tips") by assumption.
  rewrite (setdefault_id d "image") by assumption.
  rewrite (setdefault_id d "AR_model") by assumption.
  rewrite fix_superimposed_image_id by assumption.
  rewrite fix_placement_confidence_id by assumption.
  cbn [bind].
  rewrite (fix_blank_field_id d "name") by assumption.
  rewrite (fix_blank_field_id d "description") by assumption.
  rewrite (fix_blank_field_id d "care_instructions") by assumption.
  rewrite (fix_blank_field_id d "care_tips") by assumption.
  reflexivity.
Qed.

Lemma validate_clean_plants (plants : list pyval) :
  Forall clean_plant plants -> validate_plants float_of_str plants = plants.
Proof.
  induction 1 as [|plant plants Hplant _ IH]; [reflexivity|].
  destruct (validate_clean_plant plant Hplant) as (d & -> & Hd).
  cbn [validate_plants]. rewrite Hd, IH. reflexivity.
Qed.

End RoundTrip.

(* ===================================================================== *)
(** ** The response parser *)
(* ===================================================================== *)

Lemma fallback_plants_not_empty : _get_fallback_plants <> [].
Proof. discriminate. Qed.

Lemma fallback_response_description (response_text : string) :
  _create_comprehensive_fallback_response response_text !! "description"
  = Some (PStr
            (if negb (PyStr.is_empty response_text)
                && (0 <? Z.of_nat (String.length (PyStr.strip response_text)))
                && PyStr.any_in ["plant"; "grow"; "suitable"; "recommend"]
                     (PyStr.lower response_text)
             then partial_description else generic_description)).
Proof.
  unfold _create_comprehensive_fallback_response, mk_dict. cbn [list_to_map foldr].
  rewrite lookup_insert_eq.
  destruct (negb (PyStr.is_empty response_text)
            && (0 <? Z.of_nat (String.length (PyStr.strip response_text))));
    cbn [andb]; reflexivity.
Qed.

Lemma fallback_response_plants (response_text : string) :
  _create_comprehensive_fallback_response response_text !! "plants"
  = Some (PList _get_fallback_plants).
Proof.
  unfold _create_comprehensive_fallback_response, mk_dict. cbn [list_to_map foldr].
  rewrite lookup_insert_ne by done. apply lookup_insert_eq.
Qed.

Section Parser.

Variable json_loads : string -> libresult pyval.
Variable float_of_str : string -> option spec_float.

Lemma validate_plants_length (plants : list pyval) :
  (length (validate_plants float_of_str plants) <= length plants)%nat.
Proof.
  induction plants as [|plant plants IH]; cbn [validate_plants length]; [lia|].
  destruct (_validate_comprehensive_plant_data float_of_str plant);
    cbn [length]; lia.
Qed.

(** What [process_parsed] leaves under ['description'] and ['plants']:
    a description, and either the fallback plants or the records of the
    upstream list that passed validation, at least one. *)
Lemma process_parsed_fields (parsed : pyval) :
  is_Some (process_parsed float_of_str parsed !! "description")
  /\ exists plants,
      process_parsed float_of_str parsed !! "plants" = Some (PList plants)
      /\ plants <> []
      /\ (plants = _get_fallback_plants
          \/ exists d upstream,
               parsed = PDict d /\ d !! "plants" = Some (PList upstream)
               /\ plants = validate_plants float_of_str upstream).
Proof.
  destruct parsed as [| | | | | |d];
    try (cbv beta delta [process_parsed] iota; split;
         [rewrite fallback_response_description; eauto
         |exists _get_fallback_plants;
          rewrite fallback_response_plants; auto using fallback_plants_not_empty]).
  cbv beta delta [process_parsed] iota zeta.
  set (d1 := match d !! "description" with
             | Some _ => d
             | None => <["description" :=
                           PStr "Location analysis completed with limited details available."]> d
             end).
  assert (Hd1 : is_Some (d1 !! "description")).
  { subst d1. destruct (d !! "description") eqn:E; [rewrite E; eauto|].
    rewrite lookup_insert_eq. eauto. }
  assert (Hp1 : d1 !! "plants" = d !! "plants").
  { subst d1. destruct (d !! "description"); [reflexivity|].
    apply lookup_insert_ne. done. }
  set (d2 := match d1 !! "plants" with
             | Some _ => d1
             | None => <["plants" := PList _get_fallback_plants]> d1
             end).
  assert (Hd2 : forall v, is_Some (<["plants" := v]> d2 !! "description")).
  { intros v. rewrite lookup_insert_ne by done. subst d2.
    destruct (d1 !! "plants"); [exact Hd1|].
    rewrite lookup_insert_ne by done. exact Hd1. }
  assert (Hp2 : d2 !! "plants" = Some (PList _get_fallback_plants)
                \/ (d2 !! "plants" = d !! "plants" /\ is_Some (d !! "plants"))).
  { subst d2. destruct (d1 !! "plants") eqn:E.
    - right. rewrite <- Hp1, E. eauto.
    - left. apply lookup_insert_eq. }
  cbv [default from_option id].
  assert (Hfallback :
            is_Some (<["plants" := PList _get_fallback_plants]> d2 !! "description")
            /\ exists plants,
                <["plants" := PList _get_fallback_plants]> d2 !! "plants"
                = Some (PList plants)
                /\ plants <> []
                /\ (plants = _get_fallback_plants
                    \/ exists d0 upstream,
                         PDict d = PDict d0 /\ d0 !! "plants" = Some (PList upstream)
                         /\ plants = validate_plants float_of_str upstream)).
  { split; [apply Hd2|]. exists _get_fallback_plants.
    rewrite lookup_insert_eq. auto using fallback_plants_not_empty. }
  destruct Hp2 as [Hp2 | [Hp2 [v Hv]]].
  - rewrite Hp2.
    destruct (validate_plants float_of_str _get_fallback_plants) as [|p ps] eqn:E;
      [exact Hfallback|].
    split; [apply Hd2|]. exists (p :: ps). rewrite lookup_insert_eq.
    repeat split; [discriminate|]. left.
    rewrite <- E. apply validate_clean_plants.
    repeat constructor; eexists; (split; [reflexivity|]);
      repeat split; eexists; (split; reflexivity) || reflexivity.
  - rewrite Hp2, Hv. destruct v as [| | | | |upstream|]; try exact Hfallback.
    destruct (validate_plants float_of_str upstream) as [|p ps] eqn:E;
      [exact Hfallback|].
    split; [apply Hd2|]. exists (p :: ps). rewrite lookup_insert_eq.
    repeat split; [discriminate|]. right. exists d, upstream. auto.
Qed.

(** Every path through [_process_comprehensive_response] returns: with a
    fallback response, or with what [process_parsed] makes of the value
    [json.loads] gave. *)
Lemma process_response_cases (response : response) :
  (exists response_text,
      _process_comprehensive_response json_loads float_of_str response
      = Ok (_create_comprehensive_fallback_response response_text))
  \/ (exists response_text parsed,
         json_loads response_text = Returns parsed
         /\ _process_comprehensive_response json_loads float_of_str response
            = Ok (process_parsed float_of_str parsed)).
Proof.
  unfold _process_comprehensive_response, _process_comprehensive_response_try.
  destruct response as [| |[|candidate0 rest]]; cbn [try_except]; eauto.
  destruct (cand_content candidate0) as [content0|]; cbn [try_except]; eauto.
  destruct (parts content0) as [|part0 parts0]; cbn [try_except]; eauto.
  destruct (text part0) as [response_text| |]; cbn [try_except]; eauto.
  destruct (PyStr.is_empty response_text || PyStr.is_empty (PyStr.strip response_text));
    cbn [try_except]; eauto.
  destruct (json_loads response_text) as [parsed|cls message] eqn:E;
    cbn [run try_except]; eauto.
Qed.

(** The same, with the text that was parsed: the text of the first part
    of the response. *)
Lemma process_response_text_cases (response : response) :
  (exists response_text,
      _process_comprehensive_response json_loads float_of_str response
      = Ok (_create_comprehensive_fallback_response response_text))
  \/ (exists response_text parsed,
         first_part_text response = Ok (Some response_text)
         /\ json_loads response_text = Returns parsed
         /\ _process_comprehensive_response json_loads float_of_str response
            = Ok (process_parsed float_of_str parsed)).
Proof.
  unfold _process_comprehensive_response, _process_comprehensive_response_try,
    first_part_text.
  destruct response as [| |[|candidate0 rest]]; cbn [try_except]; eauto.
  destruct (cand_content candidate0) as [content0|]; cbn [try_except]; eauto.
  destruct (parts content0) as [|part0 parts0]; cbn [try_except]; eauto.
  destruct (text part0) as [response_text| |]; cbn [try_except]; eauto.
  destruct (PyStr.is_empty response_text || PyStr.is_empty (PyStr.strip response_text));
    cbn [try_except]; eauto.
  destruct (json_loads response_text) as [parsed|cls message] eqn:E;
    cbn [run try_except]; eauto 10.
Qed.

(** A text that is not blank is handed to [json.loads], and what that
    returns to [process_parsed]. *)
Lemma process_response_of_text (response : response) (response_text : string)
    (parsed : pyval) :
  first_part_text response = Ok (Some response_text) ->
  PyStr.blank response_text = false ->
  json_loads response_text = Returns parsed ->
  _process_comprehensive_response json_loads float_of_str response
  = Ok (process_parsed float_of_str parsed).
Proof.
  intros Htext Hblank Hjson.
  unfold _process_comprehensive_response, _process_comprehensive_response_try.
  unfold first_part_text in Htext.
  destruct response as [| |[|candidate0 rest]]; try discriminate.
  destruct (cand_content candidate0) as [content0|]; try discriminate.
  destruct (parts content0) as [|part0 parts0]; try discriminate.
  destruct (text part0) as [response_text'| |]; try discriminate.
  injection Htext as ->.
  rewrite (not_blank_not_empty _ Hblank), (not_blank_strip _ Hblank).
  cbn [orb]. rewrite Hjson. reflexivity.
Qed.

Lemma process_response_returns (response : response) :
  exists d, _process_comprehensive_response json_loads float_of_str response = Ok d.
Proof.
  destruct (process_response_cases response)
    as [[response_text ->] | (response_text & parsed & _ & ->)]; eauto.
Qed.

End Parser.

(** C1: whatever the raw response, [_process_comprehensive_response]
    returns a dictionary with a ['description'] and a ['plants'] key, and
    the plant list is never empty (the fallback plants stand in whenever it
    would be empty or invalid): description and plants are never both
    empty. *)
Theorem never_returns_nothing
    (json_loads : string -> libresult pyval)
    (float_of_str : string -> option spec_float)
    (response : response) :
  exists (d : dict) (description : pyval) (plants : list pyval),
    _process_comprehensive_response json_loads float_of_str response = Ok d
    /\ d !! "description" = Some description
    /\ d !! "plants" = Some (PList plants)
    /\ plants <> []
    /\ ~ (truthy description = false /\ plants = []).
Proof.
  destruct (process_response_cases json_loads float_of_str response)
    as [[response_text ->] | (response_text & parsed & _ & ->)].
  - eexists; eexists; exists _get_fallback_plants.
    split; [reflexivity|].
    split; [apply fallback_response_description|].
    split; [apply fallback_response_plants|].
    split; [apply fallback_plants_not_empty|].
    intros [_ H]. discriminate.
  - destruct (process_parsed_fields float_of_str parsed)
      as ([description Hd] & plants & Hp & Hne & _).
    exists (process_parsed float_of_str parsed), description, plants.
    repeat split; try assumption. intros [_ H]. contradiction.
Qed.

(** C6 (as amended): a document that has a description and a non-empty
    list of plants, each of them a record with the four required texts not
    blank (not empty and not made of white space only, with the white
    space of [str.strip]), the three optional texts strings and the
    confidence a float in [[0,1]], comes out of parsing and validation
    unchanged, no field changed, dropped or added: [process_parsed]
    returns it as it is, and so does [_process_comprehensive_response] for
    a response whose first part's text is not blank and is read by
    [json.loads] as that document. *)
Theorem clean_document_round_trip
    (json_loads : string -> libresult pyval)
    (float_of_str : string -> option spec_float)
    (document : dict) (description : pyval) (plants : list pyval)
    (Hdescription : document !! "description" = Some description)
    (Hplants : document !! "plants" = Some (PList plants))
    (Hnonempty : plants <> [])
    (Hclean : Forall well_formed_plant plants) :
  process_parsed float_of_str (PDict document) = document
  /\ forall (response : response) (response_text : string),
       first_part_text response = Ok (Some response_text) ->
       PyStr.blank response_text = false ->
       json_loads response_text = Returns (PDict document) ->
       _process_comprehensive_response json_loads float_of_str response
       = Ok document.
Proof.
  assert (Hparsed : process_parsed float_of_str (PDict document) = document).
  { cbv beta delta [process_parsed] iota zeta.
    rewrite Hdescription. rewrite !Hplants. cbv [default from_option id].
    rewrite (validate_clean_plants float_of_str plants)
      by (eapply Forall_impl; [exact Hclean | exact well_formed_plant_clean]).
    destruct plants as [|plant rest]; [contradiction|].
    apply insert_id. exact Hplants. }
  split; [exact Hparsed|].
  intros response response_text Htext Hblank Hjson.
  rewrite (process_response_of_text json_loads float_of_str response response_text
             (PDict document) Htext Hblank Hjson).
  rewrite Hparsed. reflexivity.
Qed.

(** A document with one plant in order, and a response that holds it. *)
Lemma clean_document_round_trip_witness :
  process_parsed Mock.float_of_str (PDict (Mock.document [Mock.good_fern]))
  = Mock.document [Mock.good_fern]
  /\ _process_comprehensive_response
       (fun _ => Returns (PDict (Mock.document [Mock.good_fern]))) Mock.float_of_str
       (response_of_text "(the JSON text of a document with one plant)")
     = Ok (Mock.document [Mock.good_fern]).
Proof.
  destruct (clean_document_round_trip
              (fun _ => Returns (PDict (Mock.document [Mock.good_fern])))
              Mock.float_of_str
              (Mock.document [Mock.good_fern]) (PStr "A shaded corner.")
              [Mock.good_fern])
    as [Hparsed Hresponse].
  - reflexivity.
  - reflexivity.
  - discriminate.
  - constructor; [|constructor].
    eexists. split; [reflexivity|].
    repeat split; eexists; (split; reflexivity) || reflexivity.
  - split; [exact Hparsed|].
    apply (Hresponse _ "(the JSON text of a document with one plant)");
      reflexivity.
Defined.

(** C6 as stated fails on documents it calls well formed: an empty plant
    list is replaced by the three fallback plants; a name that is white
    space only (a non-empty string) is replaced by the default name; an
    integer confidence 1 (a number in [[0,1]]) comes back as the float
    1.0. *)
Lemma well_formed_documents_are_changed :
  plant_fields "name"
    (result_plants (process_parsed Mock.float_of_str (PDict (Mock.document []))))
  = [ Some (PStr "Spider Plant"); Some (PStr "Pothos"); Some (PStr "Snake Plant") ]
  /\ plant_fields "name"
       (result_plants
          (process_parsed Mock.float_of_str
             (PDict (Mock.document [Mock.fern (PStr " ") (PFloat PyFloat.f0_8)]))))
     = [ Some (PStr "Unknown Plant") ]
  /\ plant_fields "placement_confidence"
       (result_plants
          (process_parsed Mock.float_of_str
             (PDict (Mock.document [Mock.fern (PStr "Fern") (PInt 1)]))))
     = [ Some (PFloat PyFloat.f1_0) ].
Proof. repeat split; vm_compute; reflexivity. Qed.

(** C7 (as amended): the result of a run holds an ordered list of at
    least one plant, and no cap of five is enforced: the list is the three
    fallback plants, or the text of the response's first part was read by
    [json.loads] as a document with a plant list, and the result has at
    most as many plants as that list, however long it is. *)
Theorem plant_list_length
    (json_loads : string -> libresult pyval)
    (float_of_str : string -> option spec_float)
    (response : response) :
  exists (d : dict) (plants : list pyval),
    _process_comprehensive_response json_loads float_of_str response = Ok d
    /\ d !! "plants" = Some (PList plants)
    /\ (1 <= length plants)%nat
    /\ ((plants = _get_fallback_plants /\ length plants = 3%nat)
        \/ exists (response_text : string) (document : dict) (upstream : list pyval),
             first_part_text response = Ok (Some response_text)
             /\ json_loads response_text = Returns (PDict document)
             /\ document !! "plants" = Some (PList upstream)
             /\ (length plants <= length upstream)%nat).
Proof.
  assert (Hlen : forall plants : list pyval, plants <> [] -> (1 <= length plants)%nat).
  { intros [|p ps] H; [contradiction | cbn [length]; lia]. }
  destruct (process_response_text_cases json_loads float_of_str response)
    as [[response_text ->] | (response_text & parsed & Htext & Hjson & ->)].
  - eexists; exists _get_fallback_plants.
    split; [reflexivity|]. split; [apply fallback_response_plants|].
    split; [unfold _get_fallback_plants; cbn [length]; lia|].
      left. split; reflexivity.
  - destruct (process_parsed_fields float_of_str parsed)
      as (_ & plants & Hp & Hne & [-> | (document & upstream & -> & Hup & ->)]).
    + eexists; exists _get_fallback_plants.
      split; [reflexivity|]. split; [exact Hp|].
      split; [unfold _get_fallback_plants; cbn [length]; lia|].
      left. split; reflexivity.
    + eexists; eexists. split; [reflexivity|]. split; [exact Hp|].
      split; [apply Hlen, Hne|]. right.
      exists response_text, document, upstream.
      split; [exact Htext|]. split; [exact Hjson|]. split; [exact Hup|].
      apply validate_plants_length.
Qed.

(** C7 as stated fails: an upstream document with six plants that pass
    validation comes back with all six. *)
Lemma six_plants_come_back :
  option_map (fun plants => length (match plants with PList l => l | _ => [] end))
    (result_field "plants"
       (_process_comprehensive_response Mock.json_loads_six_plants Mock.float_of_str
          (response_of_text Mock.six_plants_text)))
  = Some 6%nat.
Proof. vm_compute. reflexivity. Qed.

(** C3: when no record of the parsed response's plant list survives
    validation (all were dropped, or the list was empty), the result's
    plants are exactly the fallback triple: Spider Plant with confidence
    0.7, Pothos with 0.8, Snake Plant with 0.6, in that order. *)
Theorem no_surviving_plant_gives_fallback
    (float_of_str : string -> option spec_float)
    (d : dict) (upstream : list pyval)
    (Hplants : d !! "plants" = Some (PList upstream))
    (Hnone : validate_plants float_of_str upstream = []) :
  process_parsed float_of_str (PDict d) !! "plants" = Some (PList _get_fallback_plants)
  /\ plant_fields "name" _get_fallback_plants
     = [ Some (PStr "Spider Plant"); Some (PStr "Pothos"); Some (PStr "Snake Plant") ]
  /\ plant_fields "placement_confidence" _get_fallback_plants
     = [ Some (PFloat (PyFloat.div (PyFloat.of_Z 7) (PyFloat.of_Z 10)));
         Some (PFloat (PyFloat.div (PyFloat.of_Z 8) (PyFloat.of_Z 10)));
         Some (PFloat (PyFloat.div (PyFloat.of_Z 6) (PyFloat.of_Z 10))) ].
Proof.
  split; [|split; vm_compute; reflexivity].
  cbv beta delta [process_parsed] iota zeta.
  destruct (d !! "description") as [description|].
  - rewrite !Hplants. cbv [default from_option id]. rewrite Hnone.
    apply lookup_insert_eq.
  - assert (Hplants' :
              <["description" :=
                  PStr "Location analysis completed with limited details available."]> d
                !! "plants"
              = Some (PList upstream))
      by (rewrite lookup_insert_ne by done; exact Hplants).
    rewrite !Hplants'. cbv [default from_option id]. rewrite Hnone.
    apply lookup_insert_eq.
Qed.

(** A plant list whose entries are not records: all are dropped. *)
Lemma no_surviving_plant_gives_fallback_witness :
  process_parsed Mock.float_of_str (PDict (Mock.document [PInt 1; PStr "fern"]))
    !! "plants"
  = Some (PList _get_fallback_plants).
Proof.
  apply (no_surviving_plant_gives_fallback Mock.float_of_str
           (Mock.document [PInt 1; PStr "fern"]) [PInt 1; PStr "fern"]);
    reflexivity.
Defined.

(* ===================================================================== *)
(** ** Text that is not JSON *)
(* ===================================================================== *)

(** A blank text holds none of the keywords. *)
Lemma blank_has_no_keyword (response_text : string) :
  PyStr.is_empty response_text || PyStr.is_empty (PyStr.strip response_text) = true ->
  PyStr.any_in ["plant"; "grow"; "suitable"; "recommend"] (PyStr.lower response_text)
  = false.
Proof.
  intros H.
  assert (Hspace : all_space response_text = true).
  { apply strip_empty_iff. destruct response_text; [reflexivity | exact H]. }
  unfold PyStr.any_in. cbn [existsb].
  rewrite !contains_all_space by (reflexivity || exact Hspace). reflexivity.
Qed.

Lemma nonempty_length (s : string) :
  PyStr.is_empty s = false -> (0 <? Z.of_nat (String.length s)) = true.
Proof. destruct s; [discriminate | reflexivity]. Qed.

Section Analyze.

Variable json_loads : string -> libresult pyval.
Variable float_of_str : string -> option spec_float.
Variable b64decode : string -> libresult (list Byte.byte).
Variable Image : Type.
Variable Image_open : list Byte.byte -> libresult Image.
Variable Image_verify : Image -> libresult unit.
Variable generate_content : string -> Image -> libresult response.
Variable build_prompt : pyval -> pyval -> pyval -> string.

(** The text of a response that is not JSON gives the fallback response,
    with the description chosen by the keywords. *)
Lemma process_unparseable_text (response_text cls message : string) :
  json_loads response_text = Raises cls message ->
  _process_comprehensive_response json_loads float_of_str
    (response_of_text response_text)
  = Ok (spec_fallback_result response_text).
Proof.
  intros Hjson.
  unfold _process_comprehensive_response, _process_comprehensive_response_try,
    response_of_text, spec_fallback_result.
  cbn [cand_content parts text].
  destruct (PyStr.is_empty response_text || PyStr.is_empty (PyStr.strip response_text))
    eqn:Hblank.
  - rewrite (blank_has_no_keyword response_text Hblank). reflexivity.
  - apply orb_false_elim in Hblank as [Hempty Hstrip].
    rewrite Hjson. cbn [run try_except].
    unfold _create_comprehensive_fallback_response.
    rewrite Hempty, (nonempty_length _ Hstrip). reflexivity.
Qed.

(** When the image is accepted and the service answers, the client
    returns what the parser makes of the answer, after one call. *)
Lemma analyze_returns_parsed
    (self : GeminiClient) (image_data latitude longitude : pyval)
    (rest : list pyval) (image_bytes : list Byte.byte) (image : Image)
    (response : response) :
  is_Some (model self) ->
  truthy image_data = true ->
  _prepare_image_for_api b64decode Image Image_open Image_verify image_data
  = Ok image_bytes ->
  Image_open image_bytes = Returns image ->
  generate_content
    (build_prompt latitude longitude (match rest with a :: _ => a | [] => PInt 0 end))
    image
  = Returns response ->
  analyze_image_and_recommend_plants json_loads float_of_str b64decode Image
    Image_open Image_verify generate_content build_prompt
    self image_data (PList (latitude :: longitude :: rest))
  = (_process_comprehensive_response json_loads float_of_str response,
     [ {| call_prompt :=
            build_prompt latitude longitude
              (match rest with a :: _ => a | [] => PInt 0 end);
          call_image := image_bytes |} ]).
Proof.
  intros [handle Hmodel] Himage Hprepare Hopen Hcall.
  unfold analyze_image_and_recommend_plants, analyze_image_and_recommend_plants_try.
  rewrite Hmodel, Himage. cbn [negb orb truthy].
  rewrite Hprepare. cbn [try_except]. rewrite Hopen. cbn [run try_except].
  rewrite Hcall. cbn [run].
  destruct (process_response_returns json_loads float_of_str response) as [d ->].
  reflexivity.
Qed.

End Analyze.

(** C5: a response text that fails JSON parsing does not make the parser
    raise: it returns the fallback result, whose plants are the fallback
    plants and whose description is the "partial details" message when the
    text holds one of "plant", "grow", "suitable", "recommend"
    (case-insensitive) and the generic message otherwise; description and
    plants are not empty, and the client returns this result as a success
    (no exception) when the call to the service returned that text. *)
Theorem unparseable_text_is_recovered
    (json_loads : string -> libresult pyval)
    (float_of_str : string -> option spec_float)
    (b64decode : string -> libresult (list Byte.byte))
    (Image : Type)
    (Image_open : list Byte.byte -> libresult Image)
    (Image_verify : Image -> libresult unit)
    (generate_content : string -> Image -> libresult response)
    (build_prompt : pyval -> pyval -> pyval -> string)
    (response_text cls message : string)
    (Hjson : json_loads response_text = Raises cls message) :
  _process_comprehensive_response json_loads float_of_str
    (response_of_text response_text)
  = Ok (spec_fallback_result response_text)
  /\ (exists description,
         spec_fallback_result response_text !! "description" = Some (PStr description)
         /\ PyStr.is_empty description = false)
  /\ spec_fallback_result response_text !! "plants" = Some (PList _get_fallback_plants)
  /\ length _get_fallback_plants = 3%nat
  /\ (forall (self : GeminiClient) (image_data latitude longitude : pyval)
             (rest : list pyval) (image_bytes : list Byte.byte) (image : Image),
         is_Some (model self) ->
         truthy image_data = true ->
         _prepare_image_for_api b64decode Image Image_open Image_verify image_data
         = Ok image_bytes ->
         Image_open image_bytes = Returns image ->
         generate_content
           (build_prompt latitude longitude
              (match rest with a :: _ => a | [] => PInt 0 end))
           image
         = Returns (response_of_text response_text) ->
         fst (analyze_image_and_recommend_plants json_loads float_of_str b64decode
                Image Image_open Image_verify generate_content build_prompt
                self image_data (PList (latitude :: longitude :: rest)))
         = Ok (spec_fallback_result response_text)).
Proof.
  pose proof (process_unparseable_text json_loads float_of_str
                response_text cls message Hjson) as Hprocess.
  split; [exact Hprocess|].
  split.
  { unfold spec_fallback_result, mk_dict. cbn [list_to_map foldr].
    rewrite lookup_insert_eq. eexists. split; [reflexivity|].
    destruct (PyStr.any_in _ _); reflexivity. }
  split.
  { unfold spec_fallback_result, mk_dict. cbn [list_to_map foldr].
    rewrite lookup_insert_ne by done. apply lookup_insert_eq. }
  split; [reflexivity|].
  intros self image_data latitude longitude rest image_bytes image
    Hmodel Himage Hprepare Hopen Hcall.
  rewrite (analyze_returns_parsed json_loads float_of_str b64decode Image Image_open
             Image_verify generate_content build_prompt self image_data latitude
             longitude rest image_bytes image _ Hmodel Himage Hprepare Hopen Hcall).
  exact Hprocess.
Qed.

(** The scenario of the specification: an image that is accepted, a
    location of three components, and a service that answers in prose. *)
Lemma unparseable_text_is_recovered_witness :
  _process_comprehensive_response Mock.json_loads_not_json Mock.float_of_str
    (response_of_text Mock.prose)
  = Ok (spec_fallback_result Mock.prose)
  /\ fst (analyze_image_and_recommend_plants
            Mock.json_loads_not_json Mock.float_of_str Mock.b64decode_small
            Mock.Image Mock.Image_open_any Mock.Image_verify_any
            Mock.generate_content_prose Mock.build_prompt
            Mock.client (PStr "AAAA") (PList [PInt 40; PInt (-74); PInt 10]))
     = Ok (spec_fallback_result Mock.prose).
Proof.
  destruct (unparseable_text_is_recovered
              Mock.json_loads_not_json Mock.float_of_str Mock.b64decode_small
              Mock.Image Mock.Image_open_any Mock.Image_verify_any
              Mock.generate_content_prose Mock.build_prompt
              Mock.prose "JSONDecodeError" "Expecting value: line 1 column 1 (char 0)"
              eq_refl) as (Hprocess & _ & _ & _ & Hanalyze).
  split; [exact Hprocess|].
  apply (Hanalyze Mock.client (PStr "AAAA") (PInt 40) (PInt (-74)) [PInt 10]
           Mock.small_payload Mock.small_payload).
  - eexists; reflexivity.
  - reflexivity.
  - reflexivity.
  - reflexivity.
  - reflexivity.
Defined.

(** The same scenario through [/answer]: status 200, the "partial
    details" description (the prose holds "grow"), the fallback plants,
    and one call of the service. *)
Lemma scenario_prose_answer :
  (let '(body, status, calls) :=
     answer Mock.json_loads_not_json Mock.float_of_str Mock.b64decode_small
       Mock.Image Mock.Image_open_any Mock.Image_verify_any
       Mock.generate_content_prose Mock.build_prompt
       Mock.getenv Mock.genai_configure_model (Ok Mock.request) in
   (status, plant_field "description" body,
    option_map (fun plants =>
                  plant_fields "name" (match plants with PList l => l | _ => [] end))
      (plant_field "plants" body),
    length calls))
  = (200, Some (PStr partial_description),
     Some [ Some (PStr "Spider Plant"); Some (PStr "Pothos"); Some (PStr "Snake Plant") ],
     1%nat).
Proof. vm_compute. reflexivity. Qed.

(* ===================================================================== *)
(** ** The size ceiling of the image *)
(* ===================================================================== *)

Lemma len_big_payload : len_bytes Mock.big_payload = 10485761.
Proof.
  unfold len_bytes, Mock.big_payload. rewrite repeat_length, N_nat_Z. reflexivity.
Qed.

Section ImagePreparer.

Variable b64decode : string -> libresult (list Byte.byte).
Variable Image : Type.
Variable Image_open : list Byte.byte -> libresult Image.
Variable Image_verify : Image -> libresult unit.

Variables (image_data payload : string) (image_bytes : list Byte.byte).
Hypothesis Hnonempty : PyStr.is_empty image_data = false.
Hypothesis Hpayload : data_url_payload image_data = Ok payload.
Hypothesis Hdecode : b64decode payload = Returns image_bytes.

(** Up to the image checks, preparation is the [try] around
    [Image.open], [verify] and the size check. *)
Lemma prepare_decoded :
  _prepare_image_for_api b64decode Image Image_open Image_verify (PStr image_data)
  = try_reraise_gemini
      (let* _ :=
         try_except
           (let* img := run (Image_open image_bytes) in
            let* _ := run (Image_verify img) in
            if max_image_bytes <? len_bytes image_bytes then
              Raise (GeminiAPIError "Image file too large (max 10MB)" "image")
            else Ok tt)
           (fun img_error =>
              if PyStr.contains "too large" (str_exn img_error) then Raise img_error
              else Raise (GeminiAPIError
                            ("Invalid or corrupted image format: " +:+ str_exn img_error)
                            "image")) in
       Ok image_bytes)
      (fun e => Raise (GeminiAPIError ("Failed to prepare image: " +:+ str_exn e) "image")).
Proof.
  unfold _prepare_image_for_api. cbn [truthy is_str]. rewrite Hnonempty.
  cbn [negb orb]. rewrite Hpayload. cbn [bind]. rewrite Hdecode. reflexivity.
Qed.

(** An image library that rejects the bytes: the error is of type
    ["image"], and its text is the library's, prefixed. *)
Lemma prepare_unreadable (cls message : string) :
  Image_open image_bytes = Raises cls message
  \/ (exists image, Image_open image_bytes = Returns image
                    /\ Image_verify image = Raises cls message) ->
  _prepare_image_for_api b64decode Image Image_open Image_verify (PStr image_data)
  = Raise (GeminiAPIError
             ((if PyStr.contains "too large" message
               then "Failed to prepare image: "
               else "Invalid or corrupted image format: ") +:+ message)
             "image").
Proof.
  intros H. rewrite prepare_decoded.
  destruct H as [-> | (image & -> & Hverify)]; cbn [run bind try_except str_exn];
    rewrite ?Hverify; cbn [run bind try_except str_exn];
    destruct (PyStr.contains "too large" message); reflexivity.
Qed.

Lemma prepare_readable (image : Image) (u : unit) :
  Image_open image_bytes = Returns image -> Image_verify image = Returns u ->
  _prepare_image_for_api b64decode Image Image_open Image_verify (PStr image_data)
  = if max_image_bytes <? len_bytes image_bytes
    then Raise (GeminiAPIError "Image file too large (max 10MB)" "image")
    else Ok image_bytes.
Proof.
  intros Hopen Hverify. rewrite prepare_decoded, Hopen. cbn [run bind].
  rewrite Hverify. cbn [run bind].
  destruct (max_image_bytes <? len_bytes image_bytes); reflexivity.
Qed.

End ImagePreparer.

(** C8 (as amended): a payload whose decoded length exceeds
    [10 * 1024 * 1024] bytes always makes image preparation fail with an
    error of type ["image"].  The image is checked before the size: when
    the image library loads and verifies the bytes, the error is the one
    that cites the size limit; when the library refuses them, at loading
    or at verification, the error carries the library's complaint after
    "Invalid or corrupted image format: " (after "Failed to prepare
    image: " if the complaint has "too large" in it).  A payload at or
    below the limit that loads and verifies is returned. *)
Theorem oversized_image_is_rejected
    (b64decode : string -> libresult (list Byte.byte))
    (Image : Type)
    (Image_open : list Byte.byte -> libresult Image)
    (Image_verify : Image -> libresult unit)
    (image_data payload : string) (image_bytes : list Byte.byte)
    (Hnonempty : PyStr.is_empty image_data = false)
    (Hpayload : data_url_payload image_data = Ok payload)
    (Hdecode : b64decode payload = Returns image_bytes) :
  (max_image_bytes < len_bytes image_bytes ->
   (exists message,
       _prepare_image_for_api b64decode Image Image_open Image_verify (PStr image_data)
       = Raise (GeminiAPIError message "image"))
   /\ (forall image u,
          Image_open image_bytes = Returns image -> Image_verify image = Returns u ->
          _prepare_image_for_api b64decode Image Image_open Image_verify (PStr image_data)
          = Raise (GeminiAPIError "Image file too large (max 10MB)" "image"))
   /\ (forall cls message,
          Image_open image_bytes = Raises cls message
          \/ (exists image, Image_open image_bytes = Returns image
                            /\ Image_verify image = Raises cls message) ->
          _prepare_image_for_api b64decode Image Image_open Image_verify (PStr image_data)
          = Raise (GeminiAPIError
                     ((if PyStr.contains "too large" message
                       then "Failed to prepare image: "
                       else "Invalid or corrupted image format: ") +:+ message)
                     "image")))
  /\ (len_bytes image_bytes <= max_image_bytes ->
      forall image u,
        Image_open image_bytes = Returns image -> Image_verify image = Returns u ->
        _prepare_image_for_api b64decode Image Image_open Image_verify (PStr image_data)
        = Ok image_bytes).
Proof.
  pose proof (prepare_unreadable b64decode Image Image_open Image_verify image_data
                payload image_bytes Hnonempty Hpayload Hdecode) as Hrefused.
  split.
  - intros Hbig%Z.ltb_lt.
    assert (Hvalid : forall image u,
               Image_open image_bytes = Returns image ->
               Image_verify image = Returns u ->
               _prepare_image_for_api b64decode Image Image_open Image_verify
                 (PStr image_data)
               = Raise (GeminiAPIError "Image file too large (max 10MB)" "image")).
    { intros image u Hopen Hverify.
      rewrite (prepare_readable b64decode Image Image_open Image_verify image_data
                 payload image_bytes Hnonempty Hpayload Hdecode image u Hopen Hverify).
      rewrite Hbig. reflexivity. }
    split; [|split; [exact Hvalid | exact Hrefused]].
    destruct (Image_open image_bytes) as [image|cls message] eqn:Hopen.
    + destruct (Image_verify image) as [u|cls message] eqn:Hverify.
      * eexists. exact (Hvalid image u eq_refl Hverify).
      * eexists. apply (Hrefused cls message).
        right. exists image. split; [reflexivity | exact Hverify].
    + eexists. apply (Hrefused cls message). left. reflexivity.
  - intros Hsmall%Z.ltb_ge image u Hopen Hverify.
    rewrite (prepare_readable b64decode Image Image_open Image_verify image_data
               payload image_bytes Hnonempty Hpayload Hdecode image u Hopen Hverify).
    rewrite Hsmall. reflexivity.
Qed.

(** A payload of [10 MB + 1] bytes that the image library accepts, the
    same payload with a library that does not identify it, and a payload
    of three bytes. *)
Lemma oversized_image_is_rejected_witness :
  _prepare_image_for_api Mock.b64decode_big Mock.Image Mock.Image_open_any
    Mock.Image_verify_any (PStr "AAAA")
  = Raise (GeminiAPIError "Image file too large (max 10MB)" "image")
  /\ _prepare_image_for_api Mock.b64decode_big Mock.Image Mock.Image_open_none
       Mock.Image_verify_any (PStr "AAAA")
     = Raise (GeminiAPIError
                "Invalid or corrupted image format: cannot identify image file" "image")
  /\ _prepare_image_for_api Mock.b64decode_small Mock.Image Mock.Image_open_any
       Mock.Image_verify_any (PStr "AAAA")
     = Ok Mock.small_payload.
Proof.
  assert (Hover : max_image_bytes < len_bytes Mock.big_payload)
    by (rewrite len_big_payload; reflexivity).
  assert (Hunder : len_bytes Mock.small_payload <= max_image_bytes)
    by (vm_compute; discriminate).
  split; [|split].
  - destruct (oversized_image_is_rejected Mock.b64decode_big Mock.Image
                Mock.Image_open_any Mock.Image_verify_any "AAAA" "AAAA"
                Mock.big_payload eq_refl eq_refl eq_refl) as [Hbig _].
    destruct (Hbig Hover) as (_ & Hcite & _).
    exact (Hcite Mock.big_payload tt eq_refl eq_refl).
  - destruct (oversized_image_is_rejected Mock.b64decode_big Mock.Image
                Mock.Image_open_none Mock.Image_verify_any "AAAA" "AAAA"
                Mock.big_payload eq_refl eq_refl eq_refl) as [Hbig _].
    destruct (Hbig Hover) as (_ & _ & Hrefused).
    exact (Hrefused "UnidentifiedImageError" "cannot identify image file"
             (or_introl eq_refl)).
  - destruct (oversized_image_is_rejected Mock.b64decode_small Mock.Image
                Mock.Image_open_any Mock.Image_verify_any "AAAA" "AAAA"
                Mock.small_payload eq_refl eq_refl eq_refl) as [_ Hsmall].
    exact (Hsmall Hunder Mock.small_payload tt eq_refl eq_refl).
Defined.

(** C8 as stated fails on what the error cites: for a payload over the
    limit whose bytes the image library does not identify, the error is
    the one of the image check, raised before the size is looked at; it
    does not mention the size limit. *)
Lemma oversized_unreadable_image_cites_the_format :
  (max_image_bytes <? len_bytes Mock.big_payload) = true
  /\ _prepare_image_for_api Mock.b64decode_big Mock.Image Mock.Image_open_none
       Mock.Image_verify_any (PStr "AAAA")
     = Raise (GeminiAPIError
                "Invalid or corrupted image format: cannot identify image file" "image")
  /\ PyStr.contains "too large"
       "Invalid or corrupted image format: cannot identify image file" = false
  /\ PyStr.contains "10MB"
       "Invalid or corrupted image format: cannot identify image file" = false.
Proof.
  split; [rewrite len_big_payload; reflexivity|].
  split; [|split; reflexivity].
  apply (prepare_unreadable Mock.b64decode_big Mock.Image Mock.Image_open_none
           Mock.Image_verify_any "AAAA" "AAAA" Mock.big_payload
           eq_refl eq_refl eq_refl "UnidentifiedImageError" "cannot identify image file").
  left. reflexivity.
Qed.

(* ===================================================================== *)
(** ** More on the plant validator *)
(* ===================================================================== *)

(** The names of the fields validation looks at. *)
Definition validated_fields : list string :=
  [ "name"; "description"; "care_instructions"; "care_tips";
    "image"; "AR_model"; "superimposed_image"; "placement_confidence" ].

(** The state of a record that validation has accepted: the four required
    texts are strings that are not blank, ['image'] and ['AR_model'] are
    present, ['superimposed_image'] is a string and the confidence is a
    float. *)
Definition validated_record (d : dict) : Prop :=
  nonblank_str (d !! "name")
  /\ nonblank_str (d !! "description")
  /\ nonblank_str (d !! "care_instructions")
  /\ nonblank_str (d !! "care_tips")
  /\ is_Some (d !! "image")
  /\ is_Some (d !! "AR_model")
  /\ some_str (d !! "superimposed_image")
  /\ exists c, d !! "placement_confidence" = Some (PFloat c).

Section ValidatorInvariant.

Variable float_of_str : string -> option spec_float.

(** The record before the confidence is looked at. *)
Definition before_confidence (d : dict) : dict :=
  fix_superimposed_image
    (setdefault "AR_model" (PStr "")
       (setdefault "image" (PStr "")
          (fold_left fix_required_field required_fields d))).

Lemma fix_required_field_some_str (d : dict) (field default_value : string) :
  some_str (fix_required_field d (field, default_value) !! field).
Proof.
  unfold fix_required_field, some_str.
  destruct (d !! field) as [v|] eqn:E.
  - destruct (negb (truthy v) || negb (is_str v)) eqn:Hv.
    + rewrite lookup_insert_eq. eauto.
    + apply orb_false_elim in Hv as [_ Hs]. destruct v; try discriminate.
      rewrite E. eauto.
  - rewrite lookup_insert_eq. eauto.
Qed.

Lemma fix_required_field_is_Some (d : dict) (item : string * string) (k : string) :
  is_Some (d !! k) -> is_Some (fix_required_field d item !! k).
Proof.
  destruct item as [field default_value]. intros Hk.
  destruct (decide (field = k)) as [->|Hne].
  - destruct (fix_required_field_some_str d k default_value) as [s ->]. eauto.
  - rewrite fix_required_field_lookup_ne by exact Hne. exact Hk.
Qed.

Lemma setdefault_is_Some (d : dict) (key k : string) (v : pyval) :
  is_Some (d !! k) -> is_Some (setdefault key v d !! k).
Proof.
  intros Hk. unfold setdefault. destruct (d !! key) eqn:E; [exact Hk|].
  destruct (decide (key = k)) as [->|Hne];
    [rewrite lookup_insert_eq; eauto | rewrite lookup_insert_ne by exact Hne; exact Hk].
Qed.

Lemma setdefault_present (d : dict) (key : string) (v : pyval) :
  is_Some (setdefault key v d !! key).
Proof.
  unfold setdefault. destruct (d !! key) eqn:E; [rewrite E; eauto|].
  rewrite lookup_insert_eq. eauto.
Qed.

Lemma fix_superimposed_image_some_str (d : dict) :
  some_str (fix_superimposed_image d !! "superimposed_image").
Proof.
  unfold fix_superimposed_image, some_str.
  destruct (d !! "superimposed_image") as [v|] eqn:E.
  - destruct (negb (is_str v)) eqn:Hv.
    + rewrite lookup_insert_eq. eauto.
    + destruct v; try discriminate. rewrite E. eauto.
  - rewrite lookup_insert_eq. eauto.
Qed.

Lemma fix_superimposed_image_is_Some (d : dict) (k : string) :
  is_Some (d !! k) -> is_Some (fix_superimposed_image d !! k).
Proof.
  intros Hk. destruct (decide ("superimposed_image" = k)) as [<-|Hne].
  - destruct (fix_superimposed_image_some_str d) as [s ->]. eauto.
  - rewrite fix_superimposed_image_lookup_ne by exact Hne. exact Hk.
Qed.

(** Before the confidence: the required fields are strings, the optional
    ones are there, nothing was removed, and a field validation does not
    look at is as it was. *)
Lemma before_confidence_fields (d : dict) :
  some_str (before_confidence d !! "name")
  /\ some_str (before_confidence d !! "description")
  /\ some_str (before_confidence d !! "care_instructions")
  /\ some_str (before_confidence d !! "care_tips")
  /\ is_Some (before_confidence d !! "image")
  /\ is_Some (before_confidence d !! "AR_model")
  /\ some_str (before_confidence d !! "superimposed_image").
Proof.
  unfold before_confidence, required_fields. cbn [fold_left].
  repeat split.
  1-4: rewrite fix_superimposed_image_lookup_ne, !setdefault_lookup_ne by done;
    rewrite ?fix_required_field_lookup_ne by done;
    apply fix_required_field_some_str.
  - apply fix_superimposed_image_is_Some, setdefault_is_Some, setdefault_present.
  - apply fix_superimposed_image_is_Some, setdefault_present.
  - apply fix_superimposed_image_some_str.
Qed.

Lemma before_confidence_is_Some (d : dict) (k : string) :
  is_Some (d !! k) -> is_Some (before_confidence d !! k).
Proof.
  intros Hk. unfold before_confidence, required_fields. cbn [fold_left].
  apply fix_superimposed_image_is_Some. do 2 apply setdefault_is_Some.
  do 4 apply fix_required_field_is_Some. exact Hk.
Qed.

Lemma before_confidence_other (d : dict) (k : string) :
  k ∉ validated_fields -> before_confidence d !! k = d !! k.
Proof.
  intros Hk. unfold validated_fields in Hk.
  rewrite !not_elem_of_cons in Hk.
  destruct Hk as (H1 & H2 & H3 & H4 & H5 & H6 & H7 & H8 & _).
  unfold before_confidence, required_fields. cbn [fold_left].
  rewrite fix_superimposed_image_lookup_ne, !setdefault_lookup_ne by congruence.
  rewrite !fix_required_field_lookup_ne by congruence. reflexivity.
Qed.

(** One turn of the last loop on a field that holds a string. *)
Lemma fix_blank_field_str (d : dict) (field default_value : string) :
  some_str (d !! field) ->
  PyStr.is_empty (PyStr.strip default_value) = false ->
  exists d', fix_blank_field (Ok d) (field, default_value) = Ok d'
             /\ nonblank_str (d' !! field)
             /\ (forall k, field <> k -> d' !! k = d !! k).
Proof.
  intros [s Hs] Hdefault. unfold fix_blank_field, bind. rewrite Hs.
  destruct (PyStr.is_empty (PyStr.strip s)) eqn:Hblank.
  - eexists. split; [reflexivity|]. split.
    + exists default_value. rewrite lookup_insert_eq. auto.
    + intros k Hne. apply lookup_insert_ne. exact Hne.
  - exists d. split; [reflexivity|]. split; [exists s; auto | auto].
Qed.

(** The last loop on a record whose required fields hold strings ends
    well, leaves them not blank and touches nothing else. *)
Lemma fix_blank_fields_str (d : dict) :
  some_str (d !! "name") -> some_str (d !! "description") ->
  some_str (d !! "care_instructions") -> some_str (d !! "care_tips") ->
  exists d', fold_left fix_blank_field required_fields (Ok d) = Ok d'
             /\ nonblank_str (d' !! "name")
             /\ nonblank_str (d' !! "description")
             /\ nonblank_str (d' !! "care_instructions")
             /\ nonblank_str (d' !! "care_tips")
             /\ (forall k, "name" <> k -> "description" <> k ->
                           "care_instructions" <> k -> "care_tips" <> k ->
                           d' !! k = d !! k).
Proof.
  intros Hn Hd Hi Ht. unfold required_fields. cbn [fold_left].
  destruct (fix_blank_field_str d "name" "Unknown Plant" Hn eq_refl)
    as (d1 & -> & Hn1 & Ho1).
  destruct (fix_blank_field_str d1 "description" "Plant information not available."
              ltac:(rewrite Ho1 by done; exact Hd) eq_refl) as (d2 & -> & Hd2 & Ho2).
  destruct (fix_blank_field_str d2 "care_instructions"
              "Follow general plant care guidelines."
              ltac:(rewrite Ho2, Ho1 by done; exact Hi) eq_refl)
    as (d3 & -> & Hi3 & Ho3).
  destruct (fix_blank_field_str d3 "care_tips"
              "Monitor plant health and adjust care as needed."
              ltac:(rewrite Ho3, Ho2, Ho1 by done; exact Ht) eq_refl)
    as (d4 & -> & Ht4 & Ho4).
  exists d4. split; [reflexivity|].
  split; [rewrite Ho4, Ho3, Ho2 by done; exact Hn1|].
  split; [rewrite Ho4, Ho3 by done; exact Hd2|].
  split; [rewrite Ho4 by done; exact Hi3|].
  split; [exact Ht4|].
  intros k H1 H2 H3 H4. rewrite Ho4, Ho3, Ho2, Ho1 by assumption. reflexivity.
Qed.

(** Validation of a record: it fails exactly when the repair of the
    confidence fails, and otherwise leaves a validated record that holds
    the repaired confidence, every key it had, and the fields validation
    does not look at as they were. *)
Lemma validate_record (d : dict) :
  match repaired_confidence float_of_str (d !! "placement_confidence") with
  | Raise e => _validate_comprehensive_plant_data float_of_str (PDict d) = Raise e
  | Ok c =>
      exists d',
        _validate_comprehensive_plant_data float_of_str (PDict d) = Ok d'
        /\ validated_record d'
        /\ d' !! "placement_confidence" = Some (PFloat c)
        /\ (forall k, is_Some (d !! k) -> is_Some (d' !! k))
        /\ (forall k, k ∉ validated_fields -> d' !! k = d !! k)
  end.
Proof.
  unfold _validate_comprehensive_plant_data. fold (before_confidence d).
  rewrite fix_placement_confidence_spec.
  pose proof (before_confidence_lookup d) as Hconf. fold (before_confidence d) in Hconf.
  rewrite Hconf.
  destruct (repaired_confidence float_of_str (d !! "placement_confidence")) as [c|e];
    cbn [bind]; [|unfold required_fields; reflexivity].
  destruct (before_confidence_fields d) as (Hn & Hd & Hi & Ht & Him & Har & Hsu).
  set (d1 := <["placement_confidence" := PFloat c]> (before_confidence d)).
  assert (Hd1 : forall k, "placement_confidence" <> k ->
                          d1 !! k = before_confidence d !! k)
    by (intros k Hne; apply lookup_insert_ne; exact Hne).
  destruct (fix_blank_fields_str d1) as (d' & -> & Hn' & Hd' & Hi' & Ht' & Ho');
    try (rewrite Hd1 by done; assumption).
  exists d'. split; [reflexivity|].
  assert (Hpc : d' !! "placement_confidence" = Some (PFloat c)).
  { rewrite Ho' by done. apply lookup_insert_eq. }
  split.
  { repeat split; try assumption.
    - rewrite Ho', Hd1 by done. exact Him.
    - rewrite Ho', Hd1 by done. exact Har.
    - rewrite Ho', Hd1 by done. exact Hsu.
    - eauto. }
  split; [exact Hpc|]. split.
  - intros k Hk.
    destruct (decide (k ∈ validated_fields)) as [Hin|Hout].
    + unfold validated_fields in Hin. rewrite !elem_of_cons in Hin.
      destruct Hin as [->|[->|[->|[->|[->|[->|[->|[->|Hin]]]]]]]].
      * destruct Hn' as (s & -> & _); eauto.
      * destruct Hd' as (s & -> & _); eauto.
      * destruct Hi' as (s & -> & _); eauto.
      * destruct Ht' as (s & -> & _); eauto.
      * rewrite Ho', Hd1 by done. exact Him.
      * rewrite Ho', Hd1 by done. exact Har.
      * rewrite Ho', Hd1 by done. destruct Hsu as [s ->]. eauto.
      * rewrite Hpc. eauto.
      * apply elem_of_nil in Hin. contradiction.
    + pose proof Hout as Hout'. unfold validated_fields in Hout'.
      rewrite !not_elem_of_cons in Hout'.
      destruct Hout' as (H1 & H2 & H3 & H4 & H5 & H6 & H7 & H8 & _).
      rewrite Ho', Hd1 by congruence. apply before_confidence_is_Some, Hk.
  - intros k Hout. pose proof Hout as Hout'. unfold validated_fields in Hout'.
    rewrite !not_elem_of_cons in Hout'.
    destruct Hout' as (H1 & H2 & H3 & H4 & H5 & H6 & H7 & H8 & _).
    rewrite Ho', Hd1 by congruence. apply before_confidence_other, Hout.
Qed.

End ValidatorInvariant.

Section ValidatorProperties.

Variable float_of_str : string -> option spec_float.

Lemma validate_ok_is_dict (plant : pyval) (d' : dict) :
  _validate_comprehensive_plant_data float_of_str plant = Ok d' ->
  exists d, plant = PDict d.
Proof. destruct plant; try discriminate. eauto. Qed.

Lemma validate_ok_record (d d' : dict) :
  _validate_comprehensive_plant_data float_of_str (PDict d) = Ok d' ->
  exists c, repaired_confidence float_of_str (d !! "placement_confidence") = Ok c
    /\ validated_record d'
    /\ d' !! "placement_confidence" = Some (PFloat c)
    /\ (forall k, is_Some (d !! k) -> is_Some (d' !! k))
    /\ (forall k, k ∉ validated_fields -> d' !! k = d !! k).
Proof.
  intros H. pose proof (validate_record float_of_str d) as Hrec.
  destruct (repaired_confidence float_of_str (d !! "placement_confidence")) as [c|e].
  - destruct Hrec as (d0 & Hd0 & Hrest). rewrite Hd0 in H. injection H as <-.
    exists c. split; [reflexivity | exact Hrest].
  - rewrite Hrec in H. discriminate.
Qed.

(** The repair of a confidence, seen on its own result. *)
Lemma repaired_confidence_stable (confidence : option pyval) (c : spec_float) :
  repaired_confidence float_of_str confidence = Ok c ->
  PyFloat.ltb c PyFloat.f0_0 || PyFloat.ltb PyFloat.f1_0 c = false.
Proof.
  unfold repaired_confidence.
  destruct confidence as [v|]; [|intros [= <-]; reflexivity].
  destruct (py_float float_of_str v) as [c'|[m t|cls m]]; [| discriminate |].
  - destruct (PyFloat.ltb c' PyFloat.f0_0 || PyFloat.ltb PyFloat.f1_0 c') eqn:E;
      intros [= <-]; [reflexivity | exact E].
  - destruct (String.eqb cls "ValueError" || String.eqb cls "TypeError");
      [intros [= <-]; reflexivity | discriminate].
Qed.

(** When the repair of a confidence fails: only for an integer that is
    too large for a float. *)
Lemma repaired_confidence_raises (confidence : option pyval) :
  (exists e, repaired_confidence float_of_str confidence = Raise e)
  <-> exists z, confidence = Some (PInt z)
                /\ PyFloat.is_infinity (PyFloat.of_Z z) = true.
Proof.
  unfold repaired_confidence. split.
  - intros [e He]. destruct confidence as [v|]; [|discriminate].
    destruct v as [|b|z|f|s|l|d]; cbn [py_float] in He; try discriminate.
    + destruct (PyFloat.ltb _ _ || PyFloat.ltb _ _); discriminate.
    + destruct (PyFloat.is_infinity (PyFloat.of_Z z)) eqn:Hinf; [eauto|].
      destruct (PyFloat.ltb _ _ || PyFloat.ltb _ _); discriminate.
    + destruct (PyFloat.ltb _ _ || PyFloat.ltb _ _); discriminate.
    + destruct (float_of_str s); [|discriminate].
      destruct (PyFloat.ltb _ _ || PyFloat.ltb _ _); discriminate.
  - intros (z & -> & Hinf). cbn [py_float]. rewrite Hinf. eauto.
Qed.

Lemma validated_record_revalidates (d : dict) (c : spec_float) :
  validated_record d ->
  d !! "placement_confidence" = Some (PFloat c) ->
  PyFloat.ltb c PyFloat.f0_0 || PyFloat.ltb PyFloat.f1_0 c = false ->
  _validate_comprehensive_plant_data float_of_str (PDict d) = Ok d.
Proof.
  intros (Hn & Hd & Hi & Ht & [vi Hvi] & [va Hva] & Hsu & _) Hc Hrange.
  unfold _validate_comprehensive_plant_data, required_fields. cbn [fold_left].
  rewrite (fix_required_field_id d "name") by assumption.
  rewrite (fix_required_field_id d "description") by assumption.
  rewrite (fix_required_field_id d "care_instructions") by assumption.
  rewrite (fix_required_field_id d "care_tips") by assumption.
  unfold setdefault. rewrite Hvi, Hva.
  rewrite fix_superimposed_image_id by assumption.
  unfold fix_placement_confidence. rewrite Hc. cbn [py_float bind].
  rewrite Hrange. cbn [try_except_value_type].
  rewrite insert_id by exact Hc. cbn [bind].
  rewrite (fix_blank_field_id d "name") by assumption.
  rewrite (fix_blank_field_id d "description") by assumption.
  rewrite (fix_blank_field_id d "care_instructions") by assumption.
  rewrite (fix_blank_field_id d "care_tips") by assumption.
  reflexivity.
Qed.

Lemma validate_idempotent_dict (d d' : dict) :
  _validate_comprehensive_plant_data float_of_str (PDict d) = Ok d' ->
  _validate_comprehensive_plant_data float_of_str (PDict d') = Ok d'.
Proof.
  intros H. destruct (validate_ok_record d d' H) as (c & Hc & Hrec & Hpc & _).
  apply (validated_record_revalidates d' c Hrec Hpc).
  exact (repaired_confidence_stable _ _ Hc).
Qed.

(** What the loop over the plants keeps: validated records, each
    unchanged by a second validation. *)
Lemma validate_plants_Forall (plants : list pyval) :
  Forall (fun plant =>
            exists d, plant = PDict d /\ validated_record d
                      /\ _validate_comprehensive_plant_data float_of_str plant = Ok d)
    (validate_plants float_of_str plants).
Proof.
  induction plants as [|plant plants IH]; cbn [validate_plants]; [constructor|].
  destruct (_validate_comprehensive_plant_data float_of_str plant) as [d'|e] eqn:E;
    [|exact IH].
  constructor; [|exact IH].
  destruct (validate_ok_is_dict plant d' E) as [d ->].
  destruct (validate_ok_record d d' E) as (c & _ & Hrec & _).
  exists d'. split; [reflexivity|]. split; [exact Hrec|].
  exact (validate_idempotent_dict d d' E).
Qed.

Lemma validate_plants_fixpoint (plants : list pyval) :
  Forall (fun plant =>
            exists d, plant = PDict d
                      /\ _validate_comprehensive_plant_data float_of_str plant = Ok d)
    plants ->
  validate_plants float_of_str plants = plants.
Proof.
  induction 1 as [|plant plants (d & -> & Hd) _ IH]; [reflexivity|].
  cbn [validate_plants]. rewrite Hd, IH. reflexivity.
Qed.

Lemma validate_plants_idempotent (plants : list pyval) :
  validate_plants float_of_str (validate_plants float_of_str plants)
  = validate_plants float_of_str plants.
Proof.
  apply validate_plants_fixpoint.
  eapply Forall_impl; [apply validate_plants_Forall|].
  intros plant (d & -> & _ & Hd). eauto.
Qed.

End ValidatorProperties.

(* ===================================================================== *)
(** ** Further properties: validation *)
(* ===================================================================== *)

(** Inputs for the examples below. *)
Module Sample.

(** A record as a careless upstream may send it: a blank name, no other
    text, the confidence as a string, and a field of its own. *)
Definition messy_plant : pyval :=
  PDict (mk_dict [ ("name", PStr " ");
                   ("placement_confidence", PStr "0.7");
                   ("price", PInt 5) ]).

End Sample.

Lemma messy_plant_validates :
  exists d', _validate_comprehensive_plant_data Mock.float_of_str Sample.messy_plant
             = Ok d'.
Proof.
  pose proof (validate_record Mock.float_of_str
                (mk_dict [ ("name", PStr " ");
                           ("placement_confidence", PStr "0.7");
                           ("price", PInt 5) ])) as H.
  change (repaired_confidence Mock.float_of_str _) with (Ok PyFloat.f0_7) in H.
  destruct H as (d' & Hd' & _). exists d'. exact Hd'.
Qed.



(** X2: validation removes no key of a record, and a field it does not
    look at (any key other than the eight of the schema) keeps its
    value. *)
Theorem validation_keeps_other_fields
    (float_of_str : string -> option spec_float) (d d' : dict)
    (Hvalid : _validate_comprehensive_plant_data float_of_str (PDict d) = Ok d') :
  (forall k, is_Some (d !! k) -> is_Some (d' !! k))
  /\ (forall k, k ∉ validated_fields -> d' !! k = d !! k).
Proof.
  destruct (validate_ok_record float_of_str d d' Hvalid) as (c & _ & _ & _ & Hkeys & Hother).
  split; assumption.
Qed.

Lemma validation_keeps_other_fields_witness :
  exists d', _validate_comprehensive_plant_data Mock.float_of_str Sample.messy_plant
             = Ok d'
             /\ d' !! "price" = Some (PInt 5).
Proof.
  destruct messy_plant_validates as [d' Hd'].
  exists d'. split; [exact Hd'|].
  destruct (validation_keeps_other_fields Mock.float_of_str _ d' Hd') as [_ Hother].
  rewrite Hother; [reflexivity|].
  unfold validated_fields. rewrite !not_elem_of_cons.
  repeat (apply conj; [intro; discriminate|]). apply not_elem_of_nil.
Defined.

(** X3: validation is idempotent: a record that was accepted is accepted
    again, unchanged. *)
Theorem validation_is_idempotent
    (float_of_str : string -> option spec_float) (plant : pyval) (d' : dict)
    (Hvalid : _validate_comprehensive_plant_data float_of_str plant = Ok d') :
  _validate_comprehensive_plant_data float_of_str (PDict d') = Ok d'.
Proof.
  destruct (validate_ok_is_dict float_of_str plant d' Hvalid) as [d ->].
  exact (validate_idempotent_dict float_of_str d d' Hvalid).
Qed.

Lemma validation_is_idempotent_witness :
  exists d', _validate_comprehensive_plant_data Mock.float_of_str Sample.messy_plant
             = Ok d'
             /\ _validate_comprehensive_plant_data Mock.float_of_str (PDict d') = Ok d'.
Proof.
  destruct messy_plant_validates as [d' Hd'].
  exists d'. split; [exact Hd'|].
  exact (validation_is_idempotent Mock.float_of_str Sample.messy_plant d' Hd').
Defined.

(** X4: the lenient validator gives up on a plant in two cases only: the
    plant is not a dictionary, or its confidence is an integer too large
    to convert to a float.  Everything else is repaired. *)
Theorem validation_fails_only_on
    (float_of_str : string -> option spec_float) (plant : pyval) :
  (exists e, _validate_comprehensive_plant_data float_of_str plant = Raise e)
  <-> (is_dict plant = false
       \/ exists z, plant_field "placement_confidence" plant = Some (PInt z)
                    /\ PyFloat.is_infinity (PyFloat.of_Z z) = true).
Proof.
  destruct plant as [|b|z|f|s|l|d];
    try (split; [intros _; left; reflexivity | intros _; eexists; reflexivity]).
  cbn [is_dict plant_field].
  pose proof (validate_record float_of_str d) as Hrec.
  pose proof (repaired_confidence_raises float_of_str (d !! "placement_confidence"))
    as Hraises.
  destruct (repaired_confidence float_of_str (d !! "placement_confidence")) as [c|e].
  - destruct Hrec as (d' & Hd' & _). rewrite Hd'. split.
    + intros [e He]. discriminate.
    + intros [Hf | Hz]; [discriminate|].
      apply Hraises in Hz as [e He]. discriminate.
  - rewrite Hrec. split.
    + intros _. right. apply Hraises. eauto.
    + intros _. eauto.
Qed.

(* ===================================================================== *)
(** ** Further properties: the response parser *)
(* ===================================================================== *)

Lemma fallback_plants_clean : Forall clean_plant _get_fallback_plants.
Proof.
  repeat constructor; eexists; (split; [reflexivity|]);
    repeat split; eexists; (split; reflexivity) || reflexivity.
Qed.




(** X6: parsing is idempotent: what [process_parsed] made of a parsed
    value comes back unchanged when it is parsed again. *)
Theorem parsing_is_idempotent
    (float_of_str : string -> option spec_float) (parsed : pyval) :
  process_parsed float_of_str (PDict (process_parsed float_of_str parsed))
  = process_parsed float_of_str parsed.
Proof.
  destruct (process_parsed_fields float_of_str parsed)
    as ([description Hd] & plants & Hp & Hne & Hplants).
  assert (Hfix : validate_plants float_of_str plants = plants).
  { destruct Hplants as [-> | (document & upstream & _ & _ & ->)].
    - apply validate_clean_plants, fallback_plants_clean.
    - apply validate_plants_idempotent. }
  set (r := process_parsed float_of_str parsed) in *.
  cbv beta delta [process_parsed] iota zeta.
  rewrite Hd. rewrite !Hp. cbv [default from_option id]. rewrite Hfix.
  destruct plants as [|plant rest]; [contradiction|].
  apply insert_id. exact Hp.
Qed.

(* ===================================================================== *)
(** ** Further properties: image preparation *)
(* ===================================================================== *)

Lemma prefix_refl_app (p s : string) : String.prefix p (p +:+ s) = true.
Proof.
  induction p as [|c p IH]; simpl; [destruct s; reflexivity|].
  destruct (Ascii.ascii_dec c c); [exact IH | contradiction].
Qed.

Lemma contains_comma_cons (c : ascii) (s : string) :
  PyStr.contains "," (String c s) = Ascii.eqb c "," || PyStr.contains "," s.
Proof.
  cbn [PyStr.contains String.prefix].
  destruct (Ascii.ascii_dec "," c) as [<-|Hne].
  - destruct s; reflexivity.
  - destruct (Ascii.eqb_spec c ","); [congruence | reflexivity].
Qed.

Lemma split_cons (sep c : ascii) (s : string) :
  PyStr.split sep (String c s)
  = if Ascii.eqb c sep then EmptyString :: PyStr.split sep s
    else match PyStr.split sep s with
         | x :: xs => String c x :: xs
         | [] => [String c EmptyString]
         end.
Proof. reflexivity. Qed.

Lemma split_no_comma (s : string) :
  PyStr.contains "," s = false -> PyStr.split "," s = [s].
Proof.
  induction s as [|c s IH]; [reflexivity|].
  rewrite contains_comma_cons. intros [Hc Hs]%orb_false_elim.
  rewrite split_cons, Hc, (IH Hs). reflexivity.
Qed.

Lemma split_app_comma (a b : string) :
  PyStr.contains "," a = false ->
  PyStr.split "," (a +:+ "," +:+ b) = a :: PyStr.split "," b.
Proof.
  induction a as [|c a IH]; [reflexivity|].
  rewrite contains_comma_cons. intros [Hc Ha]%orb_false_elim.
  change (String c a +:+ "," +:+ b) with (String c (a +:+ "," +:+ b)).
  rewrite split_cons, Hc, (IH Ha). reflexivity.
Qed.

Lemma contains_comma_app (a b : string) :
  PyStr.contains "," (a +:+ b) = PyStr.contains "," a || PyStr.contains "," b.
Proof.
  induction a as [|c a IH]; [destruct b; reflexivity|].
  change (String c a +:+ b) with (String c (a +:+ b)).
  rewrite !contains_comma_cons, IH.
  destruct (Ascii.eqb c ","), (PyStr.contains "," a); reflexivity.
Qed.

(** X7: the data-URL prefix is stripped back to the payload: for a header
    and a payload without a comma, ["data:image" + header + "," + payload]
    gives the payload; whatever follows a second comma is dropped without
    an error; and a "data:image" string with no comma at all is refused as
    a malformed data URL. *)
Theorem data_url_payload_round_trip (header payload : string)
    (Hheader : PyStr.contains "," header = false)
    (Hpayload : PyStr.contains "," payload = false) :
  data_url_payload ("data:image" +:+ header +:+ "," +:+ payload) = Ok payload
  /\ (forall rest,
         data_url_payload ("data:image" +:+ header +:+ "," +:+ payload +:+ "," +:+ rest)
         = Ok payload)
  /\ data_url_payload ("data:image" +:+ header)
     = Raise (GeminiAPIError "Malformed data URL format" "image").
Proof.
  assert (Hprefix : PyStr.contains "," ("data:image" +:+ header) = false)
    by (rewrite contains_comma_app, Hheader; reflexivity).
  assert (Hstart : forall s, PyStr.startswith "data:image" ("data:image" +:+ header +:+ s)
                             = true).
  { intros s. unfold PyStr.startswith.
    change ("data:image" +:+ header +:+ s) with ("data:image" +:+ (header +:+ s)).
    apply prefix_refl_app. }
  assert (Hassoc : forall s, "data:image" +:+ header +:+ "," +:+ s
                             = ("data:image" +:+ header) +:+ "," +:+ s)
    by reflexivity.
  split; [|split].
  - unfold data_url_payload. rewrite Hstart, Hassoc, (split_app_comma _ _ Hprefix).
    rewrite (split_no_comma _ Hpayload). reflexivity.
  - intros rest. unfold data_url_payload.
    rewrite Hstart, Hassoc, (split_app_comma _ _ Hprefix).
    rewrite (split_app_comma _ _ Hpayload). reflexivity.
  - unfold data_url_payload, PyStr.startswith.
    rewrite (prefix_refl_app "data:image" header), (split_no_comma _ Hprefix).
    reflexivity.
Qed.

Lemma data_url_payload_round_trip_witness :
  data_url_payload "data:image/png;base64,iVBORw0KGgo=" = Ok "iVBORw0KGgo=".
Proof.
  exact (proj1 (data_url_payload_round_trip "/png;base64" "iVBORw0KGgo="
                  eq_refl eq_refl)).
Defined.

Section ImagePreparerProperties.

Variable b64decode : string -> libresult (list Byte.byte).
Variable Image : Type.
Variable Image_open : list Byte.byte -> libresult Image.
Variable Image_verify : Image -> libresult unit.

Lemma data_url_payload_raises (s : string) (e : exn) :
  data_url_payload s = Raise e ->
  e = GeminiAPIError "Malformed data URL format" "image".
Proof.
  unfold data_url_payload.
  destruct (PyStr.startswith "data:image" s); [|discriminate].
  destruct (nth_error (PyStr.split "," s) 1); [discriminate|].
  intros [= <-]. reflexivity.
Qed.

(** All the ways through [_prepare_image_for_api]. *)
Lemma prepare_cases (image_data : pyval) :
  (exists message,
      _prepare_image_for_api b64decode Image Image_open Image_verify image_data
      = Raise (GeminiAPIError message "image"))
  \/ (exists s payload image_bytes image u,
         image_data = PStr s
         /\ PyStr.is_empty s = false
         /\ data_url_payload s = Ok payload
         /\ b64decode payload = Returns image_bytes
         /\ Image_open image_bytes = Returns image
         /\ Image_verify image = Returns u
         /\ len_bytes image_bytes <= max_image_bytes
         /\ _prepare_image_for_api b64decode Image Image_open Image_verify image_data
            = Ok image_bytes).
Proof.
  destruct image_data as [|b|z|f|s|l|d];
    try (left; eexists; unfold _prepare_image_for_api; cbn [truthy is_str negb orb];
         rewrite ?orb_true_r; reflexivity).
  destruct (PyStr.is_empty s) eqn:Hempty.
  { left. eexists. unfold _prepare_image_for_api. cbn [truthy is_str].
    rewrite Hempty. reflexivity. }
  destruct (data_url_payload s) as [payload|e] eqn:Hpayload.
  2:{ left. eexists. unfold _prepare_image_for_api. cbn [truthy is_str].
      rewrite Hempty. cbn [negb orb]. rewrite Hpayload.
      rewrite (data_url_payload_raises s e Hpayload). reflexivity. }
  destruct (b64decode payload) as [image_bytes|cls message] eqn:Hdecode.
  2:{ left. eexists. unfold _prepare_image_for_api. cbn [truthy is_str].
      rewrite Hempty. cbn [negb orb]. rewrite Hpayload. cbn [bind].
      rewrite Hdecode. reflexivity. }
  destruct (Image_open image_bytes) as [image|cls message] eqn:Hopen.
  2:{ left. eexists.
      apply (prepare_unreadable b64decode Image Image_open Image_verify s payload
               image_bytes Hempty Hpayload Hdecode cls message).
      left. exact Hopen. }
  destruct (Image_verify image) as [u|cls message] eqn:Hverify.
  2:{ left. eexists.
      apply (prepare_unreadable b64decode Image Image_open Image_verify s payload
               image_bytes Hempty Hpayload Hdecode cls message).
      right. eauto. }
  pose proof (prepare_readable b64decode Image Image_open Image_verify s payload
                image_bytes Hempty Hpayload Hdecode image u Hopen Hverify) as Hready.
  destruct (max_image_bytes <? len_bytes image_bytes) eqn:Hsize.
  - left. eexists. exact Hready.
  - right. exists s, payload, image_bytes, image, u.
    apply Z.ltb_ge in Hsize. auto 10.
Qed.

End ImagePreparerProperties.

(** X8: whatever it is given and whatever the libraries do, image
    preparation raises nothing but a [GeminiAPIError] of type ["image"]:
    no exception of base64 or of the image library gets out as it is. *)
Theorem prepare_image_raises_image_errors_only
    (b64decode : string -> libresult (list Byte.byte))
    (Image : Type)
    (Image_open : list Byte.byte -> libresult Image)
    (Image_verify : Image -> libresult unit)
    (image_data : pyval) (e : exn)
    (Hraise : _prepare_image_for_api b64decode Image Image_open Image_verify image_data
              = Raise e) :
  exists message, e = GeminiAPIError message "image".
Proof.
  destruct (prepare_cases b64decode Image Image_open Image_verify image_data)
    as [[message Hm] | (s & payload & image_bytes & image & u & _ & _ & _ & _ & _ & _ & _ & Hok)].
  - rewrite Hm in Hraise. injection Hraise as <-. eauto.
  - rewrite Hok in Hraise. discriminate.
Qed.

Lemma prepare_image_raises_image_errors_only_witness :
  exists message,
    GeminiAPIError "Invalid or corrupted image format: cannot identify image file" "image"
    = GeminiAPIError message "image".
Proof.
  apply (prepare_image_raises_image_errors_only Mock.b64decode_small Mock.Image
           Mock.Image_open_none Mock.Image_verify_any (PStr "AAAA")).
  reflexivity.
Defined.

(** X9: bytes that image preparation returns are the decoding of the
    payload of a non-empty string, were opened and verified by the image
    library, and are at most [10 * 1024 * 1024] long. *)
Theorem prepared_image_is_checked
    (b64decode : string -> libresult (list Byte.byte))
    (Image : Type)
    (Image_open : list Byte.byte -> libresult Image)
    (Image_verify : Image -> libresult unit)
    (image_data : pyval) (image_bytes : list Byte.byte)
    (Hok : _prepare_image_for_api b64decode Image Image_open Image_verify image_data
           = Ok image_bytes) :
  len_bytes image_bytes <= max_image_bytes
  /\ exists s payload image u,
      image_data = PStr s
      /\ PyStr.is_empty s = false
      /\ data_url_payload s = Ok payload
      /\ b64decode payload = Returns image_bytes
      /\ Image_open image_bytes = Returns image
      /\ Image_verify image = Returns u.
Proof.
  destruct (prepare_cases b64decode Image Image_open Image_verify image_data)
    as [[message Hm] | (s & payload & bytes & image & u & Hs & He & Hp & Hd & Ho & Hv & Hlen & Hok')].
  - rewrite Hm in Hok. discriminate.
  - rewrite Hok' in Hok. injection Hok as <-.
    split; [exact Hlen|]. exists s, payload, image, u. auto 10.
Qed.

Lemma prepared_image_is_checked_witness :
  len_bytes Mock.small_payload <= max_image_bytes
  /\ exists s payload image u,
      PStr "AAAA" = PStr s
      /\ PyStr.is_empty s = false
      /\ data_url_payload s = Ok payload
      /\ Mock.b64decode_small payload = Returns Mock.small_payload
      /\ Mock.Image_open_any Mock.small_payload = Returns image
      /\ Mock.Image_verify_any image = Returns u.
Proof.
  apply (prepared_image_is_checked Mock.b64decode_small Mock.Image
           Mock.Image_open_any Mock.Image_verify_any (PStr "AAAA") Mock.small_payload).
  reflexivity.
Defined.

(* ===================================================================== *)
(** ** Further properties: the client's entry point and [/answer] *)
(* ===================================================================== *)

(** The error types [analyze_image_and_recommend_plants] raises before
    the external call, and those it gives to a failure of the call. *)
Definition early_error_types : list string := [ "auth"; "validation"; "image" ].
Definition call_error_types : list string := [ "quota"; "network"; "auth"; "api" ].

Section ClientProperties.

Variable json_loads : string -> libresult pyval.
Variable float_of_str : string -> option spec_float.
Variable b64decode : string -> libresult (list Byte.byte).
Variable Image : Type.
Variable Image_open : list Byte.byte -> libresult Image.
Variable Image_verify : Image -> libresult unit.
Variable generate_content : string -> Image -> libresult response.
Variable build_prompt : pyval -> pyval -> pyval -> string.

Lemma categorize_api_error_type (api_error : exn) :
  exists message t,
    categorize_api_error api_error = GeminiAPIError message t /\ t ∈ call_error_types.
Proof.
  unfold categorize_api_error, call_error_types.
  destruct (PyStr.contains "quota" _ || PyStr.contains "rate limit" _);
    [eexists _, _; split; [reflexivity | set_solver]|].
  destruct (PyStr.contains "network" _ || PyStr.contains "connection" _);
    [eexists _, _; split; [reflexivity | set_solver]|].
  destruct (PyStr.contains "auth" _ || PyStr.contains "permission" _);
    eexists _, _; (split; [reflexivity | set_solver]).
Qed.

(** All the ways through [analyze_image_and_recommend_plants]: an error
    raised before any call; or one call, that failed and was given one of
    four types, or whose answer the parser turned into a result. *)
Lemma analyze_cases (self : GeminiClient) (image_data location : pyval) :
  (exists message t,
      analyze_image_and_recommend_plants json_loads float_of_str b64decode Image
        Image_open Image_verify generate_content build_prompt self image_data location
      = (Raise (GeminiAPIError message t), [])
      /\ t ∈ early_error_types)
  \/ (exists message t call,
         analyze_image_and_recommend_plants json_loads float_of_str b64decode Image
           Image_open Image_verify generate_content build_prompt
           self image_data location
         = (Raise (GeminiAPIError message t), [call])
         /\ t ∈ call_error_types)
  \/ (exists response d call,
         analyze_image_and_recommend_plants json_loads float_of_str b64decode Image
           Image_open Image_verify generate_content build_prompt
           self image_data location
         = (Ok d, [call])
         /\ _process_comprehensive_response json_loads float_of_str response = Ok d).
Proof.
  unfold analyze_image_and_recommend_plants, analyze_image_and_recommend_plants_try,
    early_error_types.
  destruct (model self) as [handle|];
    [|left; eexists _, _; split; [reflexivity | set_solver]].
  destruct (negb (truthy image_data) || negb (truthy location));
    [left; eexists _, _; split; [reflexivity | set_solver]|].
  destruct location as [| | | | |[|latitude [|longitude rest]]|];
    try (left; eexists _, _; split; [reflexivity | set_solver]).
  destruct (_prepare_image_for_api b64decode Image Image_open Image_verify image_data)
    as [processed_image|img_error]; cbn [try_except];
    [|left; eexists _, _; split; [reflexivity | set_solver]].
  destruct (Image_open processed_image) as [image|cls message]; cbn [run try_except];
    [|left; eexists _, _; split; [reflexivity | set_solver]].
  destruct (generate_content _ image) as [response|cls message]; cbn [run].
  - right; right.
    destruct (process_response_returns json_loads float_of_str response) as [d Hd].
    exists response, d. eexists. rewrite Hd. split; reflexivity.
  - right; left.
    destruct (categorize_api_error_type (PyError cls message)) as (m & t & -> & Ht).
    exists m, t. eexists. split; [reflexivity | exact Ht].
Qed.

End ClientProperties.

(** X10: [analyze_image_and_recommend_plants] calls the external service
    at most once; it raises nothing but [GeminiAPIError]s, of type auth,
    validation or image before the call (then no call was made) and of
    type quota, network, auth or api when the call failed; and when it
    returns, exactly one call was made and the result has a description
    and a plant list that is not empty. *)
Theorem analyze_outcomes
    (json_loads : string -> libresult pyval)
    (float_of_str : string -> option spec_float)
    (b64decode : string -> libresult (list Byte.byte))
    (Image : Type)
    (Image_open : list Byte.byte -> libresult Image)
    (Image_verify : Image -> libresult unit)
    (generate_content : string -> Image -> libresult response)
    (build_prompt : pyval -> pyval -> pyval -> string)
    (self : GeminiClient) (image_data location : pyval) :
  let '(outcome, calls) :=
    analyze_image_and_recommend_plants json_loads float_of_str b64decode Image
      Image_open Image_verify generate_content build_prompt self image_data location in
  (length calls <= 1)%nat
  /\ match outcome with
     | Ok d =>
         length calls = 1%nat
         /\ is_Some (d !! "description")
         /\ exists plants, d !! "plants" = Some (PList plants) /\ plants <> []
     | Raise e =>
         exists message t,
           e = GeminiAPIError message t
           /\ ((calls = [] /\ t ∈ early_error_types)
               \/ (length calls = 1%nat /\ t ∈ call_error_types))
     end.
Proof.
  destruct (analyze_cases json_loads float_of_str b64decode Image Image_open
              Image_verify generate_content build_prompt self image_data location)
    as [(m & t & -> & Ht) | [(m & t & call & -> & Ht) | (response & d & call & -> & Hd)]].
  - split; [cbn; lia|]. exists m, t. auto.
  - split; [cbn; lia|]. exists m, t. auto.
  - split; [cbn; lia|]. split; [reflexivity|].
    destruct (process_response_cases json_loads float_of_str response)
      as [[response_text Hf] | (response_text & parsed & _ & Hp)].
    + rewrite Hf in Hd. injection Hd as <-.
      rewrite fallback_response_description, fallback_response_plants.
      split; [eauto|]. eauto using fallback_plants_not_empty.
    + rewrite Hp in Hd. injection Hd as <-.
      destruct (process_parsed_fields float_of_str parsed)
        as (Hdesc & plants & Hplants & Hne & _).
      split; [exact Hdesc|]. eauto.
Qed.

(** The error types [analyze_image_and_recommend_plants] raises before the
    call when the client is authenticated. *)
Definition input_error_types : list string := [ "validation"; "image" ].

(** The body [/answer] sends when the outer handler caught an exception,
    and the one it sends when no client could be created. *)
Definition unexpected_body : pyval :=
  error_body "Unable to analyze location at this time. Please try again."
    "An unexpected error occurred. Please try again.".

Definition unavailable_body : pyval :=
  error_body
    "Plant analysis service is currently unavailable. Please try again later."
    "Service initialization failed. Please try again later.".

(** [location[2] if len(location) > 2 else 0], from [location[2:]] *)
Definition altitude (rest : list pyval) : pyval :=
  match rest with
  | a :: _ => a
  | [] => PInt 0
  end.


Lemma error_body_fields (description error : string) :
  exists d, error_body description error = PDict d
            /\ d !! "description" = Some (PStr description)
            /\ d !! "plants" = Some (PList [])
            /\ d !! "error" = Some (PStr error).
Proof.
  eexists. split; [reflexivity|]. unfold mk_dict. cbn [list_to_map foldr].
  repeat split; simplify_map_eq; reflexivity.
Qed.

(** *** Texts that can be printed *)

Lemma is_ascii_no_surrogate (s : string) :
  PyStr.is_ascii s = true -> PyStr.has_surrogate s = false.
Proof.
  induction s as [|c s IH]; [reflexivity|].
  cbn [PyStr.is_ascii PyStr.has_surrogate]. intros [Hc Hs]%andb_prop.
  rewrite (IH Hs), orb_false_r. destruct s as [|c' s]; [reflexivity|].
  unfold PyStr.is_ascii_char in Hc. apply N.ltb_lt in Hc.
  destruct (N.eqb_spec (N_of_ascii c) 237) as [E|_]; [lia | reflexivity].
Qed.

Lemma has_surrogate_app_ascii (a b : string) :
  PyStr.is_ascii a = true ->
  PyStr.has_surrogate (a +:+ b) = PyStr.has_surrogate b.
Proof.
  induction a as [|c a IH]; [reflexivity|].
  cbn [PyStr.is_ascii]. intros [Hc Ha]%andb_prop.
  change (String c a +:+ b) with (String c (a +:+ b)).
  cbn [PyStr.has_surrogate]. rewrite (IH Ha).
  unfold PyStr.is_ascii_char in Hc. apply N.ltb_lt in Hc.
  destruct (N.eqb_spec (N_of_ascii c) 237) as [E|_]; [lia|].
  destruct (a +:+ b); reflexivity.
Qed.

Lemma print_values_cases (values : list pyval) :
  (existsb str_has_surrogate values = false /\ print_values values = Ok tt)
  \/ (existsb str_has_surrogate values = true
      /\ exists e, print_values values = Raise e).
Proof.
  unfold print_values. destruct (existsb str_has_surrogate values); eauto.
Qed.

Lemma print_exn_cases (e : exn) :
  (PyStr.has_surrogate (str_exn e) = false /\ print_exn e = Ok tt)
  \/ (PyStr.has_surrogate (str_exn e) = true /\ exists e', print_exn e = Raise e').
Proof.
  unfold print_exn, print_values. cbn [existsb str_has_surrogate].
  rewrite orb_false_r. destruct (PyStr.has_surrogate (str_exn e)); eauto.
Qed.

Lemma truthy_dict_with (d : dict) (k : string) :
  is_Some (d !! k) -> truthy (PDict d) = true.
Proof.
  intros [v Hv]. cbn [truthy].
  destruct (map_to_list d) as [|kv l] eqn:E; [|reflexivity].
  apply map_to_list_empty_iff in E. subst d. rewrite lookup_empty in Hv. discriminate.
Qed.

Lemma status_code_of_input (message t : string) :
  t ∈ input_error_types -> status_code_of (GeminiAPIError message t) = 400.
Proof.
  unfold input_error_types. rewrite !elem_of_cons, elem_of_nil.
  intros [-> | [-> | []]]; reflexivity.
Qed.

Lemma status_code_of_call (message t : string) :
  t ∈ call_error_types ->
  status_code_of (GeminiAPIError message t) = 401
  \/ status_code_of (GeminiAPIError message t) = 429
  \/ status_code_of (GeminiAPIError message t) = 503.
Proof.
  unfold call_error_types. rewrite !elem_of_cons, elem_of_nil.
  intros [-> | [-> | [-> | [-> | []]]]]; cbn; auto.
Qed.

Section AnswerProperties.

Variable json_loads : string -> libresult pyval.
Variable float_of_str : string -> option spec_float.
Variable b64decode : string -> libresult (list Byte.byte).
Variable Image : Type.
Variable Image_open : list Byte.byte -> libresult Image.
Variable Image_verify : Image -> libresult unit.
Variable generate_content : string -> Image -> libresult response.
Variable build_prompt : pyval -> pyval -> pyval -> string.
Variable getenv : option string.
Variable genai_configure_model : string -> string -> libresult unit.

(** [create_gemini_client] fails with a [GeminiAPIError] only, and a
    client it returns is authenticated. *)
Lemma create_gemini_client_cases :
  (exists message,
      create_gemini_client getenv genai_configure_model
      = Raise (GeminiAPIError message "general")
      /\ ((getenv = None \/ getenv = Some "")
          /\ message = "GEMINI_API_KEY environment variable is required"
          \/ exists key cls m, getenv = Some key
                               /\ genai_configure_model key
                                    "gemini-2.5-flash-image-preview" = Raises cls m
                               /\ message = "Authentication failed: " +:+ m))
  \/ (exists key u,
         getenv = Some key /\ PyStr.is_empty key = false
         /\ genai_configure_model key "gemini-2.5-flash-image-preview" = Returns u
         /\ create_gemini_client getenv genai_configure_model
            = Ok {| api_key := key;
                    model_name := "gemini-2.5-flash-image-preview";
                    model := Some "gemini-2.5-flash-image-preview" |}).
Proof.
  unfold create_gemini_client.
  destruct getenv as [key|]; [|left; eexists; split; [reflexivity | auto]].
  destruct key as [|c key]; [left; eexists; split; [reflexivity | auto]|].
  cbn [PyStr.is_empty].
  destruct (genai_configure_model (String c key) "gemini-2.5-flash-image-preview")
    as [u|cls m] eqn:E; cbn [run bind try_except].
  - right. exists (String c key), u. auto.
  - left. eexists. split; [reflexivity|]. right. eauto 10.
Qed.

(** With an authenticated client the analysis cannot fail for want of
    authentication before the call. *)
Lemma analyze_cases_authenticated (self : GeminiClient) (image_data location : pyval) :
  is_Some (model self) ->
  (exists message t,
      analyze_image_and_recommend_plants json_loads float_of_str b64decode Image
        Image_open Image_verify generate_content build_prompt self image_data location
      = (Raise (GeminiAPIError message t), [])
      /\ t ∈ input_error_types)
  \/ (exists message t call,
         analyze_image_and_recommend_plants json_loads float_of_str b64decode Image
           Image_open Image_verify generate_content build_prompt
           self image_data location
         = (Raise (GeminiAPIError message t), [call])
         /\ t ∈ call_error_types)
  \/ (exists response d call,
         analyze_image_and_recommend_plants json_loads float_of_str b64decode Image
           Image_open Image_verify generate_content build_prompt
           self image_data location
         = (Ok d, [call])
         /\ _process_comprehensive_response json_loads float_of_str response = Ok d).
Proof.
  intros [handle Hmodel].
  unfold analyze_image_and_recommend_plants, analyze_image_and_recommend_plants_try,
    input_error_types.
  rewrite Hmodel.
  destruct (negb (truthy image_data) || negb (truthy location));
    [left; eexists _, _; split; [reflexivity | set_solver]|].
  destruct location as [| | | | |[|latitude [|longitude rest]]|];
    try (left; eexists _, _; split; [reflexivity | set_solver]).
  destruct (_prepare_image_for_api b64decode Image Image_open Image_verify image_data)
    as [processed_image|img_error]; cbn [try_except];
    [|left; eexists _, _; split; [reflexivity | set_solver]].
  destruct (Image_open processed_image) as [image|cls message]; cbn [run try_except];
    [|left; eexists _, _; split; [reflexivity | set_solver]].
  destruct (generate_content _ image) as [response|cls message]; cbn [run].
  - right; right.
    destruct (process_response_returns json_loads float_of_str response) as [d Hd].
    exists response, d. eexists. rewrite Hd. split; reflexivity.
  - right; left.
    destruct (categorize_api_error_type (PyError cls message)) as (m & t & -> & Ht).
    exists m, t. eexists. split; [reflexivity | exact Ht].
Qed.

(** A request body that is not a JSON object is answered 400, or raises
    before anything is called. *)
Lemma answer_try_not_object (data : pyval) :
  (forall d, data <> PDict d) ->
  (exists e,
      answer_try json_loads float_of_str b64decode Image Image_open Image_verify
        generate_content build_prompt getenv genai_configure_model data
      = (Raise e, []))
  \/ (exists description error,
         answer_try json_loads float_of_str b64decode Image Image_open Image_verify
           generate_content build_prompt getenv genai_configure_model data
         = (Ok (error_body description error, 400), [])).
Proof.
  intros Hdata. unfold answer_try.
  destruct (truthy data); cbn [negb]; [|right; eauto].
  destruct data as [|b|z|f|s|l|d]; try (left; eexists; reflexivity).
  - unfold print_values. cbn [existsb str_has_surrogate]. rewrite orb_false_r.
    destruct (PyStr.has_surrogate s); cbn [bind]; [left; eexists; reflexivity|].
    cbn [py_in bind].
    destruct (PyStr.contains "image" s); cbn [negb]; [|right; eauto].
    destruct (PyStr.contains "location" s); cbn [negb]; [|right; eauto].
    left; eexists; reflexivity.
  - change (print_values [PList l]) with (@Ok unit tt). cbn [py_in bind].
    destruct (existsb _ l); cbn [negb]; [|right; eauto].
    destruct (existsb _ l); cbn [negb]; [|right; eauto].
    left; eexists; reflexivity.
  - destruct (Hdata d eq_refl).
Qed.

(** A request with an image and a location of two components or more
    gets to the print of the coordinates. *)
Lemma answer_try_located (d : dict) (image lat lng : pyval) (rest : list pyval) :
  d !! "image" = Some image ->
  d !! "location" = Some (PList (lat :: lng :: rest)) ->
  answer_try json_loads float_of_str b64decode Image Image_open Image_verify
    generate_content build_prompt getenv genai_configure_model (PDict d)
  = match print_values [lat; lng; altitude rest] with
    | Raise e => (Raise e, [])
    | Ok _ =>
        match create_gemini_client getenv genai_configure_model with
        | Raise client_error =>
            if is_GeminiAPIError client_error then
              (let* _ := print_exn client_error in Ok (unavailable_body, 503), [])
            else (Raise client_error, [])
        | Ok gemini_client =>
            match analyze_image_and_recommend_plants json_loads float_of_str
                    b64decode Image Image_open Image_verify generate_content
                    build_prompt gemini_client image
                    (PList [lat; lng; altitude rest])
            with
            | (Ok comprehensive_response, calls) =>
                (Ok (PDict comprehensive_response, 200), calls)
            | (Raise gemini_error, calls) =>
                if is_GeminiAPIError gemini_error then
                  (let* _ := print_exn gemini_error in
                   match handle_api_errors (Exc gemini_error) with
                   | Returned error_response =>
                       Ok (PDict error_response, status_code_of gemini_error)
                   | Escaped raised => Raise (cause raised)
                   end,
                   calls)
                else (Raise gemini_error, calls)
            end
        end
    end.
Proof.
  intros Himage Hlocation. unfold answer_try.
  rewrite (truthy_dict_with d "image") by eauto.
  change (print_values [PDict d]) with (@Ok unit tt).
  cbn [negb py_in py_getitem bind].
  rewrite Himage, Hlocation. rewrite !bool_decide_eq_true_2 by eauto.
  reflexivity.
Qed.

(** The request of a located call: an object with an image and a location
    of two components or more. *)
Definition located (request_json : pyresult pyval)
    (image lat lng : pyval) (rest : list pyval) : Prop :=
  exists d, request_json = Ok (PDict d)
            /\ d !! "image" = Some image
            /\ d !! "location" = Some (PList (lat :: lng :: rest)).

(** A print of the handler failed: a coordinate is a string with a
    surrogate in it, or the text of the error caught has one, the error of
    the client's creation or the error of the analysis. *)
Definition surrogate_printed (request_json : pyresult pyval)
    (calls : list api_call) : Prop :=
  exists image lat lng rest,
    located request_json image lat lng rest
    /\ ((existsb str_has_surrogate [lat; lng; altitude rest] = true /\ calls = [])
        \/ (exists message,
               create_gemini_client getenv genai_configure_model
               = Raise (GeminiAPIError message "general")
               /\ PyStr.has_surrogate message = true /\ calls = [])
        \/ (exists client message t,
               create_gemini_client getenv genai_configure_model = Ok client
               /\ analyze_image_and_recommend_plants json_loads float_of_str
                    b64decode Image Image_open Image_verify generate_content
                    build_prompt client image (PList [lat; lng; altitude rest])
                  = (Raise (GeminiAPIError message t), calls)
               /\ PyStr.has_surrogate message = true)).

(** The kinds of outcome of [/answer]: an error body of the handler
    itself, with no call made; a result of the pipeline, after one call;
    the classifier's response to an error of the pipeline; the body for an
    unexpected error, after a print failed. *)
Definition answer_outcome (request_json : pyresult pyval)
    (body : pyval) (status : Z) (calls : list api_call) : Prop :=
  (calls = []
   /\ (exists description error, body = error_body description error)
   /\ (status = 400 \/ status = 503
       \/ (status = 500 /\ forall d, request_json <> Ok (PDict d))))
  \/ (exists d plants call,
         calls = [call] /\ body = PDict d /\ status = 200
         /\ is_Some (d !! "description")
         /\ d !! "plants" = Some (PList plants) /\ plants <> [])
  \/ (exists kind message t,
         body = PDict (kind_response kind)
         /\ status = status_code_of (GeminiAPIError message t)
         /\ ((calls = [] /\ t ∈ input_error_types)
             \/ (exists call, calls = [call] /\ t ∈ call_error_types)))
  \/ (body = unexpected_body /\ status = 500
      /\ (calls = [] \/ exists call, calls = [call])
      /\ surrogate_printed request_json calls).

Lemma answer_cases (request_json : pyresult pyval) :
  exists body status calls,
    answer json_loads float_of_str b64decode Image Image_open Image_verify
      generate_content build_prompt getenv genai_configure_model request_json
    = ((body, status), calls)
    /\ answer_outcome request_json body status calls.
Proof.
  assert (Hhandler : forall (status : Z) (description error : string),
             status = 400 \/ status = 503
             \/ (status = 500 /\ forall d, request_json <> Ok (PDict d)) ->
             exists body status' calls,
               ((error_body description error, status), @nil api_call)
               = ((body, status'), calls)
               /\ answer_outcome request_json body status' calls).
  { intros status description error Hstatus. eexists _, _, _.
    split; [reflexivity|]. left. eauto 10. }
  unfold answer.
  destruct request_json as [data|e] eqn:Hreq;
    [|apply Hhandler; right; right; split; [reflexivity | discriminate]].
  assert (Hnot : (forall d, data <> PDict d) ->
                 exists body status calls,
                   match answer_try json_loads float_of_str b64decode Image
                           Image_open Image_verify generate_content build_prompt
                           getenv genai_configure_model data
                   with
                   | (Ok r, calls) => (r, calls)
                   | (Raise _, calls) =>
                       (error_body
                          "Unable to analyze location at this time. Please try again."
                          "An unexpected error occurred. Please try again.", 500, calls)
                   end = ((body, status), calls)
                   /\ answer_outcome (Ok data) body status calls).
  { intros Hdata.
    destruct (answer_try_not_object data Hdata) as [[e ->] | (description & error & ->)].
    - apply Hhandler. right; right. split; [reflexivity|]. congruence.
    - apply Hhandler. auto. }
  destruct data as [|b|z|f|s|l|d]; try (apply Hnot; discriminate).
  destruct (d !! "image") as [image|] eqn:Himage; cycle 1.
  { unfold answer_try. destruct (truthy (PDict d)); cbn [negb]; [|apply Hhandler; auto].
    change (print_values [PDict d]) with (@Ok unit tt). cbn [py_in bind].
    rewrite Himage. rewrite bool_decide_eq_false_2 by (intros [? ?]; discriminate).
    apply Hhandler; auto. }
  destruct (d !! "location") as [location|] eqn:Hlocation; cycle 1.
  { unfold answer_try. destruct (truthy (PDict d)); cbn [negb]; [|apply Hhandler; auto].
    change (print_values [PDict d]) with (@Ok unit tt). cbn [py_in bind].
    rewrite Himage, Hlocation. rewrite bool_decide_eq_true_2 by eauto.
    rewrite bool_decide_eq_false_2 by (intros [? ?]; discriminate).
    apply Hhandler; auto. }
  assert (Hshape : (exists lat lng rest, location = PList (lat :: lng :: rest))
                   \/ forall lat lng rest, location <> PList (lat :: lng :: rest)).
  { destruct location as [| | | | |[|lat [|lng rest]]|]; eauto; right; discriminate. }
  destruct Hshape as [(lat & lng & rest & ->) | Hshape]; cycle 1.
  { unfold answer_try. rewrite (truthy_dict_with d "image") by eauto.
    change (print_values [PDict d]) with (@Ok unit tt).
    cbn [negb py_in py_getitem bind].
    rewrite Himage, Hlocation. rewrite !bool_decide_eq_true_2 by eauto.
    cbn [negb bind].
    destruct location as [| | | | |[|lat [|lng rest]]|]; try (apply Hhandler; auto).
    destruct (Hshape lat lng rest eq_refl). }
  assert (Hlocated : located (Ok (PDict d)) image lat lng rest).
  { exists d. auto. }
  assert (Hprinted : forall calls,
             (calls = [] \/ exists call, calls = [call]) ->
             surrogate_printed (Ok (PDict d)) calls ->
             exists body status calls',
               ((error_body
                   "Unable to analyze location at this time. Please try again."
                   "An unexpected error occurred. Please try again.", 500), calls)
               = ((body, status), calls')
               /\ answer_outcome (Ok (PDict d)) body status calls').
  { intros calls Hcalls Hprinted. eexists _, _, _. split; [reflexivity|].
    right; right; right. auto. }
  rewrite (answer_try_located d image lat lng rest Himage Hlocation).
  destruct (print_values_cases [lat; lng; altitude rest])
    as [[Hprint ->] | [Hprint [e ->]]]; cycle 1.
  { apply Hprinted; [auto|]. exists image, lat, lng, rest. auto. }
  destruct create_gemini_client_cases
    as [(message & Hcreate & _) | (key & u & _ & _ & _ & Hcreate)].
  { rewrite Hcreate. cbn [is_GeminiAPIError].
    destruct (print_exn_cases (GeminiAPIError message "general"))
      as [[Hm ->] | [Hm [e ->]]]; cbn [bind].
    - apply Hhandler; auto.
    - apply Hprinted; [auto|]. exists image, lat, lng, rest.
      split; [exact Hlocated|]. right; left. exists message. auto. }
  rewrite Hcreate.
  match goal with
  | |- context [analyze_image_and_recommend_plants ?a1 ?a2 ?a3 ?a4 ?a5 ?a6 ?a7 ?a8
                  ?self ?img ?loc] =>
      destruct (analyze_cases_authenticated self img loc
                  ltac:(eexists; reflexivity))
        as [(m & t & Hanalyze & Ht) | [(m & t & call & Hanalyze & Ht)
                                      | (response & r & call & Hanalyze & Hr)]]
  end; rewrite Hanalyze.
  - cbn [is_GeminiAPIError].
    destruct (print_exn_cases (GeminiAPIError m t)) as [[Hm ->] | [Hm [e ->]]];
      cbn [bind].
    + rewrite handle_api_errors_kind.
      eexists _, _, _. split; [reflexivity|]. right; right; left. eauto 10.
    + apply Hprinted; [auto|]. exists image, lat, lng, rest.
      split; [exact Hlocated|]. right; right. eauto 10.
  - cbn [is_GeminiAPIError].
    destruct (print_exn_cases (GeminiAPIError m t)) as [[Hm ->] | [Hm [e ->]]];
      cbn [bind].
    + rewrite handle_api_errors_kind.
      eexists _, _, _. split; [reflexivity|]. right; right; left. eauto 10.
    + apply Hprinted; [eauto|]. exists image, lat, lng, rest.
      split; [exact Hlocated|]. right; right. eauto 10.
  - eexists _, _, _. split; [reflexivity|]. right; left.
    destruct (process_response_cases json_loads float_of_str response)
      as [[response_text Hf] | (response_text & parsed & _ & Hp)].
    + rewrite Hf in Hr. injection Hr as <-.
      exists (_create_comprehensive_fallback_response response_text),
        _get_fallback_plants, call.
      rewrite fallback_response_description, fallback_response_plants.
      repeat split; eauto using fallback_plants_not_empty.
    + rewrite Hp in Hr. injection Hr as <-.
      destruct (process_parsed_fields float_of_str parsed)
        as (Hdesc & plants & Hplants & Hne & _).
      exists (process_parsed float_of_str parsed), plants, call. auto 10.
Qed.


(** Without a client, and with texts that can be printed, the request is
    answered 503 before anything is called. *)
Lemma answer_no_client (d : dict) (image lat lng : pyval) (rest : list pyval)
    (message : string) :
  d !! "image" = Some image ->
  d !! "location" = Some (PList (lat :: lng :: rest)) ->
  existsb str_has_surrogate [lat; lng; altitude rest] = false ->
  create_gemini_client getenv genai_configure_model
  = Raise (GeminiAPIError message "general") ->
  PyStr.has_surrogate message = false ->
  answer json_loads float_of_str b64decode Image Image_open Image_verify
    generate_content build_prompt getenv genai_configure_model (Ok (PDict d))
  = ((unavailable_body, 503), []).
Proof.
  intros Himage Hlocation Hprint Hcreate Hmessage.
  unfold answer. rewrite (answer_try_located d image lat lng rest Himage Hlocation).
  unfold print_values at 1. rewrite Hprint, Hcreate.
  cbn [is_GeminiAPIError].
  destruct (print_exn_cases (GeminiAPIError message "general"))
    as [[_ ->] | [Hm _]]; [reflexivity | cbn [str_exn] in Hm; congruence].
Qed.

End AnswerProperties.

(* ===================================================================== *)
(** ** The classifier's response and the status of [/answer] *)
(* ===================================================================== *)




(** X11: every response of [/answer] has the shape the front end reads:
    the body is an object with a description and a list of plants; with
    status 200 the list is not empty, and with any other status (one of
    400, 401, 429, 500 and 503) the body also has an error text. *)
Theorem answer_response_shape
    (json_loads : string -> libresult pyval)
    (float_of_str : string -> option spec_float)
    (b64decode : string -> libresult (list Byte.byte))
    (Image : Type)
    (Image_open : list Byte.byte -> libresult Image)
    (Image_verify : Image -> libresult unit)
    (generate_content : string -> Image -> libresult response)
    (build_prompt : pyval -> pyval -> pyval -> string)
    (getenv : option string)
    (genai_configure_model : string -> string -> libresult unit)
    (request_json : pyresult pyval) :
  let '((body, status), calls) :=
    answer json_loads float_of_str b64decode Image Image_open Image_verify
      generate_content build_prompt getenv genai_configure_model request_json in
  exists (d : dict) (plants : list pyval),
    body = PDict d
    /\ is_Some (d !! "description")
    /\ d !! "plants" = Some (PList plants)
    /\ ((status = 200 /\ plants <> [])
        \/ (status ∈ [400; 401; 429; 500; 503]
            /\ exists error, d !! "error" = Some (PStr error))).
Proof.
  destruct (answer_cases json_loads float_of_str b64decode Image Image_open
              Image_verify generate_content build_prompt getenv genai_configure_model
              request_json)
    as (body & status & calls & -> & Hcases).
  assert (Herror : forall description error status',
             status' ∈ [400; 401; 429; 500; 503] ->
             exists (d : dict) (plants : list pyval),
               error_body description error = PDict d
               /\ is_Some (d !! "description")
               /\ d !! "plants" = Some (PList plants)
               /\ ((status' = 200 /\ plants <> [])
                   \/ (status' ∈ [400; 401; 429; 500; 503]
                       /\ exists error, d !! "error" = Some (PStr error)))).
  { intros description error status' Hstatus.
    destruct (error_body_fields description error) as (d & -> & Hd & Hp & He).
    exists d, []. rewrite Hd, Hp. repeat split; eauto. }
  destruct Hcases
    as [(_ & (description & error & ->) & Hstatus)
       | [(d & plants & call & _ & -> & -> & Hdesc & Hplants & Hne)
         | [(kind & message & t & -> & -> & Ht)
           | (-> & -> & _)]]].
  - apply Herror.
    rewrite !elem_of_cons. destruct Hstatus as [-> | [-> | [-> _]]]; auto 10.
  - exists d, plants. auto 10.
  - destruct (kind_response_lookups kind) as (Hd & Hp & He).
    exists (kind_response kind), (spec_plants kind). rewrite Hd, Hp.
    repeat split; eauto.
    right. split; [|eauto].
    destruct Ht as [[_ Ht] | (call & _ & Ht)].
    + rewrite (status_code_of_input message t Ht). rewrite !elem_of_cons. auto.
    + rewrite !elem_of_cons.
      destruct (status_code_of_call message t Ht) as [-> | [-> | ->]]; auto 10.
  - apply Herror. rewrite !elem_of_cons. auto 10.
Qed.

(** X12: [/answer] calls the external service at most once.  A response
    sent without a call has status 400, 503 or 500; a response sent after
    the call has status 200, 401, 429, 503 or 500.  The status is 500 only
    when the request body could not be read as a JSON object, or when a
    print of the handler failed on a text with a surrogate in it: a
    coordinate of the location that is such a string, or the text of the
    error caught, of the client's creation (no call made) or of the
    analysis. *)
Theorem answer_status_and_calls
    (json_loads : string -> libresult pyval)
    (float_of_str : string -> option spec_float)
    (b64decode : string -> libresult (list Byte.byte))
    (Image : Type)
    (Image_open : list Byte.byte -> libresult Image)
    (Image_verify : Image -> libresult unit)
    (generate_content : string -> Image -> libresult response)
    (build_prompt : pyval -> pyval -> pyval -> string)
    (getenv : option string)
    (genai_configure_model : string -> string -> libresult unit)
    (request_json : pyresult pyval) :
  let '((body, status), calls) :=
    answer json_loads float_of_str b64decode Image Image_open Image_verify
      generate_content build_prompt getenv genai_configure_model request_json in
  (calls = []
   /\ (status = 400 \/ status = 503
       \/ (status = 500
           /\ ((forall d, request_json <> Ok (PDict d))
               \/ surrogate_printed json_loads float_of_str b64decode Image
                    Image_open Image_verify generate_content build_prompt getenv
                    genai_configure_model request_json calls))))
  \/ (exists call,
         calls = [call]
         /\ (status ∈ [200; 401; 429; 503]
             \/ (status = 500
                 /\ surrogate_printed json_loads float_of_str b64decode Image
                      Image_open Image_verify generate_content build_prompt getenv
                      genai_configure_model request_json calls))).
Proof.
  destruct (answer_cases json_loads float_of_str b64decode Image Image_open
              Image_verify generate_content build_prompt getenv genai_configure_model
              request_json)
    as (body & status & calls & -> & Hcases).
  destruct Hcases
    as [(-> & _ & Hstatus)
       | [(d & plants & call & -> & _ & -> & _)
         | [(kind & message & t & _ & -> & Ht)
           | (_ & -> & Hcalls & Hprinted)]]].
  - left. split; [reflexivity|]. destruct Hstatus as [-> | [-> | [-> Hnot]]]; auto.
  - right. exists call. split; [reflexivity|]. left. rewrite !elem_of_cons; auto.
  - destruct Ht as [[-> Ht] | (call & -> & Ht)].
    + left. rewrite (status_code_of_input message t Ht). auto.
    + right. exists call. split; [reflexivity|]. left. rewrite !elem_of_cons.
      destruct (status_code_of_call message t Ht) as [-> | [-> | ->]]; auto 10.
  - destruct Hcalls as [-> | [call ->]].
    + left. auto 10.
    + right. exists call. auto.
Qed.

(** X13: when no client can be created (the API key is not set, is empty,
    or the library refuses it with a complaint that has no surrogate in
    it), a request with an image and a location of two components or more,
    none of the three coordinates printed a string with a surrogate in it,
    is answered 503 "service unavailable", and no call is made. *)
Theorem no_client_no_call
    (json_loads : string -> libresult pyval)
    (float_of_str : string -> option spec_float)
    (b64decode : string -> libresult (list Byte.byte))
    (Image : Type)
    (Image_open : list Byte.byte -> libresult Image)
    (Image_verify : Image -> libresult unit)
    (generate_content : string -> Image -> libresult response)
    (build_prompt : pyval -> pyval -> pyval -> string)
    (getenv : option string)
    (genai_configure_model : string -> string -> libresult unit)
    (d : dict) (lat lng : pyval) (rest : list pyval)
    (Himage : is_Some (d !! "image"))
    (Hlocation : d !! "location" = Some (PList (lat :: lng :: rest)))
    (Hprint : existsb str_has_surrogate [lat; lng; altitude rest] = false)
    (Hclient : getenv = None \/ getenv = Some ""
               \/ exists key cls message,
                   getenv = Some key
                   /\ genai_configure_model key "gemini-2.5-flash-image-preview"
                      = Raises cls message
                   /\ PyStr.has_surrogate message = false) :
  answer json_loads float_of_str b64decode Image Image_open Image_verify
    generate_content build_prompt getenv genai_configure_model (Ok (PDict d))
  = ((error_body
        "Plant analysis service is currently unavailable. Please try again later."
        "Service initialization failed. Please try again later.", 503), []).
Proof.
  destruct Himage as [image Himage].
  assert (Hcreate : exists message,
             create_gemini_client getenv genai_configure_model
             = Raise (GeminiAPIError message "general")
             /\ PyStr.has_surrogate message = false).
  { destruct (create_gemini_client_cases getenv genai_configure_model)
      as [(message & Hm & Hwhy) | (key & u & Hkey & Hne & Hu & _)].
    - exists message. split; [exact Hm|].
      destruct Hwhy as [[_ ->] | (key & cls & m & Hkey & Hraise & ->)];
        [reflexivity|].
      rewrite has_surrogate_app_ascii by reflexivity.
      destruct Hclient as [Hnone | [Hempty | (key' & cls' & m' & Hkey' & Hraise' & Hm')]].
      + rewrite Hnone in Hkey. discriminate.
      + rewrite Hempty in Hkey. injection Hkey as <-.
        unfold create_gemini_client in Hm. rewrite Hempty in Hm.
        cbn [PyStr.is_empty] in Hm. unfold GeminiAPIError_default in Hm.
        cbn in Hm. discriminate Hm.
      + rewrite Hkey' in Hkey. injection Hkey as <-.
        rewrite Hraise' in Hraise. injection Hraise as _ <-. exact Hm'.
    - destruct Hclient as [Hnone | [Hempty | (key' & cls & m & Hkey' & Hraise & _)]].
      + rewrite Hnone in Hkey. discriminate.
      + rewrite Hempty in Hkey. injection Hkey as <-. discriminate.
      + rewrite Hkey' in Hkey. injection Hkey as <-.
        rewrite Hraise in Hu. discriminate. }
  destruct Hcreate as (message & Hcreate & Hmessage).
  exact (answer_no_client json_loads float_of_str b64decode Image Image_open
           Image_verify generate_content build_prompt getenv genai_configure_model
           d image lat lng rest message Himage Hlocation Hprint Hcreate Hmessage).
Qed.

Lemma no_client_no_call_witness :
  answer Mock.json_loads_not_json Mock.float_of_str Mock.b64decode_small Mock.Image
    Mock.Image_open_any Mock.Image_verify_any Mock.generate_content_prose
    Mock.build_prompt None Mock.genai_configure_model
    (Ok (PDict (mk_dict [ ("image", PStr "AAAA");
                          ("location", PList [PInt 40; PInt (-74)]) ])))
  = ((error_body
        "Plant analysis service is currently unavailable. Please try again later."
        "Service initialization failed. Please try again later.", 503), []).
Proof.
  apply (no_client_no_call Mock.json_loads_not_json Mock.float_of_str
           Mock.b64decode_small Mock.Image Mock.Image_open_any Mock.Image_verify_any
           Mock.generate_content_prose Mock.build_prompt None Mock.genai_configure_model
           (mk_dict [ ("image", PStr "AAAA");
                      ("location", PList [PInt 40; PInt (-74)]) ])
           (PInt 40) (PInt (-74)) []).
  - eexists. reflexivity.
  - reflexivity.
  - reflexivity.
  - left. reflexivity.
Defined.

(** X14: [create_gemini_client] raises nothing but a [GeminiAPIError] of
    type ["general"], also when the library fails; a client it returns
    holds the key of the environment, which is not empty, and a model. *)
Theorem client_creation_outcomes
    (getenv : option string)
    (genai_configure_model : string -> string -> libresult unit) :
  match create_gemini_client getenv genai_configure_model with
  | Raise e => exists message, e = GeminiAPIError message "general"
  | Ok client =>
      getenv = Some (api_key client)
      /\ PyStr.is_empty (api_key client) = false
      /\ model client = Some (model_name client)
      /\ exists u, genai_configure_model (api_key client) (model_name client) = Returns u
  end.
Proof.
  destruct (create_gemini_client_cases getenv genai_configure_model)
    as [(message & -> & _) | (key & u & Hkey & Hne & Hu & ->)]; [eauto|].
  cbn [api_key model model_name]. eauto 10.
Qed.

(* ===================================================================== *)
(** ** [app.py]: plant names for community matching *)
(* ===================================================================== *)

(** [for x in v]: the items of a list, the characters of a string, the
    keys of a dictionary; anything else is not iterable.  A Python
    dictionary gives its keys in the order of insertion, which a [gmap]
    does not record: that order is a parameter, [keys_in_order]. *)
Section Community.

Variable keys_in_order : dict -> list string.

Definition py_iter (v : pyval) : pyresult (list pyval) :=
  match v with
  | PList l => Ok l
  | PStr s => Ok (map PStr (PyStr.chars s))
  | PDict d => Ok (map PStr (keys_in_order d))
  | _ => Raise (PyError "TypeError" ("'" +:+ type_name v +:+ "' object is not iterable"))
  end.

(** One turn of the loop of [extract_plant_names]: the name a plant
    contributes, if any. *)
Definition plant_name (plant : pyval) : option pyval :=
  match plant with
  | PStr _ => Some plant
  | PDict d => d !! "name"
  | _ => None
  end.

Definition extract_plant_names (plants_data : pyval) : pyresult (list pyval) :=
  if negb (truthy plants_data) then Ok []
  else
    let* plants := py_iter plants_data in
    Ok (omap plant_name plants).

(** The loop of [normalize_user_data_for_community]. *)
Fixpoint normalize_users (users_data : list pyval) : pyresult (list pyval) :=
  match users_data with
  | [] => Ok []
  | user :: rest =>
      match user with
      | PDict u =>
          match u !! "plants" with
          | Some plants =>
              let* names := extract_plant_names plants in
              let* normalized_users := normalize_users rest in
              Ok (PDict (<["plants" := PList names]> u) :: normalized_users)
          | None => normalize_users rest
          end
      | _ => normalize_users rest
      end
  end.

Definition normalize_user_data_for_community (users_data : pyval)
  : pyresult (list pyval) :=
  let* users_data := py_iter users_data in
  normalize_users users_data.

(** A user in the legacy format: a dictionary whose plants are a list of
    names; and a user as normalisation leaves it. *)
Definition legacy_user (u : pyval) : Prop :=
  exists (d : dict) (names : list string),
    u = PDict d /\ d !! "plants" = Some (PList (map PStr names)).

Definition normalized_user (users_data : list pyval) (u : pyval) : Prop :=
  exists (d d0 : dict) (plants : pyval) (names : list pyval),
    u = PDict d
    /\ PDict d0 ∈ users_data
    /\ d0 !! "plants" = Some plants
    /\ extract_plant_names plants = Ok names
    /\ d !! "plants" = Some (PList names)
    /\ forall k, k <> "plants" -> d !! k = d0 !! k.

Lemma omap_plant_name_strings (names : list string) :
  omap plant_name (map PStr names) = map PStr names.
Proof.
  induction names as [|n names IH]; [reflexivity|].
  change (omap plant_name (map PStr (n :: names)))
    with (PStr n :: omap plant_name (map PStr names)).
  rewrite IH. reflexivity.
Qed.

Lemma extract_plant_names_strings (names : list string) :
  extract_plant_names (PList (map PStr names)) = Ok (map PStr names).
Proof.
  unfold extract_plant_names.
  destruct names as [|n names]; [reflexivity|].
  cbn [map truthy negb py_iter bind].
  exact (f_equal Ok (omap_plant_name_strings (n :: names))).
Qed.

Lemma omap_length_le {A B : Type} (f : A -> option B) (l : list A) :
  (length (omap f l) <= length l)%nat.
Proof.
  induction l as [|a l IH]; [reflexivity|].
  change (omap f (a :: l))
    with (match f a with Some b => b :: omap f l | None => omap f l end).
  destruct (f a); cbn [length]; lia.
Qed.

Lemma extract_plant_names_list (plants : list pyval) :
  extract_plant_names (PList plants) = Ok (omap plant_name plants).
Proof. destruct plants; reflexivity. Qed.

(** What [extract_plant_names] returns for a dictionary and for a string:
    the keys in the order of insertion, and the characters. *)
Lemma extract_plant_names_dict (d : dict) :
  truthy (PDict d) = true ->
  extract_plant_names (PDict d) = Ok (map PStr (keys_in_order d)).
Proof.
  intros H. unfold extract_plant_names. rewrite H. cbn [negb py_iter bind].
  rewrite omap_plant_name_strings. reflexivity.
Qed.

Lemma normalize_users_legacy (users_data : list pyval) :
  Forall legacy_user users_data -> normalize_users users_data = Ok users_data.
Proof.
  induction 1 as [|u users_data (d & names & -> & Hplants) _ IH]; [reflexivity|].
  cbn [normalize_users]. rewrite Hplants, extract_plant_names_strings. cbn [bind].
  rewrite IH. cbn [bind]. rewrite insert_id by exact Hplants. reflexivity.
Qed.

Lemma normalize_users_shape (users_data normalized_users : list pyval) :
  normalize_users users_data = Ok normalized_users ->
  Forall (normalized_user users_data) normalized_users
  /\ (length normalized_users <= length users_data)%nat.
Proof.
  revert normalized_users.
  induction users_data as [|u users_data IH]; intros normalized_users H.
  { injection H as <-. split; [constructor | reflexivity]. }
  assert (Hweaken : forall out,
             Forall (normalized_user users_data) out
             /\ (length out <= length users_data)%nat ->
             Forall (normalized_user (u :: users_data)) out
             /\ (length out <= length (u :: users_data))%nat).
  { intros out [Hall Hlen]. split; [|cbn [length]; lia].
    eapply Forall_impl; [exact Hall|].
    intros u' (d & d0 & plants & names & -> & Hin & Hrest).
    exists d, d0, plants, names. split; [reflexivity|].
    split; [right; exact Hin | exact Hrest]. }
  cbn [normalize_users] in H.
  destruct u as [|b|z|f|s|l|d]; try (apply Hweaken, IH, H).
  destruct (d !! "plants") as [plants|] eqn:Hplants; [|apply Hweaken, IH, H].
  destruct (extract_plant_names plants) as [names|e] eqn:Hnames; [|discriminate].
  cbn [bind] in H.
  destruct (normalize_users users_data) as [rest|e] eqn:Hrest; [|discriminate].
  cbn [bind] in H. injection H as <-.
  destruct (IH rest eq_refl) as [Hall0 Hlen].
  destruct (Hweaken rest (conj Hall0 Hlen)) as [Hall _].
  split; [|cbn [length]; lia].
  constructor; [|exact Hall].
  exists (<["plants" := PList names]> d), d, plants, names.
  split; [reflexivity|]. split; [left|].
  split; [exact Hplants|]. split; [exact Hnames|].
  split; [apply lookup_insert_eq|].
  intros k Hk. apply lookup_insert_ne. congruence.
Qed.

End Community.

(** The sample data of [/users]. *)
Definition user (name : string) (plants : list string) : pyval :=
  PDict (mk_dict [ ("name", PStr name); ("plants", PList (map PStr plants)) ]).

Definition users : list pyval :=
  [ user "Raj" [ "Spider Plant"; "Peace Lily"; "Snake Plant"; "Pothos"; "Rubber Plant" ];
    user "Aisha" [ "Guava"; "Lemon"; "Papaya" ];
    user "John" [ "Oak"; "Maple"; "Pine"; "Cedar" ];
    user "Maria" [ "Rose"; "Jasmine"; "Hibiscus"; "Marigold" ];
    user "Liam" [ "Apple"; "Cherry"; "Peach" ];
    user "Sophia" [ "Coconut"; "Banana"; "Areca Palm" ];
    user "Ethan" [ "Teak"; "Mahogany"; "Sandalwood" ];
    user "Olivia" [ "Lavender"; "Thyme"; "Basil"; "Mint" ];
    user "Noah" [ "Bamboo"; "Fern"; "Aloe Vera"; "Cactus" ] ].

(** An order of keys to run the examples with: the one of the map. *)
Definition map_order (d : dict) : list string := map fst (map_to_list d).

(** X15: a list of plant names (the legacy format) comes out of
    [extract_plant_names] as it went in. *)
Theorem legacy_names_pass_through
    (keys_in_order : dict -> list string) (names : list string) :
  extract_plant_names keys_in_order (PList (map PStr names)) = Ok (map PStr names).
Proof. exact (extract_plant_names_strings keys_in_order names). Qed.


(** X17: [extract_plant_names] raises for a number other than zero and for
    [True] (they are not iterable), and for nothing else; what it returns
    for a list is never longer than the list. *)
Theorem extract_plant_names_raises_only_on
    (keys_in_order : dict -> list string) (plants_data : pyval) :
  ((exists e, extract_plant_names keys_in_order plants_data = Raise e)
   <-> (plants_data = PBool true
        \/ (exists z, plants_data = PInt z /\ z <> 0)
        \/ (exists f, plants_data = PFloat f /\ PyFloat.nonzero f = true)))
  /\ (forall plants names,
         plants_data = PList plants ->
         extract_plant_names keys_in_order plants_data = Ok names ->
         (length names <= length plants)%nat).
Proof.
  split.
  - unfold extract_plant_names. split.
    + intros [e He]. destruct plants_data as [|b|z|f|s|l|d]; cbn [truthy] in He.
      * discriminate.
      * destruct b; [auto | discriminate].
      * destruct (Z.eqb_spec z 0); [discriminate | eauto].
      * destruct (PyFloat.nonzero f) eqn:Hf; [eauto 10 | discriminate].
      * destruct (negb _); discriminate.
      * destruct l; discriminate.
      * destruct (map_to_list d); discriminate.
    + intros [-> | [(z & -> & Hz) | (f & -> & Hf)]]; cbn [truthy].
      * eexists; reflexivity.
      * destruct (Z.eqb_spec z 0); [contradiction | eexists; reflexivity].
      * rewrite Hf. eexists; reflexivity.
  - intros plants names -> H. rewrite extract_plant_names_list in H.
    injection H as <-. apply omap_length_le.
Qed.

(** X18: users in the legacy format (dictionaries whose plants are a list
    of names), such as the sample users of [/users], come out of
    [normalize_user_data_for_community] as they went in. *)
Theorem legacy_users_unchanged
    (keys_in_order : dict -> list string) (users_data : list pyval)
    (Hlegacy : Forall legacy_user users_data) :
  normalize_user_data_for_community keys_in_order (PList users_data) = Ok users_data.
Proof.
  unfold normalize_user_data_for_community. cbn [py_iter bind].
  exact (normalize_users_legacy keys_in_order users_data Hlegacy).
Qed.

Lemma legacy_users_unchanged_witness :
  normalize_user_data_for_community map_order (PList users) = Ok users.
Proof.
  apply (legacy_users_unchanged map_order users).
  repeat constructor; eexists _, _; (split; [reflexivity|]); reflexivity.
Defined.

(** X19: what [normalize_user_data_for_community] returns for a list,
    whatever the order in which dictionaries give their keys: no more
    users than it was given, each of them a user of the list that had
    plants, with the names [extract_plant_names] gives for these in the
    place of the plants, and every other field as it was. *)
Theorem normalized_users_come_from_users
    (keys_in_order : dict -> list string)
    (users_data normalized_users : list pyval)
    (Hok : normalize_user_data_for_community keys_in_order (PList users_data)
           = Ok normalized_users) :
  Forall (normalized_user keys_in_order users_data) normalized_users
  /\ (length normalized_users <= length users_data)%nat.
Proof. exact (normalize_users_shape keys_in_order users_data normalized_users Hok). Qed.

Lemma normalized_users_come_from_users_witness :
  Forall (normalized_user map_order [ PInt 7; user "Aisha" [ "Guava" ] ])
    [ user "Aisha" [ "Guava" ] ]
  /\ (length [ user "Aisha" [ "Guava" ] ]
      <= length [ PInt 7; user "Aisha" [ "Guava" ] ])%nat.
Proof.
  apply (normalized_users_come_from_users map_order [ PInt 7; user "Aisha" [ "Guava" ] ]
           [ user "Aisha" [ "Guava" ] ]).
  unfold normalize_user_data_for_community. cbn [py_iter bind].
  change (normalize_users map_order [ PInt 7; user "Aisha" [ "Guava" ] ])
    with (normalize_users map_order [ user "Aisha" [ "Guava" ] ]).
  apply normalize_users_legacy.
  repeat constructor; eexists _, _; (split; [reflexivity|]); reflexivity.
Defined.

(* ===================================================================== *)
(** ** [gemini_client.py]: the two-call interface *)
(* ===================================================================== *)

(** The interface that [analyze_image_and_recommend_plants] replaced is
    still in the class: one call for the description of the location, one
    for the plants, each with a parser and a validator of its own. *)

(** [required_fields] of the two strict validators. *)
Definition required_field_names : list string :=
  [ "name"; "description"; "care_instructions"; "care_tips" ].

(** The loop [for field in required_fields: if field not in plant: raise]. *)
Fixpoint check_required_fields (fields : list string) (plant : pyval) : pyresult unit :=
  match fields with
  | [] => Ok tt
  | field :: fields =>
      let* present := py_in field plant in
      if present then check_required_fields fields plant
      else Raise (GeminiAPIError_default
                    ("Missing required field '" +:+ field +:+ "' in plant data"))
  end.

(** [_validate_plant_data]: the plant as the calls of [setdefault] leave
    it (the caller's dictionary is updated in place). *)
Definition _validate_plant_data (plant : pyval) : pyresult dict :=
  let* _ := check_required_fields required_field_names plant in
  match plant with
  | PDict plant =>
      let plant := setdefault "image" (PStr "") plant in
      let plant := setdefault "superimposed_image" (PStr "") plant in
      let plant := setdefault "AR_model" (PStr "") plant in
      let plant := setdefault "placement_confidence" (PFloat PyFloat.f0_0) plant in
      Ok plant
  | _ => Raise (PyError "AttributeError" "object has no attribute 'setdefault'")
  end.

(** [isinstance(v, (int, float))] ([bool] is a subclass of [int]), and the
    comparisons [v < 0.0] and [v > 1.0] of a number: an integer is compared
    by its exact value, [True] and [False] are 1 and 0. *)
Definition is_number (v : pyval) : bool :=
  match v with
  | PBool _ | PInt _ | PFloat _ => true
  | _ => false
  end.

Definition less_than_0 (v : pyval) : bool :=
  match v with
  | PInt z => z <? 0
  | PFloat f => PyFloat.ltb f PyFloat.f0_0
  | _ => false
  end.

Definition greater_than_1 (v : pyval) : bool :=
  match v with
  | PInt z => 1 <? z
  | PFloat f => PyFloat.ltb PyFloat.f1_0 f
  | _ => false
  end.

Definition _validate_plant_recommendation_data (plant : pyval) : pyresult dict :=
  let* _ := check_required_fields required_field_names plant in
  match plant with
  | PDict plant =>
      let plant := setdefault "image" (PStr "") plant in
      let plant := setdefault "AR_model" (PStr "") plant in
      let plant := setdefault "placement_confidence" (PFloat PyFloat.f0_0) plant in
      let plant :=
        match plant !! "superimposed_image" with
        | Some _ => plant
        | None => <["superimposed_image" := PStr ""]> plant
        end in
      match plant !! "placement_confidence" with
      | Some confidence =>
          if negb (is_number confidence)
             || less_than_0 confidence || greater_than_1 confidence
          then Ok (<["placement_confidence" := PFloat PyFloat.f0_5]> plant)
          else Ok plant
      | None => Ok plant
      end
  | _ => Raise (PyError "AttributeError" "object has no attribute 'setdefault'")
  end.

(** [response_text[:200] + "..." if len(response_text) > 200 else
    response_text] *)
Definition truncated (response_text : string) : string :=
  if (200 <? PyStr.len response_text)%nat
  then PyStr.take 200 response_text +:+ "..."
  else response_text.

Definition _create_fallback_response (response_text : string) : dict :=
  mk_dict
    [ ("description",
       PStr "Analysis completed, but detailed parsing failed. Please try again.");
      ("plants",
       PList [ PDict (mk_dict
         [ ("name", PStr "General Plant Recommendation");
           ("image", PStr "");
           ("superimposed_image", PStr "");
           ("description", PStr (truncated response_text));
           ("care_instructions",
            PStr "Please consult gardening resources for specific care instructions.");
           ("care_tips",
            PStr "Monitor plant health and adjust care based on environmental conditions.");
           ("AR_model", PStr "");
           ("placement_confidence", PFloat PyFloat.f0_5) ]) ]) ].

Definition _create_plant_recommendation_fallback : dict :=
  mk_dict
    [ ("plants",
       PList [ PDict (mk_dict
         [ ("name", PStr "General Plant Recommendation");
           ("image", PStr "");
           ("superimposed_image", PStr "");
           ("description",
            PStr "Unable to generate specific plant recommendations at this time. Please consult local gardening resources.");
           ("care_instructions",
            PStr "Follow general plant care guidelines for your climate zone.");
           ("care_tips",
            PStr "Monitor plant health and adjust care based on environmental conditions.");
           ("AR_model", PStr "");
           ("placement_confidence", PFloat PyFloat.f0_5) ]) ]) ].

Definition location_analysis_fallback : dict :=
  mk_dict
    [ ("description",
       PStr "Location analysis completed, but detailed parsing failed. The area appears suitable for plant growth.") ].

(** [except json.JSONDecodeError] *)
Definition is_JSONDecodeError (e : exn) : bool :=
  match e with
  | PyError cls _ => String.eqb cls "JSONDecodeError"
  | GeminiAPIError _ _ => false
  end.

(** The loop [for plant in plants: validate(plant)], with the plants as
    the validator leaves them. *)
Fixpoint validate_each (validate : pyval -> pyresult dict) (plants : list pyval)
  : pyresult (list pyval) :=
  match plants with
  | [] => Ok []
  | plant :: plants =>
      let* plant := validate plant in
      let* plants := validate_each validate plants in
      Ok (PDict plant :: plants)
  end.

(** [location[i]] and [len(location)] *)
Definition py_index (v : pyval) (i : nat) : pyresult pyval :=
  match v with
  | PList l =>
      match nth_error l i with
      | Some x => Ok x
      | None => Raise (PyError "IndexError" "list index out of range")
      end
  | PStr s =>
      match nth_error (PyStr.chars s) i with
      | Some c => Ok (PStr c)
      | None => Raise (PyError "IndexError" "string index out of range")
      end
  | PDict _ => Raise (PyError "KeyError" (NilEmpty.string_of_uint (Nat.to_uint i)))
  | _ =>
      Raise (PyError "TypeError" ("'" +:+ type_name v +:+ "' object is not subscriptable"))
  end.

Definition py_len (v : pyval) : pyresult nat :=
  match v with
  | PList l => Ok (length l)
  | PStr s => Ok (PyStr.len s)
  | PDict d => Ok (length (map_to_list d))
  | _ =>
      Raise (PyError "TypeError" ("object of type '" +:+ type_name v +:+ "' has no len()"))
  end.

(** [latitude, longitude = location[0], location[1]] and
    [altitude = location[2] if len(location) > 2 else 0] *)
Definition coordinates (location : pyval) : pyresult (pyval * pyval * pyval) :=
  let* latitude := py_index location 0 in
  let* longitude := py_index location 1 in
  let* n := py_len location in
  let* altitude := if (2 <? n)%nat then py_index location 2 else Ok (PInt 0) in
  Ok (latitude, longitude, altitude).

Section TwoCalls.

Variable json_loads : string -> libresult pyval.
Variable b64decode : string -> libresult (list Byte.byte).
Variable Image : Type.
Variable Image_open : list Byte.byte -> libresult Image.
Variable Image_verify : Image -> libresult unit.
Variable generate_content : string -> Image -> libresult response.
(** [_build_location_analysis_prompt] and
    [_build_plant_recommendation_prompt]: f-strings over their
    arguments. *)
Variable _build_location_analysis_prompt : pyval -> pyval -> pyval -> string.
Variable _build_plant_recommendation_prompt : pyval -> pyval -> pyval -> pyval -> string.

(** [json.loads(None)] *)
Definition json_loads_None : exn :=
  PyError "TypeError" "the JSON object must be str, bytes or bytearray, not NoneType".

(** *** [_process_location_analysis_response] *)

Definition _process_location_analysis_response_try (response : response)
  : pyresult dict :=
  let* response_text := first_part_text response in
  match response_text with
  | None => Raise json_loads_None
  | Some response_text =>
      match run (json_loads response_text) with
      | Raise e =>
          if is_JSONDecodeError e then Ok location_analysis_fallback else Raise e
      | Ok parsed_response =>
          match parsed_response with
          | PDict d =>
              match d !! "description" with
              | Some _ => Ok d
              | None =>
                  Raise (GeminiAPIError_default
                           "Missing description field in location analysis response")
              end
          | _ => Raise (GeminiAPIError_default "Invalid response format")
          end
      end
  end.

Definition _process_location_analysis_response (response : response) : pyresult dict :=
  try_except (_process_location_analysis_response_try response)
    (fun e =>
       Raise (GeminiAPIError_default
                ("Failed to process location analysis response: " +:+ str_exn e))).

(** *** [_process_api_response] *)

Definition _process_api_response_try (response : response) : pyresult dict :=
  let* response_text := first_part_text response in
  match response_text with
  | None => Raise json_loads_None
  | Some response_text =>
      match run (json_loads response_text) with
      | Raise e =>
          if is_JSONDecodeError e then Ok (_create_fallback_response response_text)
          else Raise e
      | Ok parsed_response =>
          match parsed_response with
          | PDict d =>
              match d !! "description", d !! "plants" with
              | Some _, Some plants =>
                  match plants with
                  | PList plants =>
                      let* plants := validate_each _validate_plant_data plants in
                      Ok (<["plants" := PList plants]> d)
                  | _ => Raise (GeminiAPIError_default "Plants field must be a list")
                  end
              | _, _ =>
                  Raise (GeminiAPIError_default "Missing required fields in response")
              end
          | _ => Raise (GeminiAPIError_default "Invalid response format")
          end
      end
  end.

Definition _process_api_response (response : response) : pyresult dict :=
  try_except (_process_api_response_try response)
    (fun e => Raise (GeminiAPIError_default ("Failed to process response: " +:+ str_exn e))).

(** *** [_process_plant_recommendation_response] *)

Definition _process_plant_recommendation_response_try (response : response)
  : pyresult dict :=
  let* response_text := first_part_text response in
  match response_text with
  | None => Raise json_loads_None
  | Some response_text =>
      match run (json_loads response_text) with
      | Raise e =>
          if is_JSONDecodeError e then Ok _create_plant_recommendation_fallback
          else Raise e
      | Ok parsed_response =>
          match parsed_response with
          | PDict d =>
              match d !! "plants" with
              | Some plants =>
                  match plants with
                  | PList plants =>
                      let* plants :=
                        validate_each _validate_plant_recommendation_data plants in
                      Ok (<["plants" := PList plants]> d)
                  | _ => Raise (GeminiAPIError_default "Plants field must be a list")
                  end
              | None => Raise (GeminiAPIError_default "Missing plants field in response")
              end
          | _ => Raise (GeminiAPIError_default "Invalid response format")
          end
      end
  end.

Definition _process_plant_recommendation_response (response : response)
  : pyresult dict :=
  try_except (_process_plant_recommendation_response_try response)
    (fun e =>
       Raise (GeminiAPIError_default
                ("Failed to process plant recommendation response: " +:+ str_exn e))).

(** *** [analyze_location_and_plants], [get_plant_recommendations_with_images] *)

Definition analyze_location_and_plants_try
    (self : GeminiClient) (image_data location : pyval)
  : pyresult dict * list api_call :=
  match model self with
  | None => (Raise (GeminiAPIError_default "Model not authenticated"), [])
  | Some _ =>
      match _prepare_image_for_api b64decode Image Image_open Image_verify image_data with
      | Raise e => (Raise e, [])
      | Ok processed_image =>
          match coordinates location with
          | Raise e => (Raise e, [])
          | Ok (latitude, longitude, altitude) =>
              let prompt :=
                _build_location_analysis_prompt latitude longitude altitude in
              match run (Image_open processed_image) with
              | Raise e => (Raise e, [])
              | Ok image =>
                  let calls :=
                    [ {| call_prompt := prompt; call_image := processed_image |} ] in
                  match run (generate_content prompt image) with
                  | Raise e => (Raise e, calls)
                  | Ok response => (_process_location_analysis_response response, calls)
                  end
              end
          end
      end
  end.

Definition analyze_location_and_plants
    (self : GeminiClient) (image_data location : pyval)
  : pyresult dict * list api_call :=
  let '(r, calls) := analyze_location_and_plants_try self image_data location in
  (try_except r
     (fun e => Raise (GeminiAPIError_default ("Location analysis failed: " +:+ str_exn e))),
   calls).

Definition get_plant_recommendations_with_images_try
    (self : GeminiClient) (image_data location location_description : pyval)
  : pyresult dict * list api_call :=
  match model self with
  | None => (Raise (GeminiAPIError_default "Model not authenticated"), [])
  | Some _ =>
      match _prepare_image_for_api b64decode Image Image_open Image_verify image_data with
      | Raise e => (Raise e, [])
      | Ok processed_image =>
          match coordinates location with
          | Raise e => (Raise e, [])
          | Ok (latitude, longitude, altitude) =>
              let prompt :=
                _build_plant_recommendation_prompt latitude longitude altitude
                  location_description in
              match run (Image_open processed_image) with
              | Raise e => (Raise e, [])
              | Ok image =>
                  let calls :=
                    [ {| call_prompt := prompt; call_image := processed_image |} ] in
                  match run (generate_content prompt image) with
                  | Raise e => (Raise e, calls)
                  | Ok response => (_process_plant_recommendation_response response, calls)
                  end
              end
          end
      end
  end.

Definition get_plant_recommendations_with_images
    (self : GeminiClient) (image_data location location_description : pyval)
  : pyresult dict * list api_call :=
  let '(r, calls) := get_plant_recommendations_with_images_try self image_data location location_description in
  (try_except r
     (fun e => Raise (GeminiAPIError_default ("Plant recommendation failed: " +:+ str_exn e))),
   calls).

End TwoCalls.

(** A plant with the eight fields of the schema, and the numbers the
    recommendation validator lets through as a confidence: [True],
    [False], the integers 0 and 1, and a float that is neither below 0.0
    nor above 1.0, which is a float of the interval or NaN. *)
Definition optional_fields : list string :=
  [ "image"; "superimposed_image"; "AR_model"; "placement_confidence" ].

Definition complete_plant (plant : pyval) : Prop :=
  exists d, plant = PDict d /\ Forall (fun k => is_Some (d !! k)) validated_fields.

Definition accepted_confidence (v : pyval) : Prop :=
  match v with
  | PBool _ => True
  | PInt z => z = 0 \/ z = 1
  | PFloat c => PyFloat.in_unit_interval c = true \/ PyFloat.is_nan c = true
  | _ => False
  end.

(** Inputs for the examples below. *)
Module Sample2.

(** A plant with the required fields and nothing else; the same with NaN
    for its confidence. *)
Definition bare_plant : dict :=
  mk_dict [ ("name", PStr "Fern");
            ("description", PStr "");
            ("care_instructions", PInt 3);
            ("care_tips", PStr "Mist the fronds.") ].

Definition nan_plant : dict :=
  <["placement_confidence" := PFloat S754_nan]> bare_plant.

End Sample2.

Lemma check_required_fields_dict (fields : list string) (d : dict) :
  (Forall (fun f => is_Some (d !! f)) fields
   /\ check_required_fields fields (PDict d) = Ok tt)
  \/ (exists f, f ∈ fields /\ d !! f = None
                /\ check_required_fields fields (PDict d)
                   = Raise (GeminiAPIError_default
                              ("Missing required field '" +:+ f +:+ "' in plant data"))).
Proof.
  induction fields as [|f fields IH]; [left; split; [constructor | reflexivity]|].
  cbn [check_required_fields py_in bind].
  destruct (d !! f) as [v|] eqn:E.
  - rewrite bool_decide_eq_true_2 by eauto.
    destruct IH as [[Hall Hok] | (f' & Hin & Hnone & Hraise)].
    + left. split; [constructor; [rewrite E; eauto | exact Hall] | exact Hok].
    + right. exists f'. split; [right; exact Hin|]. split; assumption.
  - rewrite bool_decide_eq_false_2 by (intros [? ?]; discriminate).
    right. exists f. split; [left|]. split; [exact E | reflexivity].
Qed.

Lemma strict_validators_need_dict (plant : pyval) (d' : dict) :
  _validate_plant_data plant = Ok d'
  \/ _validate_plant_recommendation_data plant = Ok d' ->
  exists d, plant = PDict d.
Proof.
  unfold _validate_plant_data, _validate_plant_recommendation_data.
  destruct plant as [|b|z|f|s|l|d]; [| | | | | |eauto];
    destruct (check_required_fields required_field_names _) as [[]|e];
    cbn [bind]; intros [H|H]; discriminate.
Qed.

Lemma setdefault_keeps (d : dict) (key k : string) (v x : pyval) :
  d !! k = Some x -> setdefault key v d !! k = Some x.
Proof.
  intros Hk. unfold setdefault. destruct (d !! key) eqn:E; [exact Hk|].
  rewrite lookup_insert_ne; [exact Hk|]. intros ->. congruence.
Qed.

(** *** [_validate_plant_data] *)

Lemma validate_plant_data_ok (d d' : dict) :
  _validate_plant_data (PDict d) = Ok d' ->
  Forall (fun f => is_Some (d !! f)) required_field_names
  /\ Forall (fun k => is_Some (d' !! k)) optional_fields
  /\ (forall k x, d !! k = Some x -> d' !! k = Some x)
  /\ (forall k, k ∉ optional_fields -> d' !! k = d !! k).
Proof.
  unfold _validate_plant_data.
  destruct (check_required_fields_dict required_field_names d)
    as [[Hall ->] | (f & _ & _ & ->)]; [|discriminate].
  cbn [bind]. intros H%Ok_inj. subst d'.
  split; [exact Hall|]. split; [|split].
  - unfold optional_fields. repeat constructor.
    + do 3 apply setdefault_is_Some. apply setdefault_present.
    + do 2 apply setdefault_is_Some. apply setdefault_present.
    + apply setdefault_is_Some. apply setdefault_present.
    + apply setdefault_present.
  - intros k x Hk. do 4 apply setdefault_keeps. exact Hk.
  - intros k. unfold optional_fields. rewrite !not_elem_of_cons.
    intros (H1 & H2 & H3 & H4 & _).
    rewrite !setdefault_lookup_ne by congruence. reflexivity.
Qed.

Lemma validate_plant_data_accepts (d : dict) :
  Forall (fun f => is_Some (d !! f)) required_field_names ->
  exists d', _validate_plant_data (PDict d) = Ok d'.
Proof.
  intros Hall. unfold _validate_plant_data.
  destruct (check_required_fields_dict required_field_names d)
    as [[_ ->] | (f & Hin & Hnone & _)]; [cbn [bind]; eauto|].
  rewrite Forall_forall in Hall. destruct (Hall f Hin) as [x Hx]. congruence.
Qed.

(** *** [_validate_plant_recommendation_data] *)

Lemma accepted_confidence_checks (v : pyval) :
  negb (is_number v) || less_than_0 v || greater_than_1 v = false ->
  accepted_confidence v.
Proof.
  destruct v as [|b|z|c|s|l|d]; cbn [is_number negb orb less_than_0 greater_than_1];
    try discriminate; [exact (fun _ => I) | |].
  - intros [H0 H1]%orb_false_elim. cbn [accepted_confidence]. lia.
  - intros [H0 H1]%orb_false_elim. cbn [accepted_confidence].
    destruct (PyFloat.is_nan c) eqn:Hnan; [right; reflexivity | left].
    exact (range_checks_in_unit_interval c Hnan H0 H1).
Qed.

Lemma validate_plant_recommendation_data_ok (d d' : dict) :
  _validate_plant_recommendation_data (PDict d) = Ok d' ->
  Forall (fun f => is_Some (d !! f)) required_field_names
  /\ Forall (fun k => is_Some (d' !! k)) optional_fields
  /\ (exists v, d' !! "placement_confidence" = Some v /\ accepted_confidence v)
  /\ (forall k x, k <> "placement_confidence" -> d !! k = Some x -> d' !! k = Some x)
  /\ (forall k, k ∉ optional_fields -> d' !! k = d !! k).
Proof.
  unfold _validate_plant_recommendation_data.
  destruct (check_required_fields_dict required_field_names d)
    as [[Hall ->] | (f & _ & _ & ->)]; [|discriminate].
  cbn [bind].
  set (d3 := setdefault "placement_confidence" (PFloat PyFloat.f0_0)
               (setdefault "AR_model" (PStr "") (setdefault "image" (PStr "") d))).
  set (d4 := match d3 !! "superimposed_image" with
             | Some _ => d3
             | None => <["superimposed_image" := PStr ""]> d3
             end).
  assert (H3some : forall k, k = "image" \/ k = "AR_model" \/ k = "placement_confidence" ->
                             is_Some (d3 !! k)).
  { intros k [-> | [-> | ->]]; unfold d3.
    - do 2 apply setdefault_is_Some. apply setdefault_present.
    - apply setdefault_is_Some. apply setdefault_present.
    - apply setdefault_present. }
  assert (H3keeps : forall k x, d !! k = Some x -> d3 !! k = Some x).
  { intros k x Hk. unfold d3. do 3 apply setdefault_keeps. exact Hk. }
  assert (H3other : forall k, k ∉ optional_fields -> d3 !! k = d !! k).
  { intros k. unfold optional_fields, d3. rewrite !not_elem_of_cons.
    intros (H1 & H2 & H3 & H4 & _).
    rewrite !setdefault_lookup_ne by congruence. reflexivity. }
  assert (H4ne : forall k, k <> "superimposed_image" -> d4 !! k = d3 !! k).
  { intros k Hk. unfold d4. destruct (d3 !! "superimposed_image"); [reflexivity|].
    apply lookup_insert_ne. congruence. }
  assert (H4keeps : forall k x, d3 !! k = Some x -> d4 !! k = Some x).
  { intros k x Hk. unfold d4.
    destruct (d3 !! "superimposed_image") eqn:E; [exact Hk|].
    rewrite lookup_insert_ne; [exact Hk|]. intros <-. congruence. }
  assert (H4super : is_Some (d4 !! "superimposed_image")).
  { unfold d4. destruct (d3 !! "superimposed_image") eqn:E; [rewrite E; eauto|].
    rewrite lookup_insert_eq. eauto. }
  assert (H4some : Forall (fun k => is_Some (d4 !! k)) optional_fields).
  { unfold optional_fields. repeat constructor; [| exact H4super | |];
      (rewrite H4ne by discriminate; apply H3some; auto). }
  destruct (H3some "placement_confidence" ltac:(auto)) as [confidence Hconfidence].
  rewrite (H4ne "placement_confidence" ltac:(discriminate)), Hconfidence.
  assert (Hfinal : forall d',
             (d' = d4 /\ accepted_confidence confidence)
             \/ d' = <["placement_confidence" := PFloat PyFloat.f0_5]> d4 ->
             Forall (fun f => is_Some (d !! f)) required_field_names
             /\ Forall (fun k => is_Some (d' !! k)) optional_fields
             /\ (exists v, d' !! "placement_confidence" = Some v /\ accepted_confidence v)
             /\ (forall k x, k <> "placement_confidence" ->
                             d !! k = Some x -> d' !! k = Some x)
             /\ (forall k, k ∉ optional_fields -> d' !! k = d !! k)).
  { intros d0 [[-> Hacc] | ->]; (split; [exact Hall|]).
    - split; [exact H4some|]. split; [|split].
      + exists confidence. split; [|exact Hacc].
        rewrite H4ne by discriminate. exact Hconfidence.
      + intros k x _ Hk. apply H4keeps, H3keeps, Hk.
      + intros k Hk. rewrite H4ne, (H3other k Hk); [reflexivity|].
        intros ->. apply Hk. unfold optional_fields. rewrite !elem_of_cons. auto.
    - split; [|split; [|split]].
      + eapply Forall_impl; [exact H4some|]. intros k Hk.
        destruct (decide ("placement_confidence" = k)) as [<-|Hne];
          [rewrite lookup_insert_eq; eauto | rewrite lookup_insert_ne by exact Hne; exact Hk].
      + exists (PFloat PyFloat.f0_5). split; [apply lookup_insert_eq|].
        left. reflexivity.
      + intros k x Hne Hk. rewrite lookup_insert_ne by congruence.
        apply H4keeps, H3keeps, Hk.
      + intros k Hk. rewrite lookup_insert_ne.
        * rewrite H4ne, (H3other k Hk); [reflexivity|].
          intros ->. apply Hk. unfold optional_fields. rewrite !elem_of_cons. auto.
        * intros <-. apply Hk. unfold optional_fields. rewrite !elem_of_cons. auto 10. }
  destruct (negb (is_number confidence) || less_than_0 confidence
            || greater_than_1 confidence) eqn:Hcheck;
    intros H%Ok_inj; subst d'; apply Hfinal; [right; reflexivity | left].
  split; [reflexivity|]. exact (accepted_confidence_checks confidence Hcheck).
Qed.

Lemma validate_plant_recommendation_data_accepts (d : dict) :
  Forall (fun f => is_Some (d !! f)) required_field_names ->
  exists d', _validate_plant_recommendation_data (PDict d) = Ok d'.
Proof.
  intros Hall. unfold _validate_plant_recommendation_data.
  destruct (check_required_fields_dict required_field_names d)
    as [[_ ->] | (f & Hin & Hnone & _)].
  - cbn [bind].
    repeat match goal with
           | |- context [match ?x with _ => _ end] => destruct x
           end; eauto.
  - rewrite Forall_forall in Hall. destruct (Hall f Hin) as [x Hx]. congruence.
Qed.

Lemma complete_plant_intro (d : dict) :
  Forall (fun f => is_Some (d !! f)) required_field_names ->
  Forall (fun k => is_Some (d !! k)) optional_fields ->
  complete_plant (PDict d).
Proof.
  intros Hreq Hopt. exists d. split; [reflexivity|].
  unfold validated_fields, required_field_names, optional_fields in *.
  inversion_clear Hreq as [|? ? Hname Hreq1]. inversion_clear Hreq1 as [|? ? Hdesc Hreq2].
  inversion_clear Hreq2 as [|? ? Hinstr Hreq3]. inversion_clear Hreq3 as [|? ? Htips _].
  inversion_clear Hopt as [|? ? Himage Hopt1]. inversion_clear Hopt1 as [|? ? Hsuper Hopt2].
  inversion_clear Hopt2 as [|? ? Har Hopt3]. inversion_clear Hopt3 as [|? ? Hconf _].
  repeat constructor; assumption.
Qed.

Lemma validate_plant_data_complete (plant : pyval) (d' : dict) :
  _validate_plant_data plant = Ok d' -> complete_plant (PDict d').
Proof.
  intros H. destruct (strict_validators_need_dict plant d' (or_introl H)) as [d ->].
  destruct (validate_plant_data_ok d d' H) as (Hreq & Hopt & Hkeeps & _).
  apply complete_plant_intro; [|exact Hopt].
  eapply Forall_impl; [exact Hreq|]. intros f [x Hx]. rewrite (Hkeeps f x Hx). eauto.
Qed.

Lemma validate_plant_recommendation_data_complete (plant : pyval) (d' : dict) :
  _validate_plant_recommendation_data plant = Ok d' ->
  complete_plant (PDict d')
  /\ exists v, d' !! "placement_confidence" = Some v /\ accepted_confidence v.
Proof.
  intros H. destruct (strict_validators_need_dict plant d' (or_intror H)) as [d ->].
  destruct (validate_plant_recommendation_data_ok d d' H)
    as (Hreq & Hopt & Hconfidence & Hkeeps & _).
  split; [|exact Hconfidence].
  apply complete_plant_intro; [|exact Hopt].
  rewrite Forall_forall. intros f Hin.
  rewrite Forall_forall in Hreq. destruct (Hreq f Hin) as [x Hx].
  rewrite (Hkeeps f x); [eauto | | exact Hx].
  intros ->. revert Hin. unfold required_field_names.
  rewrite !elem_of_cons, elem_of_nil. intros [H'|[H'|[H'|[H'|[]]]]]; discriminate.
Qed.

(** X20: [_validate_plant_data] only adds: when it accepts a plant, the
    plant is a dictionary that had the four required fields, the result
    has the four optional fields as well, and every field the plant had
    keeps its value, whatever that is. *)
Theorem strict_validation_adds_defaults_only (plant : pyval) (d' : dict)
    (Hvalid : _validate_plant_data plant = Ok d') :
  exists d, plant = PDict d
    /\ Forall (fun f => is_Some (d !! f)) required_field_names
    /\ complete_plant (PDict d')
    /\ (forall k x, d !! k = Some x -> d' !! k = Some x)
    /\ (forall k, k ∉ optional_fields -> d' !! k = d !! k).
Proof.
  destruct (strict_validators_need_dict plant d' (or_introl Hvalid)) as [d ->].
  destruct (validate_plant_data_ok d d' Hvalid) as (Hreq & _ & Hkeeps & Hother).
  exists d. split; [reflexivity|]. split; [exact Hreq|].
  split; [exact (validate_plant_data_complete (PDict d) d' Hvalid)|].
  split; assumption.
Qed.

Lemma strict_validation_adds_defaults_only_witness :
  exists d' d,
    _validate_plant_data (PDict Sample2.bare_plant) = Ok d'
    /\ PDict Sample2.bare_plant = PDict d
    /\ Forall (fun f => is_Some (d !! f)) required_field_names
    /\ complete_plant (PDict d')
    /\ (forall k x, d !! k = Some x -> d' !! k = Some x)
    /\ (forall k, k ∉ optional_fields -> d' !! k = d !! k).
Proof.
  destruct (validate_plant_data_accepts Sample2.bare_plant) as [d' Hd'].
  { repeat constructor; eexists; reflexivity. }
  exists d'.
  destruct (strict_validation_adds_defaults_only (PDict Sample2.bare_plant) d' Hd')
    as (d & Hd & Hrest).
  exists d. split; [exact Hd'|]. split; [exact Hd | exact Hrest].
Defined.

(** X21: both strict validators accept a plant exactly when it is a
    dictionary with the four required fields; what the fields hold (a
    blank, a number) is not looked at. *)
Theorem strict_validation_accepts_iff (plant : pyval) :
  ((exists d', _validate_plant_data plant = Ok d')
   <-> (exists d, plant = PDict d
                  /\ Forall (fun f => is_Some (d !! f)) required_field_names))
  /\ ((exists d', _validate_plant_recommendation_data plant = Ok d')
      <-> (exists d, plant = PDict d
                     /\ Forall (fun f => is_Some (d !! f)) required_field_names)).
Proof.
  split; split.
  - intros [d' Hd'].
    destruct (strict_validators_need_dict plant d' (or_introl Hd')) as [d ->].
    exists d. split; [reflexivity|]. apply (validate_plant_data_ok d d' Hd').
  - intros (d & -> & Hall). exact (validate_plant_data_accepts d Hall).
  - intros [d' Hd'].
    destruct (strict_validators_need_dict plant d' (or_intror Hd')) as [d ->].
    exists d. split; [reflexivity|]. apply (validate_plant_recommendation_data_ok d d' Hd').
  - intros (d & -> & Hall). exact (validate_plant_recommendation_data_accepts d Hall).
Qed.

(** X22: a plant that [_validate_plant_recommendation_data] accepts has
    the eight fields of the schema, keeps every field it had other than
    the confidence, and its confidence is [True], [False], 0, 1, a float
    of [[0,1]] or NaN. *)
Theorem recommendation_validation_result (plant : pyval) (d' : dict)
    (Hvalid : _validate_plant_recommendation_data plant = Ok d') :
  exists d, plant = PDict d
    /\ complete_plant (PDict d')
    /\ (exists v, d' !! "placement_confidence" = Some v /\ accepted_confidence v)
    /\ (forall k x, k <> "placement_confidence" -> d !! k = Some x -> d' !! k = Some x).
Proof.
  destruct (strict_validators_need_dict plant d' (or_intror Hvalid)) as [d ->].
  destruct (validate_plant_recommendation_data_ok d d' Hvalid)
    as (_ & _ & _ & Hkeeps & _).
  destruct (validate_plant_recommendation_data_complete (PDict d) d' Hvalid)
    as [Hcomplete Hconfidence].
  exists d. split; [reflexivity|]. split; [exact Hcomplete|]. split; assumption.
Qed.

Lemma recommendation_validation_result_witness :
  exists d' d,
    _validate_plant_recommendation_data (PDict Sample2.bare_plant) = Ok d'
    /\ PDict Sample2.bare_plant = PDict d
    /\ complete_plant (PDict d')
    /\ (exists v, d' !! "placement_confidence" = Some v /\ accepted_confidence v)
    /\ (forall k x, k <> "placement_confidence" -> d !! k = Some x -> d' !! k = Some x).
Proof.
  destruct (validate_plant_recommendation_data_accepts Sample2.bare_plant) as [d' Hd'].
  { repeat constructor; eexists; reflexivity. }
  exists d'.
  destruct (recommendation_validation_result (PDict Sample2.bare_plant) d' Hd')
    as (d & Hd & Hrest).
  exists d. split; [exact Hd'|]. split; [exact Hd | exact Hrest].
Defined.

(** X23: NaN passes the range check of
    [_validate_plant_recommendation_data]: a plant with the required
    fields whose confidence is NaN is accepted with NaN for its
    confidence, not with 0.5. *)
Theorem recommendation_validation_keeps_nan (d : dict)
    (Hrequired : Forall (fun f => is_Some (d !! f)) required_field_names)
    (Hnan : d !! "placement_confidence" = Some (PFloat S754_nan)) :
  exists d', _validate_plant_recommendation_data (PDict d) = Ok d'
             /\ d' !! "placement_confidence" = Some (PFloat S754_nan).
Proof.
  unfold _validate_plant_recommendation_data.
  destruct (check_required_fields_dict required_field_names d)
    as [[_ ->] | (f & Hin & Hnone & _)].
  2:{ rewrite Forall_forall in Hrequired. destruct (Hrequired f Hin) as [x Hx]. congruence. }
  cbn [bind].
  set (d3 := setdefault "placement_confidence" (PFloat PyFloat.f0_0)
               (setdefault "AR_model" (PStr "") (setdefault "image" (PStr "") d))).
  assert (H3 : d3 !! "placement_confidence" = Some (PFloat S754_nan)).
  { unfold d3. do 3 apply setdefault_keeps. exact Hnan. }
  destruct (d3 !! "superimposed_image") eqn:E.
  - rewrite H3. cbn. eauto.
  - rewrite lookup_insert_ne by discriminate. rewrite H3. cbn.
    eexists. split; [reflexivity|]. rewrite lookup_insert_ne by discriminate. exact H3.
Qed.

Lemma recommendation_validation_keeps_nan_witness :
  exists d', _validate_plant_recommendation_data (PDict Sample2.nan_plant) = Ok d'
             /\ d' !! "placement_confidence" = Some (PFloat S754_nan).
Proof.
  apply (recommendation_validation_keeps_nan Sample2.nan_plant).
  - repeat constructor; eexists; reflexivity.
  - reflexivity.
Defined.

Lemma validate_each_Forall (validate : pyval -> pyresult dict) (P : pyval -> Prop)
    (plants plants' : list pyval) :
  (forall plant d, validate plant = Ok d -> P (PDict d)) ->
  validate_each validate plants = Ok plants' ->
  Forall P plants' /\ length plants' = length plants.
Proof.
  intros HP. revert plants'.
  induction plants as [|plant plants IH]; intros plants' H; cbn [validate_each] in H.
  { injection H as <-. split; [constructor | reflexivity]. }
  destruct (validate plant) as [d|e] eqn:Hd; [|discriminate]. cbn [bind] in H.
  destruct (validate_each validate plants) as [rest|e]; [|discriminate].
  cbn [bind] in H. injection H as <-.
  destruct (IH rest eq_refl) as [Hall Hlen].
  split; [constructor; [exact (HP plant d Hd) | exact Hall] | cbn [length]; lia].
Qed.

(** X24: on a plant record that is in order (the four texts not blank,
    with the white space of [str.strip]; the three optional strings
    present; the confidence a float of [[0,1]]) the three validators
    agree: each returns the record as it is. *)
Theorem validators_agree_on_clean_plants
    (float_of_str : string -> option spec_float) (plant : pyval)
    (Hwell_formed : well_formed_plant plant) :
  exists d, plant = PDict d
    /\ _validate_comprehensive_plant_data float_of_str plant = Ok d
    /\ _validate_plant_data plant = Ok d
    /\ _validate_plant_recommendation_data plant = Ok d.
Proof.
  pose proof (well_formed_plant_clean plant Hwell_formed) as Hclean.
  destruct (validate_clean_plant float_of_str plant Hclean) as (d & -> & Hlenient).
  exists d. split; [reflexivity|]. split; [exact Hlenient|].
  destruct Hclean as (d0 & [= <-] & (n & Hn & _) & (de & Hde & _) & (ci & Hci & _)
                      & (ct & Hct & _) & [im Him] & [ar Har] & [su Hsu] & (c & Hc & Hrange)).
  assert (Hcheck : check_required_fields required_field_names (PDict d) = Ok tt).
  { destruct (check_required_fields_dict required_field_names d)
      as [[_ Hok] | (f & Hin & Hnone & _)]; [exact Hok|].
    revert Hin. unfold required_field_names. rewrite !elem_of_cons, elem_of_nil.
    intros [-> | [-> | [-> | [-> | []]]]]; congruence. }
  destruct (in_unit_interval_checks c Hrange) as [H0 H1].
  split.
  - unfold _validate_plant_data. rewrite Hcheck. cbn [bind].
    unfold setdefault. rewrite Him, Hsu, Har, Hc. reflexivity.
  - unfold _validate_plant_recommendation_data. rewrite Hcheck. cbn [bind].
    unfold setdefault. rewrite Him, Har, Hc, Hsu, Hc.
    cbn [is_number negb less_than_0 greater_than_1]. rewrite H0, H1. reflexivity.
Qed.

Lemma validators_agree_on_clean_plants_witness :
  exists d, Mock.good_fern = PDict d
    /\ _validate_comprehensive_plant_data Mock.float_of_str Mock.good_fern = Ok d
    /\ _validate_plant_data Mock.good_fern = Ok d
    /\ _validate_plant_recommendation_data Mock.good_fern = Ok d.
Proof.
  apply (validators_agree_on_clean_plants Mock.float_of_str Mock.good_fern).
  eexists. split; [reflexivity|].
  repeat split; eexists; (split; reflexivity) || reflexivity.
Defined.

(** *** [_create_fallback_response] *)

Lemma len_app (a b : string) :
  PyStr.len (a +:+ b) = (PyStr.len a + PyStr.len b)%nat.
Proof.
  induction a as [|c a IH]; [reflexivity|].
  change (String c a +:+ b) with (String c (a +:+ b)).
  cbn [PyStr.len]. rewrite IH. destruct (PyStr.is_continuation c); reflexivity.
Qed.

Lemma len_take (n : nat) (s : string) :
  PyStr.len (PyStr.take n s) = Nat.min n (PyStr.len s).
Proof.
  revert n. induction s as [|c s IH]; intros n; [destruct n; reflexivity|].
  cbn [PyStr.take PyStr.len].
  destruct (PyStr.is_continuation c) eqn:Hc.
  - cbn [PyStr.len]. rewrite Hc. apply IH.
  - destruct n as [|n]; [reflexivity|].
    cbn [PyStr.len]. rewrite Hc, IH. reflexivity.
Qed.

Lemma take_prefix (n : nat) (s : string) :
  exists rest, s = PyStr.take n s +:+ rest.
Proof.
  revert n. induction s as [|c s IH]; intros n; [exists ""; reflexivity|].
  cbn [PyStr.take].
  destruct (PyStr.is_continuation c).
  - destruct (IH n) as [rest Hrest]. exists rest.
    change (String c (PyStr.take n s) +:+ rest)
      with (String c (PyStr.take n s +:+ rest)).
    rewrite <- Hrest. reflexivity.
  - destruct n as [|n]; [exists (String c s); reflexivity|].
    destruct (IH n) as [rest Hrest]. exists rest.
    change (String c (PyStr.take n s) +:+ rest)
      with (String c (PyStr.take n s +:+ rest)).
    rewrite <- Hrest. reflexivity.
Qed.

(** X25: the fallback of the strict parser quotes at most 203 characters
    (code points) of the upstream text: a text of 200 characters or fewer
    is the plant's description as it is, of a longer one the first 200
    characters are kept and ["..."] is put after them. *)
Theorem fallback_description_is_bounded (response_text : string) :
  exists (plant : dict) (description : string),
    _create_fallback_response response_text !! "plants" = Some (PList [PDict plant])
    /\ plant !! "description" = Some (PStr description)
    /\ (PyStr.len description <= 203)%nat
    /\ ((PyStr.len response_text <= 200)%nat -> description = response_text)
    /\ ((200 < PyStr.len response_text)%nat ->
        description = PyStr.take 200 response_text +:+ "..."
        /\ PyStr.len (PyStr.take 200 response_text) = 200%nat
        /\ exists rest, response_text = PyStr.take 200 response_text +:+ rest).
Proof.
  eexists _, (truncated response_text).
  split; [reflexivity|]. split; [reflexivity|].
  unfold truncated.
  destruct (Nat.ltb_spec 200 (PyStr.len response_text)) as [Hlong|Hshort].
  - split; [|split].
    + rewrite len_app, len_take. change (PyStr.len "...") with 3%nat. lia.
    + lia.
    + intros _. split; [reflexivity|]. split; [rewrite len_take; lia|].
      apply take_prefix.
  - split; [lia|]. split; [reflexivity | lia].
Qed.

(** *** The parsers of the two-call interface *)

(** What the recommendation parser leaves in its list: complete plants
    with a confidence the validator lets through. *)
Definition recommended_plant (plant : pyval) : Prop :=
  complete_plant plant
  /\ exists v, plant_field "placement_confidence" plant = Some v /\ accepted_confidence v.

(** X26: [_process_api_response] raises nothing but a [GeminiAPIError] of
    type ["general"] whose text starts with "Failed to process response: "
    (the errors it raises itself are caught and wrapped like any other).
    What it returns has a description and a list of plants, each of them a
    dictionary with the eight fields of the schema, and it was made of the
    text of the response's first part: the fallback that quotes that text
    when [json.loads] refused it as not being JSON, and otherwise the
    document [json.loads] read, with each plant of its list as
    [_validate_plant_data] left it, as many as the upstream sent. *)
Theorem strict_processing_outcomes
    (json_loads : string -> libresult pyval) (response : response) :
  match _process_api_response json_loads response with
  | Raise e =>
      exists message,
        e = GeminiAPIError ("Failed to process response: " +:+ message) "general"
  | Ok d =>
      is_Some (d !! "description")
      /\ exists response_text plants,
          first_part_text response = Ok (Some response_text)
          /\ d !! "plants" = Some (PList plants)
          /\ Forall complete_plant plants
          /\ ((d = _create_fallback_response response_text
               /\ exists cls message,
                   json_loads response_text = Raises cls message
                   /\ is_JSONDecodeError (PyError cls message) = true)
              \/ exists parsed upstream,
                  json_loads response_text = Returns (PDict parsed)
                  /\ parsed !! "plants" = Some (PList upstream)
                  /\ validate_each _validate_plant_data upstream = Ok plants
                  /\ d = <["plants" := PList plants]> parsed
                  /\ length plants = length upstream)
  end.
Proof.
  unfold _process_api_response.
  destruct (_process_api_response_try json_loads response) as [d|e] eqn:E;
    cbn [try_except]; [|eauto].
  unfold _process_api_response_try in E.
  destruct (first_part_text response) as [[response_text|]|e]; cbn [bind] in E;
    try discriminate.
  destruct (json_loads response_text) as [parsed|cls message] eqn:Hloads; cbn [run] in E.
  2:{ destruct (is_JSONDecodeError (PyError cls message)) eqn:Hjson; [|discriminate].
      apply Ok_inj in E. subst d. split; [eexists; reflexivity|].
      eexists response_text, _. split; [reflexivity|]. split; [reflexivity|].
      split; [|left; eauto].
      repeat constructor. eexists. split; [reflexivity|].
      repeat constructor; eexists; reflexivity. }
  destruct parsed as [| | | | | |parsed]; try discriminate.
  destruct (parsed !! "description") as [description|] eqn:Hdescription;
    [|destruct (parsed !! "plants"); discriminate].
  destruct (parsed !! "plants") as [[| | | | |upstream|]|] eqn:Hplants; try discriminate.
  destruct (validate_each _validate_plant_data upstream) as [plants|e] eqn:Hvalid;
    cbn [bind] in E; [|discriminate].
  apply Ok_inj in E. subst d.
  destruct (validate_each_Forall _validate_plant_data complete_plant upstream plants
              validate_plant_data_complete Hvalid) as [Hall Hlen].
  split; [rewrite lookup_insert_ne by discriminate; rewrite Hdescription; eauto|].
  exists response_text, plants. split; [reflexivity|].
  split; [apply lookup_insert_eq|]. split; [exact Hall|].
  right. exists parsed, upstream. auto 10.
Qed.

(** X27: [_process_plant_recommendation_response] raises nothing but a
    [GeminiAPIError] of type ["general"] whose text starts with "Failed to
    process plant recommendation response: "; what it returns has a list
    of plants, each with the eight fields of the schema and a confidence
    that is [True], [False], 0, 1, a float of [[0,1]] or NaN. *)
Theorem recommendation_processing_outcomes
    (json_loads : string -> libresult pyval) (response : response) :
  match _process_plant_recommendation_response json_loads response with
  | Raise e =>
      exists message,
        e = GeminiAPIError
              ("Failed to process plant recommendation response: " +:+ message) "general"
  | Ok d =>
      exists plants,
        d !! "plants" = Some (PList plants) /\ Forall recommended_plant plants
  end.
Proof.
  unfold _process_plant_recommendation_response.
  destruct (_process_plant_recommendation_response_try json_loads response)
    as [d|e] eqn:E; cbn [try_except]; [|eauto].
  unfold _process_plant_recommendation_response_try in E.
  destruct (first_part_text response) as [[response_text|]|e]; cbn [bind] in E;
    try discriminate.
  destruct (json_loads response_text) as [parsed|cls message] eqn:Hloads; cbn [run] in E.
  2:{ destruct (is_JSONDecodeError (PyError cls message)); [|discriminate].
      apply Ok_inj in E. subst d.
      eexists. split; [reflexivity|].
      repeat constructor.
      - eexists. split; [reflexivity|]. repeat constructor; eexists; reflexivity.
      - eexists. split; [reflexivity|]. left. reflexivity. }
  destruct parsed as [| | | | | |parsed]; try discriminate.
  destruct (parsed !! "plants") as [[| | | | |upstream|]|] eqn:Hplants; try discriminate.
  destruct (validate_each _validate_plant_recommendation_data upstream)
    as [plants|e] eqn:Hvalid; cbn [bind] in E; [|discriminate].
  apply Ok_inj in E. subst d.
  exists plants. split; [apply lookup_insert_eq|].
  apply (validate_each_Forall _validate_plant_recommendation_data recommended_plant
           upstream plants); [|exact Hvalid].
  intros plant d Hd. exact (validate_plant_recommendation_data_complete plant d Hd).
Qed.

(** X28: [_process_location_analysis_response] raises nothing but a
    [GeminiAPIError] of type ["general"] whose text starts with "Failed to
    process location analysis response: "; what it returns has a
    description, and is either the fixed fallback (the text was not JSON)
    or the upstream's object as it was parsed. *)
Theorem location_processing_outcomes
    (json_loads : string -> libresult pyval) (response : response) :
  match _process_location_analysis_response json_loads response with
  | Raise e =>
      exists message,
        e = GeminiAPIError
              ("Failed to process location analysis response: " +:+ message) "general"
  | Ok d =>
      is_Some (d !! "description")
      /\ (d = location_analysis_fallback
          \/ exists response_text,
              first_part_text response = Ok (Some response_text)
              /\ json_loads response_text = Returns (PDict d))
  end.
Proof.
  unfold _process_location_analysis_response.
  destruct (_process_location_analysis_response_try json_loads response)
    as [d|e] eqn:E; cbn [try_except]; [|eauto].
  unfold _process_location_analysis_response_try in E.
  destruct (first_part_text response) as [[response_text|]|e]; cbn [bind] in E;
    try discriminate.
  destruct (json_loads response_text) as [parsed|cls message] eqn:Hloads; cbn [run] in E.
  2:{ destruct (is_JSONDecodeError (PyError cls message)); [|discriminate].
      apply Ok_inj in E. subst d. split; [eexists; reflexivity | left; reflexivity]. }
  destruct parsed as [| | | | | |parsed]; try discriminate.
  destruct (parsed !! "description") as [description|] eqn:Hdescription; [|discriminate].
  apply Ok_inj in E. subst d. split; [rewrite Hdescription; eauto|].
  right. exists response_text. auto.
Qed.

(** *** The entry points of the two-call interface *)

(** A failure before the parser: no more than one call, and the error
    wrapped by the handler of the method. *)
Ltac wrapped_error :=
  split; [cbn; lia | cbn [try_except]; unfold GeminiAPIError_default; eauto].

(** X29: [analyze_location_and_plants] and
    [get_plant_recommendations_with_images] call the external service at
    most once; whatever fails, they raise a [GeminiAPIError] of type
    ["general"] whose text starts with "Location analysis failed: " or
    "Plant recommendation failed: "; and what they return is what their
    parser made of the answer to the one call, the call made with the
    prompt of the coordinates and the image of the prepared bytes. *)
Theorem two_call_outcomes
    (json_loads : string -> libresult pyval)
    (b64decode : string -> libresult (list Byte.byte))
    (Image : Type)
    (Image_open : list Byte.byte -> libresult Image)
    (Image_verify : Image -> libresult unit)
    (generate_content : string -> Image -> libresult response)
    (_build_location_analysis_prompt : pyval -> pyval -> pyval -> string)
    (_build_plant_recommendation_prompt : pyval -> pyval -> pyval -> pyval -> string)
    (self : GeminiClient) (image_data location location_description : pyval) :
  (let '(outcome, calls) :=
     analyze_location_and_plants json_loads b64decode Image Image_open Image_verify
       generate_content _build_location_analysis_prompt self image_data location in
   (length calls <= 1)%nat
   /\ match outcome with
      | Raise e =>
          exists message,
            e = GeminiAPIError ("Location analysis failed: " +:+ message) "general"
      | Ok d =>
          exists processed_image latitude longitude altitude image response,
            _prepare_image_for_api b64decode Image Image_open Image_verify image_data
            = Ok processed_image
            /\ coordinates location = Ok (latitude, longitude, altitude)
            /\ Image_open processed_image = Returns image
            /\ generate_content
                 (_build_location_analysis_prompt latitude longitude altitude) image
               = Returns response
            /\ calls
               = [ {| call_prompt :=
                        _build_location_analysis_prompt latitude longitude altitude;
                      call_image := processed_image |} ]
            /\ _process_location_analysis_response json_loads response = Ok d
      end)
  /\ (let '(outcome, calls) :=
        get_plant_recommendations_with_images json_loads b64decode Image Image_open
          Image_verify generate_content _build_plant_recommendation_prompt
          self image_data location location_description in
      (length calls <= 1)%nat
      /\ match outcome with
         | Raise e =>
             exists message,
               e = GeminiAPIError ("Plant recommendation failed: " +:+ message) "general"
         | Ok d =>
             exists processed_image latitude longitude altitude image response,
               _prepare_image_for_api b64decode Image Image_open Image_verify image_data
               = Ok processed_image
               /\ coordinates location = Ok (latitude, longitude, altitude)
               /\ Image_open processed_image = Returns image
               /\ generate_content
                    (_build_plant_recommendation_prompt latitude longitude altitude
                       location_description) image
                  = Returns response
               /\ calls
                  = [ {| call_prompt :=
                           _build_plant_recommendation_prompt latitude longitude
                             altitude location_description;
                         call_image := processed_image |} ]
               /\ _process_plant_recommendation_response json_loads response = Ok d
         end).
Proof.
  split.
  - unfold analyze_location_and_plants, analyze_location_and_plants_try.
    destruct (model self); [|wrapped_error].
    destruct (_prepare_image_for_api _ _ _ _ image_data) as [processed_image|e];
      [|wrapped_error].
    destruct (coordinates location) as [[[latitude longitude] altitude]|e];
      [|wrapped_error].
    destruct (Image_open processed_image) as [image|cls message] eqn:Hopen; cbn [run];
      [|wrapped_error].
    destruct (generate_content _ image) as [response|cls message] eqn:Hcall; cbn [run];
      [|wrapped_error].
    split; [cbn; lia|].
    destruct (_process_location_analysis_response json_loads response) as [d|e] eqn:E;
      cbn [try_except]; unfold GeminiAPIError_default; [|eauto].
    exists processed_image, latitude, longitude, altitude, image, response. auto 10.
  - unfold get_plant_recommendations_with_images,
      get_plant_recommendations_with_images_try.
    destruct (model self); [|wrapped_error].
    destruct (_prepare_image_for_api _ _ _ _ image_data) as [processed_image|e];
      [|wrapped_error].
    destruct (coordinates location) as [[[latitude longitude] altitude]|e];
      [|wrapped_error].
    destruct (Image_open processed_image) as [image|cls message] eqn:Hopen; cbn [run];
      [|wrapped_error].
    destruct (generate_content _ image) as [response|cls message] eqn:Hcall; cbn [run];
      [|wrapped_error].
    split; [cbn; lia|].
    destruct (_process_plant_recommendation_response json_loads response)
      as [d|e] eqn:E; cbn [try_except]; unfold GeminiAPIError_default; [|eauto].
    exists processed_image, latitude, longitude, altitude, image, response. auto 10.
Qed.

(** X30: the two-call interface loses the type of an error.  For an image
    that [_prepare_image_for_api] refuses, given with a location of two
    components or more to an authenticated client,
    [analyze_image_and_recommend_plants] raises an error of type
    ["image"], which [/answer] turns into status 400, while
    [analyze_location_and_plants] raises one of type ["general"], which
    would be a 500; neither makes a call. *)
Theorem two_call_interface_loses_error_types
    (json_loads : string -> libresult pyval)
    (float_of_str : string -> option spec_float)
    (b64decode : string -> libresult (list Byte.byte))
    (Image : Type)
    (Image_open : list Byte.byte -> libresult Image)
    (Image_verify : Image -> libresult unit)
    (generate_content : string -> Image -> libresult response)
    (build_prompt _build_location_analysis_prompt : pyval -> pyval -> pyval -> string)
    (self : GeminiClient) (image_data latitude longitude : pyval) (rest : list pyval)
    (e : exn)
    (Hmodel : is_Some (model self))
    (Himage : truthy image_data = true)
    (Hrefused : _prepare_image_for_api b64decode Image Image_open Image_verify image_data
                = Raise e) :
  exists message,
    e = GeminiAPIError message "image"
    /\ analyze_image_and_recommend_plants json_loads float_of_str b64decode Image
         Image_open Image_verify generate_content build_prompt self image_data
         (PList (latitude :: longitude :: rest))
       = (Raise (GeminiAPIError ("Image processing failed: " +:+ message) "image"), [])
    /\ status_code_of (GeminiAPIError ("Image processing failed: " +:+ message) "image")
       = 400
    /\ analyze_location_and_plants json_loads b64decode Image Image_open Image_verify
         generate_content _build_location_analysis_prompt self image_data
         (PList (latitude :: longitude :: rest))
       = (Raise (GeminiAPIError ("Location analysis failed: " +:+ message) "general"), [])
    /\ status_code_of (GeminiAPIError ("Location analysis failed: " +:+ message) "general")
       = 500.
Proof.
  destruct Hmodel as [handle Hmodel].
  destruct (prepare_cases b64decode Image Image_open Image_verify image_data)
    as [[message Hm] | (s & payload & image_bytes & image & u & _ & _ & _ & _ & _ & _ & _ & Hok)];
    [|rewrite Hok in Hrefused; discriminate].
  rewrite Hm in Hrefused. injection Hrefused as <-.
  exists message. split; [reflexivity|]. split; [|split; [reflexivity|split; [|reflexivity]]].
  - unfold analyze_image_and_recommend_plants, analyze_image_and_recommend_plants_try.
    rewrite Hmodel, Himage, Hm. reflexivity.
  - unfold analyze_location_and_plants, analyze_location_and_plants_try.
    rewrite Hmodel, Hm. reflexivity.
Qed.

Lemma two_call_interface_loses_error_types_witness :
  exists message,
    GeminiAPIError "Invalid or corrupted image format: cannot identify image file" "image"
    = GeminiAPIError message "image"
    /\ analyze_image_and_recommend_plants Mock.json_loads_not_json Mock.float_of_str
         Mock.b64decode_small Mock.Image Mock.Image_open_none Mock.Image_verify_any
         Mock.generate_content_prose Mock.build_prompt Mock.client (PStr "AAAA")
         (PList (PInt 40 :: PInt (-74) :: []))
       = (Raise (GeminiAPIError ("Image processing failed: " +:+ message) "image"), [])
    /\ status_code_of (GeminiAPIError ("Image processing failed: " +:+ message) "image")
       = 400
    /\ analyze_location_and_plants Mock.json_loads_not_json Mock.b64decode_small
         Mock.Image Mock.Image_open_none Mock.Image_verify_any
         Mock.generate_content_prose Mock.build_prompt Mock.client (PStr "AAAA")
         (PList (PInt 40 :: PInt (-74) :: []))
       = (Raise (GeminiAPIError ("Location analysis failed: " +:+ message) "general"), [])
    /\ status_code_of (GeminiAPIError ("Location analysis failed: " +:+ message) "general")
       = 500.
Proof.
  apply (two_call_interface_loses_error_types Mock.json_loads_not_json Mock.float_of_str
           Mock.b64decode_small Mock.Image Mock.Image_open_none Mock.Image_verify_any
           Mock.generate_content_prose Mock.build_prompt Mock.build_prompt Mock.client
           (PStr "AAAA") (PInt 40) (PInt (-74)) []).
  - eexists. reflexivity.
  - reflexivity.
  - reflexivity.
Defined.
